(** * aioghost: the authenticated-request pipeline of the Ghost Admin API client

    A shallow embedding of [src/aioghost/client.py].  Python values that were
    decoded from JSON are an inductive type, Python exceptions are values of
    an inductive type, and an [async def] method is a function in a state and
    exception monad over the client object, the heap of HTTP sessions and the
    outside world (clock and network).

    Outside the model: JSON numbers that are not integers, exceptions that
    derive from [BaseException] only (task cancellation), and logging.
    Floating point is binary64 with round-to-nearest-even, the finite
    numbers being the rationals they stand for. *)

From stdpp Require Import gmap strings list fin_maps pretty.
From Stdlib Require Import ZArith Ascii QArith Qpower Qround Qabs Lqa.

Set Default Proof Using "Type".
Open Scope Z_scope.

(* ===================================================================== *)
(** * Python values                                                      *)
(* ===================================================================== *)

(** What [json.loads] returns: [None], [bool], [int], [str], [list] and
    [dict] with [str] keys. *)
#[warnings="-register-all"]
Inductive pyjson : Type :=
| JNull
| JBool (b : bool)
| JInt (n : Z)
| JStr (s : string)
| JList (l : list pyjson)
| JDict (d : gmap string pyjson).

(** Modelled from the spec: the module [aioghost/exceptions.py] is not part of
    the sources at hand.  The spec's taxonomy has a common base ([GhostError],
    the spec's ApiError when raised as such) and four kinds below it:
    AuthError, ConnectionError, NotFoundError, ValidationError.  The other
    constructors are the exceptions of Python and of aiohttp that the client
    code can meet; all of them derive from [Exception]. *)
Inductive exn : Type :=
| GhostError (msg : string)
| GhostAuthError (msg : string)
| GhostConnectionError (msg : string)
| GhostNotFoundError (msg : string)
| GhostValidationError (message : pyjson)
| ClientError (text : string)        (* aiohttp.ClientError and its subclasses *)
| JSONDecodeError                    (* json.JSONDecodeError, a ValueError *)
| ValueError (text : string)
| IndexError
| KeyError
| TypeError
| AttributeError
| OtherException (name : string).

Inductive result (A : Type) : Type :=
| Ok (a : A)
| Raise (e : exn).
Arguments Ok {A} a.
Arguments Raise {A} e.

(** [except ValueError]: the class and its subclasses. *)
Definition isinstance_ValueError (e : exn) : bool :=
  match e with
  | ValueError _ | JSONDecodeError => true
  | _ => false
  end.

Definition isinstance_ClientError (e : exn) : bool :=
  match e with
  | ClientError _ => true
  | _ => false
  end.

(** [except Exception]: every exception of the model. *)
Definition isinstance_Exception (e : exn) : bool := true.

(** [str(err)] where the client formats an exception into a message.  The
    messages the interpreter writes itself are left empty. *)
Definition py_str_exn (e : exn) : string :=
  match e with
  | GhostError t | GhostAuthError t | GhostConnectionError t
  | GhostNotFoundError t | ClientError t | ValueError t | OtherException t => t
  | _ => ""
  end.

Definition isinstance_GhostNotFoundError (e : exn) : bool :=
  match e with
  | GhostNotFoundError _ => true
  | _ => false
  end.

(** The five kinds of the client's own taxonomy. *)
Definition is_ghost_error (e : exn) : bool :=
  match e with
  | GhostError _ | GhostAuthError _ | GhostConnectionError _
  | GhostNotFoundError _ | GhostValidationError _ => true
  | _ => false
  end.

(** Truth value of an object, as [if x:] tests it. *)
Definition py_truthy (o : pyjson) : bool :=
  match o with
  | JNull => false
  | JBool b => b
  | JInt n => negb (n =? 0)
  | JStr s => negb (String.eqb s "")
  | JList l => match l with [] => false | _ => true end
  | JDict d => negb (Nat.eqb (size d) 0)
  end.

(** [o.get(key, dflt)]: only a [dict] has the method. *)
Definition py_get (o : pyjson) (key : string) (dflt : pyjson) : result pyjson :=
  match o with
  | JDict d => Ok (default dflt (d !! key))
  | _ => Raise AttributeError
  end.

(** A position [i] of a sequence of length [n]; a negative one counts from
    the end. *)
Definition py_index (n : nat) (i : Z) : option nat :=
  let j := if i <? 0 then i + Z.of_nat n else i in
  if (0 <=? j) && (j <? Z.of_nat n) then Some (Z.to_nat j) else None.

Fixpoint string_chars (s : string) : list string :=
  match s with
  | EmptyString => []
  | String c s' => String c EmptyString :: string_chars s'
  end.

(** [o[i]] for an integer [i]: an element of a list, a character of a
    string; a [dict] decoded from JSON has no integer key; the other types
    cannot be subscripted. *)
Definition py_getitem (o : pyjson) (i : Z) : result pyjson :=
  match o with
  | JList l =>
      match py_index (length l) i with
      | Some j => match l !! j with Some v => Ok v | None => Raise IndexError end
      | None => Raise IndexError
      end
  | JStr s =>
      let cs := string_chars s in
      match py_index (length cs) i with
      | Some j => match cs !! j with Some c => Ok (JStr c) | None => Raise IndexError end
      | None => Raise IndexError
      end
  | JDict _ => Raise KeyError
  | JNull | JBool _ | JInt _ => Raise TypeError
  end.

(** [for x in o]: the elements of a list, the characters of a string, the
    keys of a dict (in the order of the map, not of insertion). *)
Definition py_iter (o : pyjson) : result (list pyjson) :=
  match o with
  | JList l => Ok l
  | JStr s => Ok (JStr <$> string_chars s)
  | JDict d => Ok ((λ kv : string * pyjson, JStr kv.1) <$> map_to_list d)
  | JNull | JBool _ | JInt _ => Raise TypeError
  end.

(** Keys of a [dict] built by the client.  [True == 1] and [False == 0] are
    the same key; lists and dicts cannot be hashed. *)
Inductive pykey : Type :=
| KNone
| KNum (n : Z)
| KStr (s : string).

Definition py_hash (o : pyjson) : result pykey :=
  match o with
  | JNull => Ok KNone
  | JBool b => Ok (KNum (if b then 1 else 0))
  | JInt n => Ok (KNum n)
  | JStr s => Ok (KStr s)
  | JList _ | JDict _ => Raise TypeError
  end.

#[global] Instance pykey_eq_dec : EqDecision pykey.
Proof. solve_decision. Defined.

#[global] Instance pykey_countable : Countable pykey.
Proof.
  refine (inj_countable'
    (λ k, match k with
          | KNone => inl ()
          | KNum n => inr (inl n)
          | KStr s => inr (inr s)
          end)
    (λ x, match x with
          | inl _ => KNone
          | inr (inl n) => KNum n
          | inr (inr s) => KStr s
          end) _).
  by intros [].
Defined.

(* ===================================================================== *)
(** * String operations of the standard library                          *)
(* ===================================================================== *)

(** [s.split(sep)] for a one-character separator. *)
Fixpoint split (sep : ascii) (s : string) : list string :=
  match s with
  | EmptyString => [EmptyString]
  | String c s' =>
      if Ascii.eqb c sep then EmptyString :: split sep s'
      else match split sep s' with
           | [] => [String c EmptyString]
           | w :: ws => String c w :: ws
           end
  end.

(** [s.count(sep)]. *)
Fixpoint count (sep : ascii) (s : string) : nat :=
  match s with
  | EmptyString => 0
  | String c s' => (if Ascii.eqb c sep then 1 else 0) + count sep s'
  end.

(** [s.rstrip(c)] for a one-character set. *)
Fixpoint rstrip (c : ascii) (s : string) : string :=
  match s with
  | EmptyString => EmptyString
  | String a s' =>
      match rstrip c s' with
      | EmptyString => if Ascii.eqb a c then EmptyString else String a EmptyString
      | r => String a r
      end
  end.

(** [s.endswith(c)]. *)
Fixpoint endswith (c : ascii) (s : string) : bool :=
  match s with
  | EmptyString => false
  | String a EmptyString => Ascii.eqb a c
  | String _ s' => endswith c s'
  end.

(** [a, b = l]: unpacking into two names. *)
Definition unpack2 {A : Type} (l : list A) : result (A * A) :=
  match l with
  | [a; b] => Ok (a, b)
  | _ => Raise (ValueError "")
  end.

Definition hex_digit (c : ascii) : option Z :=
  let n := Z.of_N (N_of_ascii c) in
  if (48 <=? n) && (n <=? 57) then Some (n - 48)
  else if (97 <=? n) && (n <=? 102) then Some (n - 87)
  else if (65 <=? n) && (n <=? 70) then Some (n - 55)
  else None.

(** ASCII whitespace: tab, line feed, vertical tab, form feed, carriage
    return, space. *)
Definition is_space (c : ascii) : bool :=
  let n := Z.of_N (N_of_ascii c) in
  ((9 <=? n) && (n <=? 13)) || (n =? 32).

(** [bytes.fromhex(s)]: two digits per byte, whitespace skipped between
    bytes (not inside one). *)
Fixpoint fromhex (s : string) : result (list Z) :=
  match s with
  | EmptyString => Ok []
  | String c s' =>
      if is_space c then fromhex s'
      else
        match hex_digit c, s' with
        | Some top, String d s'' =>
            match hex_digit d with
            | Some bot =>
                match fromhex s'' with
                | Ok bs => Ok (top * 16 + bot :: bs)
                | Raise e => Raise e
                end
            | None => Raise (ValueError "")
            end
        | _, _ => Raise (ValueError "")
        end
  end.

#[global] Instance result_ret : MRet result := λ A a, Ok a.
#[global] Instance result_bind : MBind result := λ A B f r,
  match r with
  | Ok a => f a
  | Raise e => Raise e
  end.

(** [for x in l: s = body(s, x)], stopping at the first exception. *)
Fixpoint for_each {A S : Type} (l : list A) (body : S → A → result S) (s : S)
    : result S :=
  match l with
  | [] => Ok s
  | x :: l' =>
      match body s x with
      | Ok s' => for_each l' body s'
      | Raise e => Raise e
      end
  end.

(** Hexadecimal notation as [bytes.hex()] writes it, two lower-case digits
    per byte: the reference against which the result of [fromhex] is
    stated. *)
Definition hex_char (n : Z) : ascii :=
  match n with
  | 0 => "0" | 1 => "1" | 2 => "2" | 3 => "3" | 4 => "4" | 5 => "5" | 6 => "6"
  | 7 => "7" | 8 => "8" | 9 => "9" | 10 => "a" | 11 => "b" | 12 => "c"
  | 13 => "d" | 14 => "e" | _ => "f"
  end%char.

Fixpoint hex (bs : list Z) : string :=
  match bs with
  | [] => EmptyString
  | b :: bs' => String (hex_char (b / 16)) (String (hex_char (b mod 16)) (hex bs'))
  end.

(** A letter in lower case. *)
Definition ascii_lower (c : ascii) : ascii :=
  let n := N_of_ascii c in
  if ((65 <=? n) && (n <=? 90))%N then ascii_of_N (n + 32) else c.

(** The digits of a hexadecimal text: its ASCII whitespace left out, its
    letters in lower case. *)
Fixpoint hex_digits_of (s : string) : string :=
  match s with
  | EmptyString => EmptyString
  | String c s' =>
      if is_space c then hex_digits_of s' else String (ascii_lower c) (hex_digits_of s')
  end.

(* ===================================================================== *)
(** * Floating point                                                     *)
(* ===================================================================== *)

(** A Python [float] is an IEEE 754 binary64 number.  A finite one is the
    rational it stands for; the operations below round the exact result to
    the nearest number with 53 significant bits (the smallest exponent is
    -1022, so that below [2 ^ -1022] the spacing stays [2 ^ -1074]), ties
    to the even one. *)

(** The integer nearest to [y], the even one of two that are equally
    near. *)
Definition round_half_even (y : Q) : Z :=
  let f := Qfloor y in
  match (y - inject_Z f ?= 1 # 2)%Q with
  | Lt => f
  | Gt => f + 1
  | Eq => if Z.even f then f else f + 1
  end.

(** For [x > 0], the [e] with [2 ^ e <= x < 2 ^ (e + 1)]. *)
Definition floor_log2 (x : Q) : Z :=
  let d := Z.log2 (Qnum x) - Z.log2 (Z.pos (Qden x)) in
  if Qle_bool (2 ^ d) x then d else d - 1.

(** The spacing of the binary64 numbers around [x]. *)
Definition ulp (x : Q) : Q :=
  (2 ^ (Z.max (floor_log2 (Qabs x)) (-1022) - 52))%Q.

(** Rounding a rational to binary64; [None] is an infinity. *)
Definition round_to_double (x : Q) : option Q :=
  if Qeq_bool x 0 then Some 0%Q
  else
    let y := (inject_Z (round_half_even (x / ulp x)) * ulp x)%Q in
    if Qle_bool (2 ^ 1024) (Qabs y) then None else Some y.

(** [a / b] for two [int]: the quotient correctly rounded, and
    OverflowError where that is no finite number. *)
Definition py_truediv (a b : Z) : result Q :=
  if b =? 0 then Raise (OtherException "ZeroDivisionError")
  else
    match round_to_double (inject_Z a / inject_Z b) with
    | Some q => Ok q
    | None => Raise (OtherException "OverflowError")
    end.

(** [x * y] for two finite [float]. *)
Definition float_mul (x y : Q) : option Q := round_to_double (x * y).

(** [round(x)] for a [float]. *)
Definition py_round (x : option Q) : result Z :=
  match x with
  | Some x => Ok (round_half_even x)
  | None => Raise (OtherException "OverflowError")
  end.

(** [int(x)] for a finite [float]: towards zero. *)
Definition int_of_float (x : Q) : Z :=
  if Qle_bool 0 x then Qfloor x else Qceiling x.

(** [round(a / b * 100)] for two [int]; [100] is a [float] as it is. *)
Definition round_percent (a b : Z) : result Z :=
  q ← py_truediv a b;
  py_round (float_mul q 100).

(* ===================================================================== *)
(** * [int] of a string                                                  *)
(* ===================================================================== *)

(** The characters that [int] skips around a number: the ASCII whitespace,
    and the other characters that are whitespace to [str], which are first
    turned into spaces (the separators 28 to 31, being ASCII, are not). *)
Definition int_space (c : ascii) : bool :=
  let n := Z.of_N (N_of_ascii c) in
  ((9 <=? n) && (n <=? 13)) || (n =? 32) || (n =? 133) || (n =? 160).

Fixpoint lstrip_int_space (s : string) : string :=
  match s with
  | EmptyString => EmptyString
  | String c s' => if int_space c then lstrip_int_space s' else s
  end.

Fixpoint rstrip_int_space (s : string) : string :=
  match s with
  | EmptyString => EmptyString
  | String c s' =>
      match rstrip_int_space s' with
      | EmptyString => if int_space c then EmptyString else String c EmptyString
      | r => String c r
      end
  end.

Definition decimal_digit (c : ascii) : option Z :=
  let n := Z.of_N (N_of_ascii c) in
  if (48 <=? n) && (n <=? 57) then Some (n - 48) else None.

(** Decimal digits with single underscores between them: the value read
    so far, the number of digits, and whether the last character was a
    digit. *)
Fixpoint read_digits (s : string) (value count : Z) (after_digit : bool)
    : option (Z * Z) :=
  match s with
  | EmptyString => if after_digit then Some (value, count) else None
  | String c s' =>
      match decimal_digit c with
      | Some d => read_digits s' (10 * value + d) (count + 1) true
      | None =>
          if Ascii.eqb c "_" && after_digit then read_digits s' value count false
          else None
      end
  end.

(** [sys.get_int_max_str_digits()] as the interpreter starts. *)
Definition INT_MAX_STR_DIGITS : Z := 4300.

(** [int(s)] for a string: the decimal number between the whitespace, with
    a sign if it has one, unless it has more digits than the limit. *)
Definition int_of_str (s : string) : result Z :=
  let s := rstrip_int_space (lstrip_int_space s) in
  let '(negative, digits) :=
    match s with
    | String "-" s' => (true, s')
    | String "+" s' => (false, s')
    | _ => (false, s)
    end in
  match read_digits digits 0 0 false with
  | Some (value, count) =>
      if INT_MAX_STR_DIGITS <? count then Raise (ValueError "")
      else Ok (if negative : bool then - value else value)
  | None => Raise (ValueError "")
  end.

(* ===================================================================== *)
(** * The outside world: HTTP sessions, the clock and two libraries      *)
(* ===================================================================== *)

(** An [aiohttp.ClientResponse]: the status line, and what [await
    response.text()] and [await response.json()] give (either may raise). *)
Record response : Type := {
  status : Z;
  resp_text : result string;
  resp_json : result pyjson;
}.

(** [response.ok]. *)
Definition ok (r : response) : bool := status r <? 400.

(** The arguments of one [session.request(...)] call; an argument left out
    is [None]. *)
Record http_request : Type := {
  req_session : nat;
  req_method : string;
  req_url : string;
  req_headers : gmap string string;
  req_params : pyjson;
  req_json : pyjson;
}.

(** What [jwt.encode] does: it returns a token, or it raises an exception
    of its own, PyJWT's or a built-in one, which is neither aiohttp's nor
    the client's and is known here by its name. *)
Inductive jwt_result : Type :=
| JwtToken (token : string)
| JwtRaise (name : string).

Definition jwt_outcome (r : jwt_result) : result string :=
  match r with
  | JwtToken token => Ok token
  | JwtRaise name => Raise (OtherException name)
  end.

(** What the client does not define: the remote end behind aiohttp, the
    wall clock (microseconds since the epoch, UTC), [jwt.encode] and
    [json.dumps]. *)
Class Platform : Type := {
  World : Type;
  utcnow : World → Z;
  session_request : http_request → World → result response * World;
  jwt_encode :
    gmap string pyjson → list Z → string → gmap string pyjson → jwt_result;
  json_dumps : pyjson → string;
}.

Record ClientSession : Type := { closed : bool }.

(** One request with its outcome, as seen on the network. *)
Record exchange : Type := {
  sent : http_request;
  outcome : result response;
}.

Section Client.
Context `{Platform}.

(** Everything outside the client object: the sessions alive in the
    program (shared with the caller when borrowed), the world, and the
    exchanges made so far. *)
Record env : Type := {
  sessions : gmap nat ClientSession;
  world : World;
  wire : list exchange;
}.

Record GhostAdminAPI : Type := {
  api_url : string;
  admin_api_key : string;
  _session : option nat;
  _owns_session : bool;
}.

Record machine : Type := {
  self : GhostAdminAPI;
  outside : env;
}.

(** A method of the client: it may change the object and the environment,
    and returns or raises. *)
Definition M (A : Type) : Type := machine → result A * machine.

#[global] Instance M_ret : MRet M := λ A a m, (Ok a, m).
#[global] Instance M_bind : MBind M := λ A B f c m,
  match c m with
  | (Ok a, m') => f a m'
  | (Raise e, m') => (Raise e, m')
  end.

Definition raise {A : Type} (e : exn) : M A := λ m, (Raise e, m).
Definition lift {A : Type} (r : result A) : M A := λ m, (r, m).
Definition get_self : M GhostAdminAPI := λ m, (Ok (self m), m).
Definition set_self (c : GhostAdminAPI) : M unit := λ m,
  (Ok (), {| self := c; outside := outside m |}).

(** [try: c  except <class> as err: h(err)]. *)
Definition try_except {A : Type} (c : M A) (handles : exn → bool)
    (h : exn → M A) : M A := λ m,
  match c m with
  | (Ok a, m') => (Ok a, m')
  | (Raise e, m') => if handles e then h e m' else (Raise e, m')
  end.

(** [datetime.now(UTC)]. *)
Definition datetime_now : M Z := λ m, (Ok (utcnow (world (outside m))), m).

(** [session.closed]; a session that is not in the heap counts as closed. *)
Definition session_closed (ss : gmap nat ClientSession) (sid : nat) : bool :=
  match ss !! sid with
  | Some s => closed s
  | None => true
  end.

Definition ClientSession_closed (sid : nat) : M bool := λ m,
  (Ok (session_closed (sessions (outside m)) sid), m).

(** [aiohttp.ClientSession()]: a new open session. *)
Definition ClientSession_new : M nat := λ m,
  let e := outside m in
  let sid := fresh (dom (sessions e)) in
  (Ok sid,
   {| self := self m;
      outside := {| sessions := <[sid := {| closed := false |}]> (sessions e);
                    world := world e; wire := wire e |} |}).

(** [await session.close()]. *)
Definition ClientSession_close (sid : nat) : M unit := λ m,
  let e := outside m in
  (Ok (),
   {| self := self m;
      outside := {| sessions := <[sid := {| closed := true |}]> (sessions e);
                    world := world e; wire := wire e |} |}).

(** [async with session.request(...) as response]: one exchange with the
    remote end. *)
Definition ClientSession_request (req : http_request) : M response := λ m,
  let e := outside m in
  let '(r, w) := session_request req (world e) in
  (r,
   {| self := self m;
      outside := {| sessions := sessions e; world := w;
                    wire := wire e ++ [{| sent := req; outcome := r |}] |} |}).

(* ===================================================================== *)
(** * The client                                                         *)
(* ===================================================================== *)

Definition JWT_EXPIRY_MINUTES : Z := 5.

(** [timedelta(minutes=n)] in microseconds. *)
Definition timedelta_minutes (n : Z) : Z := n * 60 * 1000000.

(** The first and the last [datetime], 0001-01-01 00:00:00 and 9999-12-31
    23:59:59.999999, in microseconds since the epoch. *)
Definition DATETIME_MIN : Z := -62135596800000000.
Definition DATETIME_MAX : Z := 253402300799999999.

(** [t + delta] for a [datetime] and a [timedelta]. *)
Definition datetime_add (t delta : Z) : result Z :=
  let sum := t + delta in
  if (DATETIME_MIN <=? sum) && (sum <=? DATETIME_MAX) then Ok sum
  else Raise (OtherException "OverflowError").

(** [int(t.timestamp())] for an aware [datetime]: the microseconds since
    the epoch divided by one million as a [float], then truncated towards
    zero. *)
Definition int_timestamp (t : Z) : result Z :=
  seconds ← py_truediv t 1000000;
  Ok (int_of_float seconds).

(** [_convert_to_mobiledoc]: the HTML card assigned last is what is
    serialised. *)
Definition _convert_to_mobiledoc (content : string) : string :=
  let mobiledoc : gmap string pyjson :=
    {[ "version" := JStr "0.3.1";
       "markups" := JList [];
       "atoms" := JList [];
       "cards" := JList [];
       "sections" := JList [JList [JInt 10; JInt 0]] ]} in
  let mobiledoc := <["cards" := JList [JList [JStr "html"; JStr content]]]> mobiledoc in
  let mobiledoc := <["sections" := JList [JList [JInt 10; JInt 0]]]> mobiledoc in
  json_dumps (JDict mobiledoc).

(** [GhostAdminAPI.__init__].  The constructor has no [await]; it runs in
    an environment that it hands back as it found it. *)
Definition __init__ (api_url admin_api_key : string) (session : option nat)
    (e : env) : result GhostAdminAPI * env :=
  if negb (String.prefix "https://" api_url) then
    (Raise (ValueError "api_url must use HTTPS"), e)
  else
    (Ok {| api_url := rstrip "/" api_url;
           admin_api_key := admin_api_key;
           _session := session;
           _owns_session := match session with None => true | Some _ => false end |},
     e).

Definition _generate_token : M string :=
  self ← get_self;
  '(key_id, secret) ←
    try_except (lift (unpack2 (split ":" (admin_api_key self))))
      isinstance_ValueError
      (λ err, raise (GhostAuthError "Invalid API key format. Expected 'id:secret'"));
  secret_bytes ←
    try_except (lift (fromhex secret))
      isinstance_ValueError
      (λ err, raise (GhostAuthError "Invalid API key secret. Expected hex string."));
  now ← datetime_now;
  iat ← lift (int_timestamp now);
  expiry ← lift (datetime_add now (timedelta_minutes JWT_EXPIRY_MINUTES));
  exp ← lift (int_timestamp expiry);
  let payload : gmap string pyjson :=
    {[ "iat" := JInt iat;
       "exp" := JInt exp;
       "aud" := JStr "/admin/" ]} in
  let headers : gmap string pyjson :=
    {[ "alg" := JStr "HS256";
       "kid" := JStr key_id;
       "typ" := JStr "JWT" ]} in
  lift (jwt_outcome (jwt_encode payload secret_bytes "HS256" headers)).

Definition _get_session : M nat :=
  self ← get_self;
  let create : M nat :=
    sid ← ClientSession_new;
    set_self {| api_url := api_url self; admin_api_key := admin_api_key self;
                _session := Some sid; _owns_session := true |};;
    mret sid in
  match _session self with
  | None => create
  | Some sid =>
      is_closed ← ClientSession_closed sid;
      if is_closed : bool then create else mret sid
  end.

Definition close : M unit :=
  self ← get_self;
  if _owns_session self then
    match _session self with
    | Some sid =>
        is_closed ← ClientSession_closed sid;
        if negb is_closed then ClientSession_close sid else mret ()
    | None => mret ()
    end
  else mret ().

Definition __aenter__ : M GhostAdminAPI := get_self.

(** [__aexit__]: the exception details it is passed are not looked at. *)
Definition __aexit__ (args : option exn) : M unit := close.

(** [async with api: body]: [__aexit__] returns [None], so an exception of
    the body goes on after it. *)
Definition async_with {A : Type} (body : GhostAdminAPI → M A) : M A := λ m,
  match __aenter__ m with
  | (Raise e, m1) => (Raise e, m1)
  | (Ok api, m1) =>
      match body api m1 with
      | (Ok a, m2) =>
          match __aexit__ None m2 with
          | (Ok _, m3) => (Ok a, m3)
          | (Raise e, m3) => (Raise e, m3)
          end
      | (Raise e, m2) =>
          match __aexit__ (Some e) m2 with
          | (Ok _, m3) => (Raise e, m3)
          | (Raise e', m3) => (Raise e', m3)
          end
      end
  end.

(** The invariant of a session lent by the caller: it exists, and it is
    not the session of a client that owns its session (the client marks as
    owned only sessions it has just created). *)
Definition lent (sid : nat) (m : machine) : Prop :=
  sid ∈ dom (sessions (outside m)) ∧
  (_owns_session (self m) = true → _session (self m) ≠ Some sid).

Definition _get_auth_headers : M (gmap string string) :=
  token ← _generate_token;
  mret ({[ "Authorization" := "Ghost " +:+ token;
           "Accept-Version" := "v5.0" ]} : gmap string string).

Definition _request (method endpoint : string) (params json : pyjson) : M pyjson :=
  session ← _get_session;
  self ← get_self;
  let url := api_url self +:+ endpoint in
  headers ← _get_auth_headers;
  let headers :=
    if py_truthy json then <["Content-Type" := "application/json"]> headers
    else headers in
  try_except
    (response ← ClientSession_request
       {| req_session := session; req_method := method; req_url := url;
          req_headers := headers; req_params := params; req_json := json |};
     if status response =? 401 then
       raise (GhostAuthError "Authentication failed. Check your API key.")
     else if status response =? 404 then
       raise (GhostNotFoundError ("Resource not found: " +:+ endpoint))
     else if status response =? 422 then
       data ← lift (resp_json response);
       errors ← lift (py_get data "errors" (JList [JDict ∅]));
       first ← lift (py_getitem errors 0);
       message ← lift (py_get first "message" (JStr "Validation failed"));
       raise (GhostValidationError message)
     else if status response >=? 400 then
       text ← lift (resp_text response);
       raise (GhostError ("API error " +:+ pretty (status response) +:+ ": " +:+ text))
     else
       lift (resp_json response))
    isinstance_ClientError
    (λ err, raise (GhostConnectionError ("Connection failed: " +:+ py_str_exn err))).

(** The statements under [async with ... as response] on their own, as a
    function of the response: what they return or raise before the
    [except] clause is looked at.  [request_run] below shows that
    [_request] is this function behind the session and the token. *)
Definition classify_response (endpoint : string) (response : response)
    : result pyjson :=
  if status response =? 401 then
    Raise (GhostAuthError "Authentication failed. Check your API key.")
  else if status response =? 404 then
    Raise (GhostNotFoundError ("Resource not found: " +:+ endpoint))
  else if status response =? 422 then
    data ← resp_json response;
    errors ← py_get data "errors" (JList [JDict ∅]);
    first ← py_getitem errors 0;
    message ← py_get first "message" (JStr "Validation failed");
    Raise (GhostValidationError message)
  else if status response >=? 400 then
    text ← resp_text response;
    Raise (GhostError ("API error " +:+ pretty (status response) +:+ ": " +:+ text))
  else
    resp_json response.

(** The [except aiohttp.ClientError] clause of [_request] on an outcome. *)
Definition except_ClientError (r : result pyjson) : result pyjson :=
  match r with
  | Ok a => Ok a
  | Raise err =>
      if isinstance_ClientError err then
        Raise (GhostConnectionError ("Connection failed: " +:+ py_str_exn err))
      else Raise err
  end.

(** The request that [_request] sends for a session and a token. *)
Definition request_sent (c : GhostAdminAPI) (session : nat) (token : string)
    (method endpoint : string) (params json : pyjson) : http_request :=
  let headers : gmap string string :=
    {[ "Authorization" := "Ghost " +:+ token; "Accept-Version" := "v5.0" ]} in
  {| req_session := session; req_method := method;
     req_url := api_url c +:+ endpoint;
     req_headers :=
       if py_truthy json then <["Content-Type" := "application/json"]> headers
       else headers;
     req_params := params; req_json := json |}.

(** The environment after one more exchange. *)
Definition exchanged (m : machine) (req : http_request)
    (out : result response) (w : World) : machine :=
  {| self := self m;
     outside := {| sessions := sessions (outside m); world := w;
                   wire := wire (outside m) ++ [{| sent := req; outcome := out |}] |} |}.

Definition _get (endpoint : string) (params : pyjson) : M pyjson :=
  _request "GET" endpoint params JNull.

Definition _post (endpoint : string) (json : pyjson) : M pyjson :=
  _request "POST" endpoint JNull json.

Definition _delete (endpoint : string) : M pyjson :=
  _request "DELETE" endpoint JNull JNull.

Definition _put (endpoint : string) (json : pyjson) : M pyjson :=
  _request "PUT" endpoint JNull json.

(** ** Posts *)

(** [posts[0] if posts else None] after [posts = data.get("posts", [])], on
    its own: the result of the three post methods on a decoded body. *)
Definition first_post (data : pyjson) : result pyjson :=
  posts ← py_get data "posts" (JList []);
  if py_truthy posts then py_getitem posts 0 else Ok JNull.

Definition get_post (post_id : string) : M pyjson :=
  try_except
    (data ← _get ("/ghost/api/admin/posts/" +:+ post_id +:+ "/") JNull;
     posts ← lift (py_get data "posts" (JList []));
     if py_truthy posts then lift (py_getitem posts 0) else mret JNull)
    isinstance_GhostNotFoundError
    (λ _, mret JNull).

(** [if x is not None: post_data[key] = f(x)]. *)
Definition set_if_given {A : Type} (x : option A) (key : string)
    (f : A → pyjson) (post_data : gmap string pyjson) : gmap string pyjson :=
  match x with
  | Some v => <[key := f v]> post_data
  | None => post_data
  end.

Definition update_post (post_id : string)
    (title content status slug excerpt feature_image : option string)
    (tags : option (list string)) (published_at : option string) : M pyjson :=
  let post_data : gmap string pyjson := ∅ in
  let post_data := set_if_given title "title" JStr post_data in
  let post_data :=
    set_if_given content "mobiledoc" (λ c, JStr (_convert_to_mobiledoc c)) post_data in
  let post_data := set_if_given status "status" JStr post_data in
  let post_data := set_if_given slug "slug" JStr post_data in
  let post_data := set_if_given excerpt "custom_excerpt" JStr post_data in
  let post_data := set_if_given feature_image "feature_image" JStr post_data in
  let post_data :=
    set_if_given tags "tags"
      (λ ts, JList ((λ tag, JDict {[ "name" := JStr tag ]}) <$> ts)) post_data in
  let post_data := set_if_given published_at "published_at" JStr post_data in
  try_except
    (data ← _put ("/ghost/api/admin/posts/" +:+ post_id +:+ "/")
               (JDict {[ "posts" := JList [JDict post_data] ]});
     posts ← lift (py_get data "posts" (JList []));
     if py_truthy posts then lift (py_getitem posts 0) else mret JNull)
    isinstance_GhostNotFoundError
    (λ _, mret JNull).

Definition delete_post (post_id : string) : M bool :=
  try_except
    (_delete ("/ghost/api/admin/posts/" +:+ post_id +:+ "/");;
     mret true)
    isinstance_GhostNotFoundError
    (λ _, mret false).

(** ** Members *)

(** The body of the loop of [get_mrr], on the dict built so far. *)
Definition get_mrr_step (res : gmap pykey pyjson) (currency_data : pyjson)
    : result (gmap pykey pyjson) :=
  currency ← py_get currency_data "currency" (JStr "usd");
  values ← py_get currency_data "data" (JList []);
  if py_truthy values then
    latest ← py_getitem values (-1);
    v ← py_get latest "value" (JInt 0);
    k ← py_hash currency;
    mret (<[k := v]> res)
  else mret res.

Definition get_mrr : M (gmap pykey pyjson) :=
  data ← _get "/ghost/api/admin/members/stats/mrr/" JNull;
  series ← lift (py_get data "data" (JList []));
  items ← lift (py_iter series);
  lift (for_each items get_mrr_step ∅).

(** What [get_mrr] makes of a decoded body. *)
Definition mrr_of_body (data : pyjson) : result (gmap pykey pyjson) :=
  series ← py_get data "data" (JList []);
  items ← py_iter series;
  for_each items get_mrr_step ∅.

(** An item of the MRR statistics as the remote API sends it: an object
    whose currency (["usd"] if left out) is the dict key [k] and whose
    series (empty if left out) is the list [vs], empty or ending in an
    object. *)
Definition is_mrr_entry (item : pyjson) (entry : pykey * list pyjson) : Prop :=
  ∃ e : gmap string pyjson,
    item = JDict e ∧
    py_hash (default (JStr "usd") (e !! "currency")) = Ok entry.1 ∧
    default (JList []) (e !! "data") = JList entry.2 ∧
    (entry.2 = [] ∨ ∃ latest : gmap string pyjson, last entry.2 = Some (JDict latest)).

(** ** ActivityPub *)

(** [await asyncio.gather(a, b)] for two coroutines that update a shared
    object: both run, in the order in which they happen to complete; an
    exception of either comes out once both are done. *)
Definition asyncio_gather2 {S : Type} (b_first : bool) (a b : S → M S) (s : S)
    : M S := λ m,
  let '(x, y) := if b_first then (b, a) else (a, b) in
  match x s m with
  | (Ok s1, m1) => y s1 m1
  | (Raise e, m1) => (Raise e, (y s m1).2)
  end.

(** The inner coroutine of [get_activitypub_stats]; [session], [headers]
    and the dict [stats] are the variables of the enclosing call. *)
Definition fetch_count (session : nat) (headers : gmap string string)
    (endpoint key : string) (stats : gmap string pyjson)
    : M (gmap string pyjson) :=
  try_except
    (self ← get_self;
     let url := api_url self +:+ "/.ghost/activitypub/" +:+ endpoint +:+ "/index" in
     response ← ClientSession_request
       {| req_session := session; req_method := "GET"; req_url := url;
          req_headers := headers; req_params := JNull; req_json := JNull |};
     if ok response then
       data ← lift (resp_json response);
       total ← lift (py_get data "totalItems" (JInt 0));
       mret (<[key := total]> stats)
     else mret stats)
    isinstance_Exception
    (λ err, mret stats).

Definition get_activitypub_stats (following_first : bool)
    : M (gmap string pyjson) :=
  session ← _get_session;
  let headers : gmap string string := {[ "Accept" := "application/activity+json" ]} in
  let stats : gmap string pyjson :=
    {[ "followers" := JInt 0; "following" := JInt 0 ]} in
  asyncio_gather2 following_first
    (fetch_count session headers "followers" "followers")
    (fetch_count session headers "following" "following")
    stats.

(** What a branch of [get_activitypub_stats] stores under its key for an
    outcome of its request: [totalItems] of a successful answer whose body
    is an object ([0] if the object has none); nothing when the request
    raised, the status was not a success, or the body did not decode to an
    object. *)
Definition counted (out : result response) : option pyjson :=
  match out with
  | Ok response =>
      if ok response then
        match resp_json response with
        | Ok (JDict d) => Some (default (JInt 0) (d !! "totalItems"))
        | _ => None
        end
      else None
  | Raise _ => None
  end.

(** The request of a branch. *)
Definition activitypub_request (c : GhostAdminAPI) (session : nat)
    (endpoint : string) : http_request :=
  {| req_session := session; req_method := "GET";
     req_url := api_url c +:+ "/.ghost/activitypub/" +:+ endpoint +:+ "/index";
     req_headers := {[ "Accept" := "application/activity+json" ]};
     req_params := JNull; req_json := JNull |}.

(** ** Webhooks *)

Definition create_webhook (event target_url : string) : M pyjson :=
  data ← _post "/ghost/api/admin/webhooks/"
    (JDict {[ "webhooks" :=
                JList [JDict {[ "event" := JStr event;
                                "target_url" := JStr target_url ]}] ]});
  webhooks ← lift (py_get data "webhooks" (JList [JDict ∅]));
  lift (py_getitem webhooks 0).

End Client.

(* ===================================================================== *)
(** * The other methods of the client                                    *)
(* ===================================================================== *)

(** The integer that an [int] or a [bool] is in arithmetic; the other types
    of a decoded body can be neither divided nor compared with a number. *)
Definition py_number (o : pyjson) : result Z :=
  match o with
  | JInt n => Ok n
  | JBool b => Ok (if b then 1 else 0)
  | JNull | JStr _ | JList _ | JDict _ => Raise TypeError
  end.

(** [o > 0]. *)
Definition py_gt0 (o : pyjson) : result bool :=
  n ← py_number o;
  Ok (0 <? n).

(** [o[key]] for a string key. *)
Definition py_getitem_key (o : pyjson) (key : string) : result pyjson :=
  match o with
  | JDict d => match d !! key with Some v => Ok v | None => Raise KeyError end
  | JNull | JBool _ | JInt _ | JStr _ | JList _ => Raise TypeError
  end.

(** [if x:] for an argument of type [str | None]. *)
Definition truthy_str (x : option string) : bool :=
  match x with
  | Some v => negb (String.eqb v "")
  | None => false
  end.

(** [if x: post_data[key] = f(x)] for such an argument. *)
Definition set_if_truthy (x : option string) (key : string)
    (post_data : gmap string pyjson) : gmap string pyjson :=
  match x with
  | Some v => if negb (String.eqb v "") then <[key := JStr v]> post_data else post_data
  | None => post_data
  end.

Section OtherMethods.
Context `{Platform}.

(** [int(o)]. *)
Definition py_int (o : pyjson) : result Z :=
  match o with
  | JInt n => Ok n
  | JBool b => Ok (if b then 1 else 0)
  | JStr s => int_of_str s
  | JNull | JList _ | JDict _ => Raise TypeError
  end.

(** ** Site *)

Definition get_site : M pyjson :=
  data ← _get "/ghost/api/admin/site/" JNull;
  lift (py_get data "site" (JDict ∅)).

(** ** Posts *)

(** The two phases of [_request] as a coroutine: up to its first
    suspension it finds the session and builds the URL and the headers;
    it goes on when the exchange has completed.  [request_in_two_phases]
    below shows that one after the other they are [_request]. *)
Definition _request_start (method endpoint : string) (params json : pyjson)
    : M http_request :=
  session ← _get_session;
  self ← get_self;
  let url := api_url self +:+ endpoint in
  headers ← _get_auth_headers;
  let headers :=
    if py_truthy json then <["Content-Type" := "application/json"]> headers
    else headers in
  mret {| req_session := session; req_method := method; req_url := url;
          req_headers := headers; req_params := params; req_json := json |}.

Definition _request_finish (endpoint : string) (req : http_request) : M pyjson :=
  λ m,
    (except_ClientError
       ((ClientSession_request req m).1 ≫= classify_response endpoint),
     (ClientSession_request req m).2).

(** An exchange that [_request] turned into a return value. *)
Definition answered (x : exchange) (body : pyjson) : Prop :=
  ∃ response, outcome x = Ok response ∧ status response < 400 ∧
              resp_json response = Ok body.

(** The call that led from [m] to [m1] made one exchange, which was
    answered with status 404. *)
Definition received_404 (m m1 : machine) : Prop :=
  ∃ x response, wire (outside m1) = wire (outside m) ++ [x] ∧
                outcome x = Ok response ∧ status response = 404.

(** The order in which three exchanges complete. *)
Inductive completion : Type := C012 | C021 | C102 | C120 | C201 | C210.

(** [await asyncio.gather(a, b, c)] for three coroutines that are each a
    start and a finish around one exchange.  The three starts run in turn,
    each whatever became of the one before; the exception of the first that
    failed is the one that comes out.  When all have started, they finish in
    the order in which their exchanges complete, and the first exception
    ends the wait: the coroutines that are still waiting stay pending. *)
Definition asyncio_gather3 {X A : Type} (order : completion)
    (start_a start_b start_c : M X) (finish_a finish_b finish_c : X → M A)
    : M (A * A * A) := λ m,
  let '(ra, m1) := start_a m in
  let '(rb, m2) := start_b m1 in
  let '(rc, m3) := start_c m2 in
  match ra, rb, rc with
  | Ok xa, Ok xb, Ok xc =>
      match order with
      | C012 => (a ← finish_a xa; b ← finish_b xb; c ← finish_c xc; mret (a, b, c)) m3
      | C021 => (a ← finish_a xa; c ← finish_c xc; b ← finish_b xb; mret (a, b, c)) m3
      | C102 => (b ← finish_b xb; a ← finish_a xa; c ← finish_c xc; mret (a, b, c)) m3
      | C120 => (b ← finish_b xb; c ← finish_c xc; a ← finish_a xa; mret (a, b, c)) m3
      | C201 => (c ← finish_c xc; a ← finish_a xa; b ← finish_b xb; mret (a, b, c)) m3
      | C210 => (c ← finish_c xc; b ← finish_b xb; a ← finish_a xa; mret (a, b, c)) m3
      end
  | Raise e, _, _ => (Raise e, m3)
  | Ok _, Raise e, _ => (Raise e, m3)
  | Ok _, Ok _, Raise e => (Raise e, m3)
  end.

(** The query of [get_posts_count] for one status. *)
Definition count_params (status_filter : string) : pyjson :=
  JDict {[ "limit" := JInt 1; "filter" := JStr status_filter ]}.

Definition get_posts_count (order : completion) : M (gmap string pyjson) :=
  let endpoint := "/ghost/api/admin/posts/" in
  '(published, drafts, scheduled) ←
    asyncio_gather3 order
      (_request_start "GET" endpoint (count_params "status:published") JNull)
      (_request_start "GET" endpoint (count_params "status:draft") JNull)
      (_request_start "GET" endpoint (count_params "status:scheduled") JNull)
      (_request_finish endpoint) (_request_finish endpoint)
      (_request_finish endpoint);
  n_published ← lift (meta ← py_get published "meta" (JDict ∅);
                      pagination ← py_get meta "pagination" (JDict ∅);
                      total ← py_get pagination "total" (JInt 0);
                      py_int total);
  n_drafts ← lift (meta ← py_get drafts "meta" (JDict ∅);
                   pagination ← py_get meta "pagination" (JDict ∅);
                   total ← py_get pagination "total" (JInt 0);
                   py_int total);
  n_scheduled ← lift (meta ← py_get scheduled "meta" (JDict ∅);
                      pagination ← py_get meta "pagination" (JDict ∅);
                      total ← py_get pagination "total" (JInt 0);
                      py_int total);
  mret ({[ "published" := JInt n_published;
           "drafts" := JInt n_drafts;
           "scheduled" := JInt n_scheduled ]} : gmap string pyjson).

(** [int(o.get("meta", {}).get("pagination", {}).get("total", 0))] on its
    own. *)
Definition pagination_total (o : pyjson) : result Z :=
  meta ← py_get o "meta" (JDict ∅);
  pagination ← py_get meta "pagination" (JDict ∅);
  total ← py_get pagination "total" (JInt 0);
  py_int total.

Definition get_latest_post : M pyjson :=
  data ← _get "/ghost/api/admin/posts/"
    (JDict {[ "limit" := JInt 1;
              "order" := JStr "published_at desc";
              "filter" := JStr "status:published" ]});
  posts ← lift (py_get data "posts" (JList []));
  if py_truthy posts then lift (py_getitem posts 0) else mret JNull.

(** [create_post]; the default of [status] is the caller's: it is passed
    here. *)
Definition create_post (title content status : string)
    (slug excerpt feature_image : option string)
    (tags : option (list string)) (published_at : option string) : M pyjson :=
  let post_data : gmap string pyjson :=
    {[ "title" := JStr title;
       "mobiledoc" := JStr (_convert_to_mobiledoc content);
       "status" := JStr status ]} in
  let post_data := set_if_truthy slug "slug" post_data in
  let post_data := set_if_truthy excerpt "custom_excerpt" post_data in
  let post_data := set_if_truthy feature_image "feature_image" post_data in
  let post_data :=
    match tags with
    | Some (t :: ts) =>
        <["tags" := JList ((λ tag, JDict {[ "name" := JStr tag ]}) <$> (t :: ts))]>
          post_data
    | Some [] | None => post_data
    end in
  let post_data := set_if_truthy published_at "published_at" post_data in
  data ← _post "/ghost/api/admin/posts/"
    (JDict {[ "posts" := JList [JDict post_data] ]});
  posts ← lift (py_get data "posts" (JList []));
  if py_truthy posts then lift (py_getitem posts 0) else mret (JDict ∅).

(** ** Members *)

Definition get_members_count : M (gmap string pyjson) :=
  data ← _get "/ghost/api/admin/members/stats/count/" JNull;
  total ← lift (py_get data "total" (JInt 0));
  history ← lift (py_get data "data" (JList []));
  if py_truthy history then
    latest ← lift (py_getitem history (-1));
    paid ← lift (py_get latest "paid" (JInt 0));
    free ← lift (py_get latest "free" (JInt 0));
    comped ← lift (py_get latest "comped" (JInt 0));
    mret ({[ "total" := total; "paid" := paid; "free" := free;
             "comped" := comped ]} : gmap string pyjson)
  else
    mret ({[ "total" := total; "paid" := JInt 0; "free" := JInt 0;
             "comped" := JInt 0 ]} : gmap string pyjson).

(** ** Newsletters *)

Definition get_newsletters : M pyjson :=
  data ← _get "/ghost/api/admin/newsletters/"
    (JDict {[ "include" := JStr "count.members" ]});
  lift (py_get data "newsletters" (JList [])).

(** ** Email *)

(** [round(count / email_count * 100) if email_count > 0 else 0]. *)
Definition percent_of (count email_count : pyjson) : result pyjson :=
  is_positive ← py_gt0 email_count;
  if is_positive : bool then
    a ← py_number count;
    b ← py_number email_count;
    r ← round_percent a b;
    Ok (JInt r)
  else Ok (JInt 0).

Definition _build_email_stats (post : pyjson) : result (gmap string pyjson) :=
  email ← py_getitem_key post "email";
  email_count ← py_get email "email_count" (JInt 0);
  opened_count ← py_get email "opened_count" (JInt 0);
  count_data ← py_get post "count" (JDict ∅);
  clicks ← py_get count_data "clicks" (JInt 0);
  let clicked_count := if py_truthy clicks then clicks else JInt 0 in
  title ← py_get post "title" JNull;
  slug ← py_get post "slug" JNull;
  published_at ← py_get post "published_at" JNull;
  delivered_count ← py_get email "delivered_count" (JInt 0);
  failed_count ← py_get email "failed_count" (JInt 0);
  open_rate ← percent_of opened_count email_count;
  click_rate ← percent_of clicked_count email_count;
  subject ← py_get email "subject" JNull;
  submitted_at ← py_get email "submitted_at" JNull;
  Ok ({[ "title" := title;
         "slug" := slug;
         "published_at" := published_at;
         "email_count" := email_count;
         "delivered_count" := delivered_count;
         "opened_count" := opened_count;
         "clicked_count" := clicked_count;
         "failed_count" := failed_count;
         "open_rate" := open_rate;
         "click_rate" := click_rate;
         "subject" := subject;
         "submitted_at" := submitted_at ]} : gmap string pyjson).

(** The loop of [get_latest_email]: [return] at the first post with an
    email, [None] after the last. *)
Fixpoint first_with_email (posts : list pyjson) : result pyjson :=
  match posts with
  | [] => Ok JNull
  | post :: rest =>
      match py_get post "email" JNull with
      | Ok email =>
          if py_truthy email then
            match _build_email_stats post with
            | Ok stats => Ok (JDict stats)
            | Raise e => Raise e
            end
          else first_with_email rest
      | Raise e => Raise e
      end
  end.

Definition get_latest_email : M pyjson :=
  data ← _get "/ghost/api/admin/posts/"
    (JDict {[ "limit" := JInt 10;
              "order" := JStr "published_at desc";
              "filter" := JStr "status:published";
              "include" := JStr "email,count.clicks" ]});
  posts ← lift (py_get data "posts" (JList []));
  items ← lift (py_iter posts);
  lift (first_with_email items).

(** ** Comments *)

Definition get_comments_count : M Z :=
  data ← _get "/ghost/api/admin/comments/" (JDict {[ "limit" := JInt 1 ]});
  lift (meta ← py_get data "meta" (JDict ∅);
        pagination ← py_get meta "pagination" (JDict ∅);
        total ← py_get pagination "total" (JInt 0);
        py_int total).

(** ** Tiers *)

Definition get_tiers : M pyjson :=
  data ← _get "/ghost/api/admin/tiers/" JNull;
  lift (py_get data "tiers" (JList [])).

(** ** Webhooks *)

Definition delete_webhook (webhook_id : string) : M unit :=
  _delete ("/ghost/api/admin/webhooks/" +:+ webhook_id +:+ "/");;
  mret ().

(** ** Validation *)


End OtherMethods.

(* ===================================================================== *)
(** * The scripts                                                        *)
(* ===================================================================== *)

(** Text is a sequence of code points below 256. *)

(** [try: r  except <class>: h] for code without effects. *)
Definition try_result {A : Type} (r : result A) (handles : exn → bool)
    (h : exn → result A) : result A :=
  match r with
  | Ok a => Ok a
  | Raise e => if handles e then h e else Raise e
  end.

(** [c in s] for a character. *)
Fixpoint str_contains (c : ascii) (s : string) : bool :=
  match s with
  | EmptyString => false
  | String a s' => Ascii.eqb a c || str_contains c s'
  end.

(** [s.replace(c, "")] for a character. *)
Fixpoint str_remove (c : ascii) (s : string) : string :=
  match s with
  | EmptyString => EmptyString
  | String a s' => if Ascii.eqb a c then str_remove c s' else String a (str_remove c s')
  end.

(** [c.isalnum()] for a code point below 256: the ASCII letters and
    digits, and the letters, superscript digits and fractions of Latin-1. *)
Definition char_isalnum (c : ascii) : bool :=
  let n := Z.of_N (N_of_ascii c) in
  ((48 <=? n) && (n <=? 57)) || ((65 <=? n) && (n <=? 90)) ||
  ((97 <=? n) && (n <=? 122)) || (n =? 170) || ((178 <=? n) && (n <=? 179)) ||
  (n =? 181) || ((185 <=? n) && (n <=? 186)) || ((188 <=? n) && (n <=? 190)) ||
  ((192 <=? n) && (n <=? 214)) || ((216 <=? n) && (n <=? 246)) ||
  ((248 <=? n) && (n <=? 255)).

Fixpoint str_forall (p : ascii → bool) (s : string) : bool :=
  match s with
  | EmptyString => true
  | String a s' => p a && str_forall p s'
  end.

(** [s.isalnum()]: false for the empty string. *)
Definition str_isalnum (s : string) : bool :=
  negb (String.eqb s "") && str_forall char_isalnum s.

(** [c.isspace()] for a code point below 256. *)
Definition char_isspace (c : ascii) : bool :=
  let n := Z.of_N (N_of_ascii c) in
  ((9 <=? n) && (n <=? 13)) || ((28 <=? n) && (n <=? 32)) ||
  (n =? 133) || (n =? 160).

(** [s.lstrip()], [s.rstrip()] and [s.strip()]. *)
Fixpoint str_lstrip (s : string) : string :=
  match s with
  | EmptyString => EmptyString
  | String a s' => if char_isspace a then str_lstrip s' else s
  end.

Fixpoint str_rstrip (s : string) : string :=
  match s with
  | EmptyString => EmptyString
  | String a s' =>
      match str_rstrip s' with
      | EmptyString => if char_isspace a then EmptyString else String a EmptyString
      | r => String a r
      end
  end.

Definition str_strip (s : string) : string := str_rstrip (str_lstrip s).

(** [s.split(sep, 1)]. *)
Fixpoint str_split1 (sep : ascii) (s : string) : list string :=
  match s with
  | EmptyString => [EmptyString]
  | String c s' =>
      if Ascii.eqb c sep then [EmptyString; s']
      else match str_split1 sep s' with
           | [] => [String c EmptyString]
           | w :: ws => String c w :: ws
           end
  end.

(** ** scripts/setup.py *)

Definition validate_api_key (api_key : string) : result bool :=
  if negb (str_contains ":" api_key) then Ok false
  else
    let parts := split ":" api_key in
    if negb (Nat.eqb (length parts) 2) then Ok false
    else
      '(key_id, secret) ← unpack2 parts;
      if negb (str_isalnum (str_remove "_" key_id)) then Ok false
      else
        try_result
          (_ ← fromhex secret; Ok true)
          isinstance_ValueError
          (λ _, Ok false).

(** ** scripts/batch_posts.py *)

(** The loop that looks for the end of the front matter: the index of the
    first line that is [---], counting the lines from [i]; [-1] if there is
    none. *)
Fixpoint find_end (i : Z) (lines : list string) : Z :=
  match lines with
  | [] => -1
  | line :: rest => if String.eqb line "---" then i else find_end (i + 1) rest
  end.

(** The loop that reads [key: value] lines into the dict. *)
Definition read_line (metadata : gmap string string) (line : string)
    : result (gmap string string) :=
  if str_contains ":" line then
    '(key, value) ← unpack2 (str_split1 ":" line);
    Ok (<[str_strip key := str_strip value]> metadata)
  else Ok metadata.

Definition parse_frontmatter (content : string)
    : result (gmap string string * string) :=
  let lines := split "010" content in
  match lines with
  | [] => Ok (∅, content)
  | line0 :: _ =>
      if negb (String.prefix "---" line0) then Ok (∅, content)
      else
        let end_idx := find_end 1 (drop 1 lines) in
        if end_idx =? -1 then Ok (∅, content)
        else
          metadata ← for_each (take (Z.to_nat end_idx - 1) (drop 1 lines))
                        read_line ∅;
          let body := String.concat (String "010" EmptyString)
                        (drop (Z.to_nat (end_idx + 1)) lines) in
          Ok (metadata, body)
  end.

(** [metadata.get("tags", "").split(",") if metadata.get("tags") else
    None], the tags that the batch script passes on. *)
Definition tags_of (metadata : gmap string string) : option (list string) :=
  if truthy_str (metadata !! "tags")
  then Some (split "," (default EmptyString (metadata !! "tags")))
  else None.

(* ===================================================================== *)
(** * A scripted world for concrete runs                                 *)
(* ===================================================================== *)

(** A readable stand-in for a token: the key id, the two timestamps, the
    audience, the algorithm and the key in hexadecimal.  Like PyJWT it
    refuses an empty key. *)
Definition token_field (d : gmap string pyjson) (key : string) : string :=
  match d !! key with
  | Some (JStr s) => s
  | Some (JInt n) => pretty n
  | _ => "?"
  end.

Definition scripted_jwt (payload : gmap string pyjson) (key : list Z)
    (algorithm : string) (headers : gmap string pyjson) : jwt_result :=
  match key with
  | [] => JwtRaise "InvalidKeyError"
  | _ =>
      JwtToken ("<jwt kid=" +:+ token_field headers "kid" +:+
          " iat=" +:+ token_field payload "iat" +:+
          " exp=" +:+ token_field payload "exp" +:+
          " aud=" +:+ token_field payload "aud" +:+
          " alg=" +:+ algorithm +:+
          " key=" +:+ hex key +:+ ">")
  end.

(** The remote end answers the requests in turn from a prepared list and
    refuses the connection once the list is used up; the clock stands
    still; [json.dumps] returns fixed text. *)
Definition scripted (now : Z) : Platform := {|
  World := list (result response);
  utcnow := λ _, now;
  session_request := λ _ w,
    match w with
    | [] => (Raise (ClientError "Connection refused"), [])
    | r :: w' => (r, w')
    end;
  jwt_encode := scripted_jwt;
  json_dumps := λ _, "<json>";
|}.

Definition json_response (code : Z) (body : pyjson) : response :=
  {| status := code; resp_text := Ok "<json>"; resp_json := Ok body |}.

Definition text_response (code : Z) (body : string) : response :=
  {| status := code; resp_text := Ok body; resp_json := Raise JSONDecodeError |}.

(** A fresh client over the scripted world, with no session yet. *)
Definition scripted_machine (now : Z) (key : string)
    (script : list (result response)) : @machine (scripted now) :=
  @Build_machine (scripted now)
    {| api_url := "https://test.ghost.io"; admin_api_key := key;
       _session := None; _owns_session := true |}
    (@Build_env (scripted now) ∅ script []).

Definition API_KEY : string := "650b7a9f8e8c1234567890ab:1234567890abcdef".

(** A fresh client with a good credential in a world that gives the
    listed answers. *)
Definition answering (script : list (result response)) : @machine (scripted 0) :=
  scripted_machine 0 API_KEY script.

(** Bodies of the test suite and of the spec's examples. *)
Definition invalid_target_url : gmap string pyjson :=
  {[ "errors" := JList [JDict {[ "message" := JStr "Invalid target URL" ]}] ]}.

Definition no_errors_listed : gmap string pyjson := {[ "errors" := JList [] ]}.

Definition no_webhooks_listed : gmap string pyjson := {[ "webhooks" := JList [] ]}.

Definition usd_series : list pyjson :=
  [JDict {[ "value" := JInt 10000 ]}; JDict {[ "value" := JInt 12284 ]}].

Definition mrr_items : list pyjson :=
  [ JDict {[ "currency" := JStr "usd"; "data" := JList usd_series ]};
    JDict {[ "currency" := JStr "eur"; "data" := JList [] ]} ].

Definition mrr_body : gmap string pyjson := {[ "data" := JList mrr_items ]}.

Definition hook_payload : pyjson :=
  JDict {[ "webhooks" :=
             JList [JDict {[ "event" := JStr "member.added";
                             "target_url" := JStr "https://example.com/hook" ]}] ]}.

(** More bodies of the test suite. *)
Definition latest_shares : gmap string pyjson :=
  {[ "paid" := JInt 10; "free" := JInt 85; "comped" := JInt 5 ]}.

Definition members_body : gmap string pyjson :=
  {[ "total" := JInt 100; "data" := JList [JDict latest_shares] ]}.

Definition newsletter_email : gmap string pyjson :=
  {[ "email_count" := JInt 1000; "delivered_count" := JInt 980;
     "opened_count" := JInt 450; "failed_count" := JInt 20;
     "subject" := JStr "Newsletter #1";
     "submitted_at" := JStr "2026-01-15T10:00:00Z" ]}.

Definition newsletter_clicks : gmap string pyjson := {[ "clicks" := JInt 120 ]}.

Definition newsletter_post : gmap string pyjson :=
  {[ "title" := JStr "Newsletter #1"; "slug" := JStr "newsletter-1";
     "published_at" := JStr "2026-01-15T10:00:00Z";
     "email" := JDict newsletter_email; "count" := JDict newsletter_clicks ]}.

Definition unsent_email : gmap string pyjson :=
  {[ "email_count" := JInt 0; "opened_count" := JInt 0 ]}.

Definition unsent_post : gmap string pyjson :=
  {[ "title" := JStr "Post"; "slug" := JStr "post";
     "email" := JDict unsent_email ]}.

Definition plain_post : gmap string pyjson :=
  {[ "title" := JStr "Post"; "slug" := JStr "post" ]}.

Definition posts_body : gmap string pyjson :=
  {[ "posts" := JList [JDict plain_post; JDict newsletter_post; JDict unsent_post] ]}.

Definition total_body (n : Z) : pyjson :=
  JDict {[ "posts" := JList [];
           "meta" := JDict {[ "pagination" := JDict {[ "total" := JInt n ]} ]} ]}.

(** A file for the batch script, as its lines. *)
Definition file_header : list string :=
  ["title: First"; "draft"; "title:  Second: part two "]%string.

Definition file_body : list string := [""; "# Heading"; "text"]%string.

(** The token of such a client. *)
Definition API_TOKEN : string :=
  "<jwt kid=650b7a9f8e8c1234567890ab iat=0 exp=300 aud=/admin/ alg=HS256 key=1234567890abcdef>".

(** The exchange such a client makes first. *)
Definition first_exchange (method endpoint : string) (json : pyjson)
    (out : result response) : exchange :=
  {| sent := request_sent (self (answering [])) 0 API_TOKEN method endpoint JNull json;
     outcome := out |}.

(* ===================================================================== *)
(** * Python values and strings                                          *)
(* ===================================================================== *)

Lemma py_get_dict (d : gmap string pyjson) (key : string) (dflt : pyjson) :
  py_get (JDict d) key dflt = Ok (default dflt (d !! key)).
Proof. done. Qed.

Lemma split_length sep s : length (split sep s) = S (count sep s).
Proof.
  induction s as [|c s IH]; simpl; [done|].
  destruct (Ascii.eqb c sep); simpl; [by rewrite IH|].
  destruct (split sep s); simpl in *; lia.
Qed.

Lemma unpack2_split_Ok sep s p :
  unpack2 (split sep s) = Ok p ↔ split sep s = [p.1; p.2].
Proof.
  unfold unpack2. destruct (split sep s) as [|a [|b [|c l]]]; split;
    intros Heq; try discriminate; destruct p; simpl in *; congruence.
Qed.

Lemma unpack2_split_count sep s :
  count sep s ≠ 1%nat → unpack2 (split sep s) = Raise (ValueError "").
Proof.
  intros Hc. pose proof (split_length sep s) as Hl.
  unfold unpack2. destruct (split sep s) as [|a [|b [|c l]]]; simpl in *;
    try done. lia.
Qed.

Lemma split_two_count sep s a b : split sep s = [a; b] → count sep s = 1%nat.
Proof.
  intros Hs. pose proof (split_length sep s) as Hl. rewrite Hs in Hl.
  simpl in Hl. lia.
Qed.

Lemma fromhex_Raise s e : fromhex s = Raise e → e = ValueError "".
Proof.
  assert (∀ n s, (String.length s < n)%nat →
            ∀ e, fromhex s = Raise e → e = ValueError "") as Hn.
  { clear. induction n as [|n IH]; intros s Hlt e; [lia|].
    destruct s as [|c s]; simpl in *; [done|].
    destruct (is_space c); [apply IH; lia|].
    destruct (hex_digit c); [|congruence].
    destruct s as [|d s]; [congruence|].
    destruct (hex_digit d); [|congruence].
    destruct (fromhex s) eqn:Hs; [done|].
    intros [= <-]. apply (IH s); [simpl in *; lia|done]. }
  by apply (Hn (S (String.length s))); lia.
Qed.

(** The bytes that [bytes.fromhex] returns are bytes. *)
Lemma fromhex_bytes s bs : fromhex s = Ok bs → Forall (λ b, 0 ≤ b < 256) bs.
Proof.
  assert (∀ c d, hex_digit c = Some d → 0 ≤ d < 16) as Hdigit.
  { intros c d. unfold hex_digit. repeat case_match; intros [= <-]; lia. }
  assert (∀ n s, (String.length s < n)%nat →
            ∀ bs, fromhex s = Ok bs → Forall (λ b, 0 ≤ b < 256) bs) as Hn.
  { clear -Hdigit. induction n as [|n IH]; intros s Hlt bs; [lia|].
    destruct s as [|c s]; simpl in *; [by intros [= <-]|].
    destruct (is_space c); [apply IH; lia|].
    destruct (hex_digit c) as [top|] eqn:Htop; [|done].
    destruct s as [|d s]; [done|].
    destruct (hex_digit d) as [bot|] eqn:Hbot; [|done].
    destruct (fromhex s) as [bs'|] eqn:Hs; [|done].
    intros [= <-]. constructor.
    - apply Hdigit in Htop, Hbot. lia.
    - apply (IH s); [simpl in *; lia|done]. }
  by apply (Hn (S (String.length s))); lia.
Qed.

(** A character that is neither a hexadecimal digit nor whitespace makes
    [bytes.fromhex] fail, wherever it stands. *)
Lemma fromhex_rejects s1 c s2 :
  hex_digit c = None → is_space c = false →
  fromhex (s1 +:+ String c s2) = Raise (ValueError "").
Proof.
  intros Hc Hsp.
  assert (∀ n s1, (String.length s1 < n)%nat →
            fromhex (s1 +:+ String c s2) = Raise (ValueError "")) as Hn.
  { induction n as [|n IH]; intros t Hlt; [lia|].
    destruct t as [|a t]; simpl in *; [by rewrite Hsp, Hc|].
    destruct (is_space a); [apply IH; lia|].
    destruct (hex_digit a); [|done].
    destruct t as [|b t]; simpl in *; [by rewrite Hc|].
    destruct (hex_digit b); [|done].
    rewrite (IH t) by lia. done. }
  by apply (Hn (S (String.length s1))); lia.
Qed.

(** A credential [id:secret] without further colons splits into its two
    halves. *)
Lemma split_two sep a b :
  count sep a = 0%nat → count sep b = 0%nat →
  split sep (a +:+ String sep b) = [a; b].
Proof.
  intros Ha Hb. induction a as [|c a IH]; simpl in *.
  - rewrite Ascii.eqb_refl. f_equal.
    clear -Hb. induction b as [|c b IH]; simpl in *; [done|].
    destruct (Ascii.eqb c sep); [done|]. by rewrite IH.
  - destruct (Ascii.eqb c sep); [done|]. by rewrite IH.
Qed.

Lemma rstrip_idemp c s : rstrip c (rstrip c s) = rstrip c s.
Proof.
  induction s as [|a s IH]; simpl; [done|].
  destruct (rstrip c s) as [|b r] eqn:Hr.
  - destruct (Ascii.eqb a c) eqn:Hac; simpl; [done|by rewrite Hac].
  - simpl in *. by rewrite IH.
Qed.

Lemma endswith_rstrip c s : endswith c (rstrip c s) = false.
Proof.
  induction s as [|a s IH]; simpl; [done|].
  destruct (rstrip c s) as [|b r] eqn:Hr.
  - destruct (Ascii.eqb a c) eqn:Hac; simpl; [done|by rewrite Hac].
  - simpl in *. done.
Qed.


(** What is left of a text by [rstrip]: the text without its trailing
    separators, all of them and nothing else. *)
Lemma rstrip_spec c s :
  (∃ tail, s = rstrip c s +:+ tail ∧
           Forall (λ a, a = c) (String.list_ascii_of_string tail)) ∧
  (∀ t, rstrip c s ≠ t +:+ String c EmptyString).
Proof.
  induction s as [|a s [(tail & Hs & Htail) Hend]]; simpl.
  - split; [by exists EmptyString|]. by intros [|b t].
  - destruct (rstrip c s) as [|b r] eqn:Hr.
    + simpl in Hs. subst s. destruct (Ascii.eqb_spec a c) as [->|Hac].
      * split; [|by intros [|b t]].
        exists (String c tail). split; [done|]. by constructor.
      * split; [by exists tail|].
        intros [|b t]; simpl; [by intros [= ?]|]. intros [= _ Ht]. by destruct t.
    + split.
      * exists tail. simpl. by rewrite Hs at 1.
      * intros [|b' t]; simpl; [done|]. intros [= _ Ht]. by apply (Hend t).
Qed.

(** ** Hexadecimal *)

Lemma hex_digit_char c d :
  hex_digit c = Some d →
  0 ≤ d < 16 ∧ hex_char d = ascii_lower c ∧ is_space c = false.
Proof.
  destruct c as [[] [] [] [] [] [] [] []]; intros Hd; vm_compute in Hd;
    try discriminate; injection Hd as <-; split_and!; (lia || reflexivity).
Qed.

Lemma hex_char_digit d :
  0 ≤ d < 16 → hex_digit (hex_char d) = Some d ∧ is_space (hex_char d) = false.
Proof.
  intros Hd.
  assert (d = 0 ∨ d = 1 ∨ d = 2 ∨ d = 3 ∨ d = 4 ∨ d = 5 ∨ d = 6 ∨ d = 7 ∨
          d = 8 ∨ d = 9 ∨ d = 10 ∨ d = 11 ∨ d = 12 ∨ d = 13 ∨ d = 14 ∨ d = 15)
    as Hcases by lia.
  repeat destruct Hcases as [->|Hcases]; try subst d; done.
Qed.

(** The bytes that [bytes.fromhex] returns are those that the text
    writes in hexadecimal. *)
Lemma fromhex_hex s bs : fromhex s = Ok bs → hex bs = hex_digits_of s.
Proof.
  assert (∀ n s, (String.length s < n)%nat →
            ∀ bs, fromhex s = Ok bs → hex bs = hex_digits_of s) as Hn.
  { clear. induction n as [|n IH]; intros s Hlt bs; [lia|].
    destruct s as [|c s]; simpl in *; [by intros [= <-]|].
    destruct (is_space c) eqn:Hsp; [apply IH; lia|].
    destruct (hex_digit c) as [top|] eqn:Htop; [|done].
    destruct s as [|d s]; [done|].
    destruct (hex_digit d) as [bot|] eqn:Hbot; [|done].
    destruct (fromhex s) as [bs'|] eqn:Hs; [|done].
    intros [= <-].
    destruct (hex_digit_char _ _ Htop) as (Ht & Hlc & _).
    destruct (hex_digit_char _ _ Hbot) as (Hb & Hld & Hdsp).
    simpl. rewrite Hdsp, <- Hlc, <- Hld.
    replace ((top * 16 + bot) / 16) with top
      by (apply Z.div_unique with bot; lia).
    replace ((top * 16 + bot) mod 16) with bot
      by (apply Z.mod_unique with top; lia).
    do 2 f_equal. apply (IH s); [simpl in *; lia|done]. }
  by apply (Hn (S (String.length s))); lia.
Qed.

(** Conversely [bytes.fromhex] reads back what [bytes.hex()] wrote. *)
Lemma fromhex_of_hex bs :
  Forall (λ b, 0 ≤ b < 256) bs → fromhex (hex bs) = Ok bs.
Proof.
  induction 1 as [|b bs Hb _ IH]; [done|]. simpl.
  destruct (hex_char_digit (b / 16)) as [-> ->].
  { split; [apply Z.div_pos; lia|apply Z.div_lt_upper_bound; lia]. }
  destruct (hex_char_digit (b mod 16)) as [-> _].
  { apply Z.mod_pos_bound. lia. }
  rewrite IH. f_equal. f_equal.
  pose proof (Z.div_mod b 16 ltac:(lia)). lia.
Qed.

(* ===================================================================== *)
(** * Floating point                                                     *)
(* ===================================================================== *)

Section Float.
Local Open Scope Q_scope.

Lemma Qfloor_above (y : Q) (j : Z) : inject_Z j <= y → (j <= Qfloor y)%Z.
Proof. intros Hj. apply Qfloor_resp_le in Hj. by rewrite Qfloor_Z in Hj. Qed.

Lemma Qfloor_below (y : Q) (j : Z) : y < inject_Z j → (Qfloor y < j)%Z.
Proof. intros Hj. pose proof (Qfloor_le y). rewrite Zlt_Qlt. lra. Qed.

Lemma Qfloor_unique (y : Q) (n : Z) :
  inject_Z n <= y → y < inject_Z n + 1 → Qfloor y = n.
Proof.
  intros Hlo Hhi. pose proof (Qfloor_above y n Hlo).
  assert (y < inject_Z (n + 1)) as Hhi' by (rewrite inject_Z_plus; exact Hhi).
  pose proof (Qfloor_below y (n + 1) Hhi'). lia.
Qed.

Lemma round_half_even_spec (y : Q) :
  Qabs (inject_Z (round_half_even y) - y) <= 1 # 2 ∧
  (∀ j : Z, inject_Z j <= y → (j <= round_half_even y)%Z) ∧
  (∀ j : Z, y <= inject_Z j → (round_half_even y <= j)%Z).
Proof.
  pose proof (Qfloor_le y) as Hlo. pose proof (Qlt_floor y) as Hhi.
  rewrite inject_Z_plus in Hhi. change (inject_Z 1) with 1 in Hhi.
  assert (∀ m : Z, (m = Qfloor y ∨
                    m = (Qfloor y + 1)%Z ∧ 1 # 2 <= y - inject_Z (Qfloor y)) →
            Qabs (inject_Z m - y) <= 1 # 2 →
            Qabs (inject_Z m - y) <= 1 # 2 ∧
            (∀ j : Z, inject_Z j <= y → (j <= m)%Z) ∧
            (∀ j : Z, y <= inject_Z j → (m <= j)%Z)) as Hcase.
  { intros m Hm Habs. split; [done|]. split.
    - intros j Hj. pose proof (Qfloor_above y j Hj). lia.
    - intros j Hj. destruct Hm as [->|[-> Hhalf]].
      + rewrite Zle_Qle. lra.
      + assert (inject_Z (Qfloor y) < inject_Z j) as Hlt by lra.
        rewrite <- Zlt_Qlt in Hlt. lia. }
  unfold round_half_even. cbv zeta.
  destruct (Qcompare_spec (y - inject_Z (Qfloor y)) (1 # 2)) as [Heq|Hlt|Hgt].
  - destruct (Z.even (Qfloor y)); apply Hcase.
    + by left.
    + apply Qabs_Qle_condition. lra.
    + right. split; [done|]. lra.
    + rewrite inject_Z_plus. change (inject_Z 1) with 1.
      apply Qabs_Qle_condition. lra.
  - apply Hcase; [by left|]. apply Qabs_Qle_condition. lra.
  - apply Hcase.
    + right. split; [done|]. lra.
    + rewrite inject_Z_plus. change (inject_Z 1) with 1.
      apply Qabs_Qle_condition. lra.
Qed.

Lemma Qdiv_lt_cross (a b c d : Q) :
  0 < b → 0 < d → a * d < c * b → a / b < c / d.
Proof.
  intros Hb Hd Hlt. apply (Qmult_lt_r _ _ (b * d)); [nra|].
  assert (a / b * (b * d) == a * d) as -> by (field; lra).
  assert (c / d * (b * d) == c * b) as -> by (field; lra).
  done.
Qed.

Lemma Qdiv_le_cross (a b c d : Q) :
  0 < b → 0 < d → a * d <= c * b → a / b <= c / d.
Proof.
  intros Hb Hd Hle. apply (Qmult_le_r _ _ (b * d)); [nra|].
  assert (a / b * (b * d) == a * d) as -> by (field; lra).
  assert (c / d * (b * d) == c * b) as -> by (field; lra).
  done.
Qed.

Lemma pow2_pos (e : Z) : 0 < 2 ^ e.
Proof. by apply Qpower_0_lt. Qed.

Lemma pow2_succ (e : Z) : 2 ^ (e + 1) == 2 * 2 ^ e.
Proof. rewrite Qpower_plus by done. change (2 ^ 1) with 2. ring. Qed.

Lemma pow2_inject (k : Z) : (0 <= k)%Z → 2 ^ k == inject_Z (2 ^ k).
Proof. intros Hk. by rewrite Zpower_Qpower. Qed.

Lemma inject_Z_pos (n : Z) : (0 < n)%Z → 0 < inject_Z n.
Proof. intros Hn. change 0 with (inject_Z 0). by rewrite <- Zlt_Qlt. Qed.

(** [floor_log2] is what it is named after. *)
Lemma floor_log2_spec (x : Q) :
  0 < x → 2 ^ floor_log2 x <= x ∧ x < 2 ^ (floor_log2 x + 1).
Proof.
  intros Hx. destruct x as [n d].
  assert (0 < n)%Z as Hn by (revert Hx; unfold Qlt; simpl; lia).
  unfold floor_log2. simpl Qnum. simpl Qden.
  set (ln := Z.log2 n). set (ld := Z.log2 (Z.pos d)).
  destruct (Z.log2_spec n Hn) as [Hn1 Hn2]. fold ln in Hn1, Hn2.
  destruct (Z.log2_spec (Z.pos d) eq_refl) as [Hd1 Hd2]. fold ld in Hd1, Hd2.
  assert (0 <= ln)%Z as Hln by apply Z.log2_nonneg.
  assert (0 <= ld)%Z as Hld by apply Z.log2_nonneg.
  replace (Z.succ ln) with (ln + 1)%Z in Hn2 by lia.
  replace (Z.succ ld) with (ld + 1)%Z in Hd2 by lia.
  rewrite Zle_Qle in Hn1, Hd1. rewrite Zlt_Qlt in Hn2, Hd2.
  rewrite <- pow2_inject in Hn1, Hn2, Hd1, Hd2 by lia.
  rewrite pow2_succ in Hn2, Hd2.
  pose proof (pow2_pos ln) as Hpn. pose proof (pow2_pos ld) as Hpd.
  pose proof (inject_Z_pos _ Hn) as Hnpos.
  assert (2 ^ (ln - ld - 1) < n # d ∧ n # d < 2 ^ (ln - ld + 1)) as [Hlow Hhigh].
  { rewrite pow2_succ, (Qpower_minus 2 (ln - ld) 1), (Qpower_minus 2 ln ld) by done.
    change (2 ^ 1) with 2. rewrite (Qmake_Qdiv n d).
    generalize dependent (inject_Z n). generalize dependent (inject_Z (Z.pos d)).
    generalize dependent (2 ^ ln). generalize dependent (2 ^ ld).
    intros B HB A HA D HD1 HD2 N HN1 HN2 HN. split.
    - assert (A / B / 2 == A / (2 * B)) as -> by (field; lra).
      apply Qdiv_lt_cross; [lra|lra|nra].
    - assert (2 * (A / B) == 2 * A / B) as -> by (field; lra).
      apply Qdiv_lt_cross; [lra|lra|nra]. }
  destruct (Qle_bool (2 ^ (ln - ld)) (n # d)) eqn:Htest.
  - apply Qle_bool_iff in Htest. done.
  - split; [by apply Qlt_le_weak|].
    replace (ln - ld - 1 + 1)%Z with (ln - ld)%Z by lia.
    apply Qnot_le_lt. intros Hle. apply Qle_bool_iff in Hle. congruence.
Qed.


Lemma pow2_le (a b : Z) : (a <= b)%Z → 2 ^ a <= 2 ^ b.
Proof. intros Hab. by apply Qpower_le_compat_l. Qed.

Lemma pow2_lt_inv (a b : Z) : 2 ^ a < 2 ^ b → (a < b)%Z.
Proof. intros Hab. by apply (Qpower_lt_compat_l_inv 2). Qed.

(** The spacing is a power of two; it is at most [2 ^ (k - 53)] below
    [2 ^ k], and at most [x / 2 ^ 52] from [2 ^ -1022] on. *)
Lemma ulp_below (x : Q) (k : Z) :
  0 < x → x < 2 ^ k → (-1021 <= k)%Z →
  ∃ e : Z, ulp x = 2 ^ e ∧ (e <= k - 53)%Z.
Proof.
  intros Hx Hk Hnormal. eexists. split; [reflexivity|].
  assert (0 < Qabs x) as Hpos by (rewrite Qabs_pos; lra).
  destruct (floor_log2_spec (Qabs x) Hpos) as [Hlo _].
  rewrite Qabs_pos in Hlo at 2 by lra.
  assert (floor_log2 (Qabs x) < k)%Z by (apply pow2_lt_inv; lra).
  lia.
Qed.

Lemma ulp_normal (x : Q) :
  2 ^ (-1022) <= x → ulp x * 2 ^ 52 <= x.
Proof.
  intros Hx. pose proof (pow2_pos (-1022)) as Hmin.
  assert (0 < Qabs x) as Hpos by (rewrite Qabs_pos; lra).
  destruct (floor_log2_spec (Qabs x) Hpos) as [Hlo Hhi].
  rewrite Qabs_pos in Hlo at 2 by lra. rewrite Qabs_pos in Hhi at 1 by lra.
  assert (-1022 < floor_log2 (Qabs x) + 1)%Z by (apply pow2_lt_inv; lra).
  unfold ulp. rewrite Z.max_l by lia.
  rewrite <- Qpower_plus by done.
  by replace (floor_log2 (Qabs x) - 52 + 52)%Z with (floor_log2 (Qabs x)) by lia.
Qed.

Lemma round_to_double_pos (x : Q) :
  0 < x →
  round_to_double x =
    let y := inject_Z (round_half_even (x / ulp x)) * ulp x in
    if Qle_bool (2 ^ 1024) (Qabs y) then None else Some y.
Proof.
  intros Hx. unfold round_to_double.
  destruct (Qeq_bool x 0) eqn:Hz; [|done].
  apply Qeq_bool_iff in Hz. lra.
Qed.

Lemma Qle_bool_false (a b : Q) : b < a → Qle_bool a b = false.
Proof.
  intros Hlt. destruct (Qle_bool a b) eqn:Hle; [|done].
  apply Qle_bool_iff in Hle. lra.
Qed.

Lemma scaled_bounds (N K M : Q) :
  0 < K → N * K <= M → M < (N + 1) * K → N <= M * / K ∧ M * / K < N + 1.
Proof.
  intros HK H1 H2. split.
  - apply (Qmult_le_r _ _ K); [done|].
    assert (M * / K * K == M) as -> by (field; lra). done.
  - apply (Qmult_lt_r _ _ K); [done|].
    assert (M * / K * K == M) as -> by (field; lra). done.
Qed.

Lemma rounded_below_next (N K M x : Q) :
  524288 <= K → x <= N + (999999 # 1000000) →
  -(1 # 2) <= M - x * K <= 1 # 2 →
  M < (N + 1) * K.
Proof. intros HK Hx [_ Hnear]. nra. Qed.

(** From the epoch until [2 ^ 34] seconds after it (the year 2514), the
    rounding of [timestamp()] does not show in the whole seconds. *)
Lemma int_timestamp_exact (t : Z) :
  (0 <= t < 2 ^ 34 * 1000000)%Z →
  int_timestamp t = Ok (t / 1000000)%Z.
Proof.
  intros [Ht0 Ht1].
  destruct (decide (t = 0%Z)) as [->|Hne]; [vm_compute; reflexivity|].
  set (n := (t / 1000000)%Z).
  assert (1000000 * n <= t ∧ t <= 1000000 * n + 999999 ∧ 0 <= n < 2 ^ 34)%Z
    as (Hn1 & Hn2 & Hn3 & Hn4).
  { pose proof (Z.div_mod t 1000000 ltac:(lia)) as Hdiv.
    pose proof (Z.mod_pos_bound t 1000000 ltac:(lia)) as Hmod.
    fold n in Hdiv. split_and!; lia. }
  assert (0 < inject_Z t) as Htpos by (apply inject_Z_pos; lia).
  unfold int_timestamp, py_truediv. change (1000000 =? 0)%Z with false. cbv iota.
  change (inject_Z 1000000) with 1000000.
  set (x := inject_Z t / 1000000).
  assert (inject_Z n <= x ∧ x <= inject_Z n + (999999 # 1000000) ∧ 0 < x ∧ x < 2 ^ 34)
    as (Hx1 & Hx2 & Hx3 & Hx4).
  { assert (inject_Z 1000000 * inject_Z n <= inject_Z t) as Hq1
      by (rewrite <- inject_Z_mult, <- Zle_Qle; lia).
    assert (inject_Z t <= inject_Z 1000000 * inject_Z n + inject_Z 999999) as Hq2
      by (rewrite <- inject_Z_mult, <- inject_Z_plus, <- Zle_Qle; lia).
    assert (inject_Z n <= inject_Z (2 ^ 34 - 1)) as Hq3 by (rewrite <- Zle_Qle; lia).
    change (inject_Z 1000000) with 1000000 in *.
    change (inject_Z 999999) with 999999 in *.
    change (inject_Z (2 ^ 34 - 1)%Z) with (2 ^ 34 - 1) in *.
    unfold x, Qdiv. change (/ 1000000) with (1 # 1000000). clear x.
    generalize dependent (inject_Z t). generalize dependent (inject_Z n).
    clear. intros. split_and!; lra. }
  destruct (ulp_below x 34 Hx3 Hx4 ltac:(lia)) as (e & Hu & He).
  rewrite (round_to_double_pos x Hx3). cbv zeta. rewrite Hu.
  set (k := (- e)%Z). set (K := (2 ^ k)%Z).
  assert (2 ^ 19 <= K)%Z as HK by (apply Z.pow_le_mono_r; lia).
  assert (2 ^ e == / inject_Z K) as HuK.
  { replace e with (- k)%Z by lia. rewrite Qpower_opp.
    unfold K. by rewrite Zpower_Qpower by lia. }
  assert (0 < inject_Z K) as HKpos by (apply inject_Z_pos; lia).
  assert (524288 <= inject_Z K) as HKbig.
  { change 524288 with (inject_Z (2 ^ 19)). by rewrite <- Zle_Qle. }
  assert (x / 2 ^ e == x * inject_Z K) as Hscaled.
  { rewrite HuK. field. lra. }
  destruct (round_half_even_spec (x / 2 ^ e)) as (Hnear & Hgrid & _).
  set (m := round_half_even (x / 2 ^ e)) in *.
  rewrite Hscaled in Hnear. apply Qabs_Qle_condition in Hnear.
  assert (inject_Z n * inject_Z K <= inject_Z m) as Hm1.
  { rewrite <- inject_Z_mult, <- Zle_Qle. apply Hgrid.
    rewrite Hscaled, inject_Z_mult. by apply Qmult_le_compat_r; [|lra]. }
  pose proof (rounded_below_next _ _ _ _ HKbig Hx2 Hnear) as Hm2.
  destruct (scaled_bounds _ _ _ HKpos Hm1 Hm2) as [Hy1 Hy2].
  rewrite <- HuK in Hy1, Hy2.
  set (y := inject_Z m * 2 ^ e) in *.
  assert (0 <= inject_Z n) as Hn0
    by (change 0 with (inject_Z 0); rewrite <- Zle_Qle; lia).
  assert (inject_Z n <= 2 ^ 34 - 1) as Hn34.
  { change (2 ^ 34 - 1) with (inject_Z (2 ^ 34 - 1)). rewrite <- Zle_Qle. lia. }
  rewrite Qle_bool_false.
  2: { rewrite Qabs_pos by lra. pose proof (pow2_le 34 1024 ltac:(lia)). lra. }
  unfold mbind, result_bind, int_of_float.
  assert (Qle_bool 0 y = true) as -> by (apply Qle_bool_iff; lra).
  f_equal. by apply Qfloor_unique.
Qed.


Lemma ulp_pos (x : Q) : 0 < ulp x.
Proof. apply pow2_pos. Qed.

Lemma rounding_arith (x u q m c : Q) :
  0 < u → q * u == x → - (1 # 2) <= m - q <= 1 # 2 → u * c <= x → 1 <= c →
  - x <= (m * u - x) * (2 * c) <= x ∧ - (2 * x) < m * u < 2 * x.
Proof.
  intros Hu Hq [Hn1 Hn2] Hc Hc1.
  assert (m * u - x == (m - q) * u) as Hd by (rewrite <- Hq; ring).
  assert (m * u == (m - q) * u + x) as Hm by (rewrite <- Hq; ring).
  apply (Qmult_le_compat_r _ _ u) in Hn1, Hn2; [|lra..].
  rewrite Hd, Hm. clear Hd Hm. remember ((m - q) * u) as d eqn:Heqd. clear Heqd.
  assert (- (u * c) <= d * (2 * c) <= u * c) as [H1 H2] by (split; nra).
  assert (0 < x) by nra.
  split; split; nra.
Qed.

(** Rounding a number in the normal range of binary64 gives a finite one
    within [x / 2 ^ 53] of it. *)
Lemma round_to_double_error (x : Q) :
  2 ^ (-1022) <= x → x < 2 ^ 1023 →
  ∃ y, round_to_double x = Some y ∧ - x <= (y - x) * 2 ^ 53 <= x.
Proof.
  intros Hlo Hhi. pose proof (pow2_pos (-1022)) as Hmin.
  assert (0 < x) as Hx by lra.
  pose proof (ulp_normal x Hlo) as Hu. pose proof (ulp_pos x) as Hupos.
  destruct (round_half_even_spec (x / ulp x)) as (Hnear & _ & _).
  apply Qabs_Qle_condition in Hnear.
  rewrite (round_to_double_pos x Hx). cbv zeta.
  assert (x / ulp x * ulp x == x) as Hq by (field; lra).
  pose proof (pow2_le 0 52 ltac:(lia)) as H52. change (2 ^ 0) with 1 in H52.
  destruct (rounding_arith x (ulp x) (x / ulp x)
              (inject_Z (round_half_even (x / ulp x))) (2 ^ 52)
              Hupos Hq Hnear Hu H52) as [Herr Hsize].
  eexists. split.
  - rewrite Qle_bool_false; [done|].
    apply Qabs_Qlt_condition.
    assert (2 ^ 1024 == 2 * 2 ^ 1023) as -> by (by rewrite <- pow2_succ).
    clear -Hsize Hhi. generalize dependent (2 ^ 1023). intros. lra.
  - assert (2 ^ 53 == 2 * 2 ^ 52) as -> by (by rewrite <- pow2_succ). done.
Qed.

Lemma percent_arith (A u v w c : Q) (B : Q) :
  1 <= A → A * 1024 <= c →
  - A <= (u - A) * c <= A →
  - (100 * u) <= (v - 100 * u) * c <= 100 * u →
  - B <= 2 * (w - v) <= B →
  - (B + 1) < 2 * (w - 100 * A) < B + 1.
Proof.
  intros HA Hc [H1 H1'] [H2 H2'] [H3 H3'].
  assert (u <= 2 * A) by nra.
  assert (0 <= u) by nra.
  assert (- (300 * A) <= (v - 100 * A) * c <= 300 * A) as [H4 H5] by (split; nra).
  assert (- (1 # 2) < v - 100 * A < 1 # 2) by (split; nra).
  lra.
Qed.

(** For counts below [2 ^ 43], [round(a / b * 100)] is an integer nearest
    to the exact percentage: the three roundings on the way do not take it
    across a half. *)
Lemma round_percent_nearest (a b : Z) :
  (0 <= a < 2 ^ 43)%Z → (0 < b < 2 ^ 1022)%Z →
  ∃ r : Z, round_percent a b = Ok r ∧ (Z.abs (2 * (b * r - 100 * a)) <= b)%Z.
Proof.
  intros [Ha0 Ha1] [Hb0 Hb1].
  unfold round_percent, py_truediv.
  rewrite (proj2 (Z.eqb_neq b 0)) by lia.
  assert (0 < inject_Z b) as HB by (apply inject_Z_pos; lia).
  destruct (decide (a = 0%Z)) as [->|Hne].
  { assert (round_to_double (inject_Z 0 / inject_Z b) = Some 0) as ->.
    { unfold round_to_double.
      assert (Qeq_bool (inject_Z 0 / inject_Z b) 0 = true) as ->; [|done].
      apply Qeq_bool_iff. unfold Qdiv. ring. }
    exists 0%Z. split; [vm_compute; reflexivity|lia]. }
  set (A := inject_Z a). set (B := inject_Z b) in *.
  assert (1 <= A) as HA1.
  { change 1 with (inject_Z 1). unfold A. rewrite <- Zle_Qle. lia. }
  assert (A <= 2 ^ 43 - 1) as HA2.
  { change (2 ^ 43 - 1) with (inject_Z (2 ^ 43 - 1)). unfold A.
    rewrite <- Zle_Qle. lia. }
  assert (B <= 2 ^ 1022) as HB2.
  { rewrite (pow2_inject 1022) by lia. unfold B. rewrite <- Zle_Qle. lia. }
  set (x1 := A / B).
  assert (x1 * B == A) as Hx1 by (unfold x1; field; lra).
  assert (2 ^ (-1022) <= x1) as Hx1lo.
  { change (-1022)%Z with (- (1022))%Z. rewrite Qpower_opp.
    pose proof (pow2_pos 1022) as Hp. unfold x1.
    assert (/ 2 ^ 1022 == 1 / 2 ^ 1022) as -> by (field; lra).
    apply Qdiv_le_cross; [lra|lra|]. generalize dependent (2 ^ 1022). intros.
    nra. }
  assert (x1 <= 2 ^ 43 - 1) as Hx1hi.
  { unfold x1. apply Qle_shift_div_r; [done|].
    assert (1 <= B) as HB1.
    { change 1 with (inject_Z 1). unfold B. rewrite <- Zle_Qle. lia. }
    nra. }
  pose proof (pow2_le 43 1023 ltac:(lia)) as H43.
  destruct (round_to_double_error x1 Hx1lo ltac:(lra)) as (y1 & -> & Hy1).
  cbn [mbind result_bind]. unfold float_mul, py_round.
  pose proof (pow2_pos (-1022)) as Hmin.
  pose proof (pow2_le 1 53 ltac:(lia)) as H53. change (2 ^ 1) with 2 in H53.
  assert (x1 <= 2 * y1 ∧ y1 <= 2 * x1) as [Hy1lo Hy1hi].
  { clear -Hy1 H53. remember (2 ^ 53) as c. clear Heqc. destruct Hy1 as [Hy1 Hy1'].
    assert (0 <= x1) by lra. split; nra. }
  pose proof (pow2_le 51 1023 ltac:(lia)) as H51.
  destruct (round_to_double_error (y1 * 100)) as (p & -> & Hp); [lra|lra|].
  exists (round_half_even p). split; [done|].
  destruct (round_half_even_spec p) as (Hr & _ & _).
  apply Qabs_Qle_condition in Hr.
  set (r := round_half_even p) in *.
  assert (- (B + 1) < 2 * (B * inject_Z r - 100 * A) < B + 1) as [Hlo Hhi].
  { assert (B * (y1 - x1) == B * y1 - A) as Hd1 by (rewrite <- Hx1; ring).
    assert (B * (p - y1 * 100) == B * p - 100 * (B * y1)) as Hd2 by ring.
    assert (B * (inject_Z r - p) == B * inject_Z r - B * p) as Hd3 by ring.
    apply (percent_arith A (B * y1) (B * p) (B * inject_Z r) (2 ^ 53) B).
    - lra.
    - change (2 ^ 53) with 9007199254740992. change (2 ^ 43 - 1) with 8796093022207 in HA2. lra.
    - rewrite <- Hd1, <- Hx1. clear -Hy1 HB. remember (2 ^ 53) as c. clear Heqc.
      split; nra.
    - rewrite <- Hd2. clear -Hp HB. remember (2 ^ 53) as c. clear Heqc.
      split; nra.
    - rewrite <- Hd3. clear -Hr HB. split; nra. }
  assert (inject_Z (2 * (b * r - 100 * a)) < inject_Z (b + 1)) as Hhi'.
  { rewrite inject_Z_plus, inject_Z_mult.
    unfold Z.sub. rewrite inject_Z_plus, inject_Z_opp, !inject_Z_mult. exact Hhi. }
  assert (inject_Z (- (b + 1)) < inject_Z (2 * (b * r - 100 * a))) as Hlo'.
  { rewrite inject_Z_opp, inject_Z_plus, inject_Z_mult.
    unfold Z.sub. rewrite inject_Z_plus, inject_Z_opp, !inject_Z_mult. exact Hlo. }
  rewrite <- Zlt_Qlt in Hhi', Hlo'. lia.
Qed.

End Float.

(* ===================================================================== *)
(** * Token generation and construction                                  *)
(* ===================================================================== *)

Ltac unfold_monad :=
  unfold mbind, mret, M_bind, M_ret, result_bind, result_ret, raise, lift,
    get_self, set_self, try_except, datetime_now in *.

Section Token.
Context `{Platform}.

Lemma generate_token_bad_format (m : machine) :
  count ":" (admin_api_key (self m)) ≠ 1%nat →
  _generate_token m =
    (Raise (GhostAuthError "Invalid API key format. Expected 'id:secret'"), m).
Proof.
  intros Hc. unfold _generate_token. unfold_monad.
  by rewrite (unpack2_split_count _ _ Hc).
Qed.

Lemma generate_token_bad_secret (m : machine) key_id secret e :
  split ":" (admin_api_key (self m)) = [key_id; secret] →
  fromhex secret = Raise e →
  _generate_token m =
    (Raise (GhostAuthError "Invalid API key secret. Expected hex string."), m).
Proof.
  intros Hs He. unfold _generate_token. unfold_monad.
  rewrite Hs. simpl. rewrite He. by rewrite (fromhex_Raise _ _ He).
Qed.

(** With a credential that passes both checks, token generation is the
    two timestamps and then [jwt.encode], whose outcome is the outcome. *)
Lemma generate_token_signs (m : machine) key_id secret secret_bytes :
  split ":" (admin_api_key (self m)) = [key_id; secret] →
  fromhex secret = Ok secret_bytes →
  let now := utcnow (world (outside m)) in
  _generate_token m =
    (iat ← int_timestamp now;
     expiry ← datetime_add now (timedelta_minutes JWT_EXPIRY_MINUTES);
     exp ← int_timestamp expiry;
     jwt_outcome
       (jwt_encode
          {[ "iat" := JInt iat; "exp" := JInt exp; "aud" := JStr "/admin/" ]}
          secret_bytes "HS256"
          {[ "alg" := JStr "HS256"; "kid" := JStr key_id; "typ" := JStr "JWT" ]}),
     m).
Proof.
  intros Hs Hb now. unfold _generate_token. unfold_monad.
  rewrite Hs. simpl. rewrite Hb. fold now.
  destruct (int_timestamp now) as [iat|e]; [|done].
  destruct (datetime_add now _) as [expiry|e]; [|done].
  by destruct (int_timestamp expiry) as [exp|e].
Qed.

Lemma py_truediv_raises a b e :
  py_truediv a b = Raise e → ∃ name, e = OtherException name.
Proof.
  unfold py_truediv. destruct (b =? 0); [intros [= <-]; by eexists|].
  destruct (round_to_double _); [done|]. intros [= <-]. by eexists.
Qed.

Lemma int_timestamp_raises t e :
  int_timestamp t = Raise e → ∃ name, e = OtherException name.
Proof.
  unfold int_timestamp, mbind, result_bind.
  destruct (py_truediv t 1000000) as [q|e'] eqn:Hq; [done|].
  intros [= <-]. by apply (py_truediv_raises _ _ _ Hq).
Qed.

(** What token generation raises is GhostAuthError for a credential that
    fails a check, and otherwise an exception from outside the client:
    none of aiohttp's. *)
Lemma generate_token_raises (m m' : machine) (e : exn) :
  _generate_token m = (Raise e, m') →
  (∃ msg, e = GhostAuthError msg) ∨ (∃ name, e = OtherException name).
Proof.
  intros Hrun.
  destruct (decide (count ":" (admin_api_key (self m)) = 1%nat)) as [Hc|Hc].
  - pose proof (split_length ":" (admin_api_key (self m))) as Hl.
    rewrite Hc in Hl.
    destruct (split ":" (admin_api_key (self m))) as [|a [|b [|c l]]] eqn:Hs;
      simpl in Hl; try lia.
    destruct (fromhex b) as [bs|e'] eqn:Hb.
    + rewrite (generate_token_signs m a b bs Hs Hb) in Hrun. cbv zeta in Hrun.
      injection Hrun as Hrun _. right. revert Hrun.
      unfold mbind, result_bind.
      destruct (int_timestamp _) as [iat|e1] eqn:H1;
        [|intros [= <-]; by apply (int_timestamp_raises _ _ H1)].
      destruct (datetime_add _ _) as [expiry|e2] eqn:H2.
      2: { intros [= <-]. revert H2. unfold datetime_add.
           case_match; [done|]. intros [= <-]. by eexists. }
      destruct (int_timestamp expiry) as [exp|e3] eqn:H3;
        [|intros [= <-]; by apply (int_timestamp_raises _ _ H3)].
      destruct (jwt_encode _ _ _ _); simpl; [done|]. intros [= <-]. by eexists.
    + rewrite (generate_token_bad_secret m a b e' Hs Hb) in Hrun.
      injection Hrun as <- _. left. by eexists.
  - rewrite (generate_token_bad_format m Hc) in Hrun.
    injection Hrun as <- _. left. by eexists.
Qed.

(** The token is a function of the credential and the clock: generating
    it leaves the client and the environment alone. *)
Lemma generate_token_cases (m : machine) :
  (∃ token, _generate_token m = (Ok token, m)) ∨
  (∃ e, _generate_token m = (Raise e, m)).
Proof.
  destruct (decide (count ":" (admin_api_key (self m)) = 1%nat)) as [Hc|Hc].
  - pose proof (split_length ":" (admin_api_key (self m))) as Hl.
    rewrite Hc in Hl.
    destruct (split ":" (admin_api_key (self m))) as [|a [|b [|c l]]] eqn:Hs;
      simpl in Hl; try lia.
    destruct (fromhex b) as [bs|e] eqn:Hb.
    + rewrite (generate_token_signs m a b bs Hs Hb).
      match goal with |- context [(?r, m)] => destruct r as [token|e] end;
        [left|right]; by eexists.
    + right. eexists. by apply (generate_token_bad_secret m a b e).
  - right. eexists. by apply generate_token_bad_format.
Qed.

(** Between the epoch and [2 ^ 34] seconds after it the whole seconds of
    both timestamps are exact, so that they differ by the five minutes. *)
Lemma expiry_after_issue (now : Z) :
  0 ≤ now < (2 ^ 34 - 300) * 1000000 →
  int_timestamp now = Ok (now / 1000000) ∧
  datetime_add now (timedelta_minutes JWT_EXPIRY_MINUTES) = Ok (now + 300000000) ∧
  int_timestamp (now + 300000000) = Ok (now / 1000000 + 300).
Proof.
  intros Hnow. split_and!.
  - apply int_timestamp_exact. lia.
  - unfold datetime_add, timedelta_minutes, JWT_EXPIRY_MINUTES, DATETIME_MIN,
      DATETIME_MAX.
    replace (now + 5 * 60 * 1000000) with (now + 300000000) by lia.
    rewrite (proj2 (Z.leb_le _ _)), (proj2 (Z.leb_le _ _)); [done|lia..].
  - rewrite int_timestamp_exact by lia. f_equal.
    replace (now + 300000000) with (now + 300 * 1000000) by lia.
    by rewrite Z.div_add.
Qed.

(** C3: a credential without exactly one [:], or one whose second half
    [bytes.fromhex] rejects, makes token generation raise GhostAuthError and
    nothing else; the client and the environment stay as they were. *)
Theorem generate_token_rejects_malformed_credential (m : machine) :
  (count ":" (admin_api_key (self m)) ≠ 1%nat ∨
   ∃ key_id secret e,
     split ":" (admin_api_key (self m)) = [key_id; secret] ∧
     fromhex secret = Raise e) →
  ∃ msg, _generate_token m = (Raise (GhostAuthError msg), m).
Proof.
  intros [Hc|(key_id & secret & e & Hs & He)].
  - eexists. by apply generate_token_bad_format.
  - eexists. by apply (generate_token_bad_secret m key_id secret e).
Qed.

(** C4, as the code has it: for a credential [id:secret] with one [:] and
    a secret that [bytes.fromhex] reads, at a time from the epoch until five
    minutes before [2 ^ 34] seconds after it, token generation is
    [jwt.encode] of the claims [iat], [exp] and [aud], where [iat] is the
    whole seconds of the time, [exp - iat = 300] and [aud = "/admin/"],
    under the bytes that the secret writes in hexadecimal, algorithm HS256,
    with the header [{alg: HS256, kid: id, typ: JWT}]: the token that
    [jwt.encode] returns, or the exception that it raises. *)
Theorem generate_token_claims_and_header (m : machine) key_id secret secret_bytes :
  split ":" (admin_api_key (self m)) = [key_id; secret] →
  fromhex secret = Ok secret_bytes →
  0 ≤ utcnow (world (outside m)) < (2 ^ 34 - 300) * 1000000 →
  ∃ (payload headers : gmap string pyjson) (iat exp : Z),
    _generate_token m =
      (jwt_outcome (jwt_encode payload secret_bytes "HS256" headers), m) ∧
    headers = {[ "alg" := JStr "HS256"; "kid" := JStr key_id; "typ" := JStr "JWT" ]} ∧
    payload = {[ "iat" := JInt iat; "exp" := JInt exp; "aud" := JStr "/admin/" ]} ∧
    iat = utcnow (world (outside m)) / 1000000 ∧
    exp - iat = 300 ∧
    hex secret_bytes = hex_digits_of secret ∧
    Forall (λ b, 0 ≤ b < 256) secret_bytes.
Proof.
  intros Hs Hb Hnow.
  destruct (expiry_after_issue _ Hnow) as (Hiat & Hadd & Hexp).
  exists {[ "iat" := JInt (utcnow (world (outside m)) / 1000000);
            "exp" := JInt (utcnow (world (outside m)) / 1000000 + 300);
            "aud" := JStr "/admin/" ]},
         {[ "alg" := JStr "HS256"; "kid" := JStr key_id; "typ" := JStr "JWT" ]},
         (utcnow (world (outside m)) / 1000000),
         (utcnow (world (outside m)) / 1000000 + 300).
  split_and!; try done.
  - rewrite (generate_token_signs m key_id secret secret_bytes Hs Hb). cbv zeta.
    by rewrite Hiat, Hadd; cbn [mbind result_bind]; rewrite Hexp.
  - lia.
  - by apply fromhex_hex.
  - by apply (fromhex_bytes secret).
Qed.

(** C5: a base URL that does not start with [https://] makes the
    constructor raise ValueError; an accepted one is stored without its
    trailing slashes, all of them and nothing else: the URL is the stored
    one followed by slashes only, and the stored one does not end in a
    slash, so that stripping it again changes nothing.  Either way the
    sessions, the world and the record of exchanges are what they were:
    nothing went over the network. *)
Theorem init_requires_https_and_strips (url key : string) (session : option nat)
    (e : env) :
  (__init__ url key session e).2 = e ∧
  match (__init__ url key session e).1 with
  | Raise err =>
      String.prefix "https://" url = false ∧
      err = ValueError "api_url must use HTTPS"
  | Ok c =>
      String.prefix "https://" url = true ∧
      (∃ slashes, url = api_url c +:+ slashes ∧
         Forall (λ a, a = "/"%char) (String.list_ascii_of_string slashes)) ∧
      (∀ t, api_url c ≠ t +:+ "/") ∧
      api_url c = rstrip "/" url ∧
      rstrip "/" (api_url c) = api_url c ∧
      endswith "/" (api_url c) = false ∧
      admin_api_key c = key ∧
      _session c = session ∧
      _owns_session c = bool_decide (session = None)
  end.
Proof.
  unfold __init__. destruct (String.prefix "https://" url) eqn:Hp; simpl.
  - destruct (rstrip_spec "/" url) as [Htail Hend].
    split; [done|]. split; [done|]. split; [done|]. split; [done|].
    split; [done|]. split; [apply rstrip_idemp|]. split; [apply endswith_rstrip|].
    by destruct session.
  - done.
Qed.

End Token.

Lemma generate_token_rejects_malformed_credential_witness :
  (∃ msg, _generate_token (scripted_machine 0 "invalid-key-no-colon" []) =
     (Raise (GhostAuthError msg), scripted_machine 0 "invalid-key-no-colon" [])) ∧
  (∃ msg, _generate_token (scripted_machine 0 "validid:not-hex-string" []) =
     (Raise (GhostAuthError msg), scripted_machine 0 "validid:not-hex-string" [])).
Proof.
  split.
  - apply (generate_token_rejects_malformed_credential
             (scripted_machine 0 "invalid-key-no-colon" [])).
    left. vm_compute. lia.
  - apply (generate_token_rejects_malformed_credential
             (scripted_machine 0 "validid:not-hex-string" [])).
    right. exists "validid"%string, "not-hex-string"%string, (ValueError "").
    split; reflexivity.
Defined.

(** A moment in 2023, with a secret in mixed case. *)
Lemma generate_token_claims_and_header_witness :
  ∃ (payload headers : gmap string pyjson) (iat exp : Z),
    _generate_token (scripted_machine 1700000000999999 "ab12:0aFF" []) =
      (jwt_outcome (scripted_jwt payload [10; 255] "HS256" headers),
       scripted_machine 1700000000999999 "ab12:0aFF" []) ∧
    headers = {[ "alg" := JStr "HS256"; "kid" := JStr "ab12"; "typ" := JStr "JWT" ]} ∧
    payload = {[ "iat" := JInt iat; "exp" := JInt exp; "aud" := JStr "/admin/" ]} ∧
    iat = 1700000000999999 / 1000000 ∧
    exp - iat = 300 ∧
    hex [10; 255] = hex_digits_of "0aFF" ∧
    Forall (λ b, 0 ≤ b < 256) [10; 255].
Proof.
  apply (generate_token_claims_and_header
           (scripted_machine 1700000000999999 "ab12:0aFF" [])
           "ab12" "0aFF" [10; 255]).
  - reflexivity.
  - reflexivity.
  - simpl. lia.
Defined.

(** The token of that moment, as the scripted [jwt.encode] shows it. *)
Example generate_token_at_a_moment :
  (_generate_token (scripted_machine 1700000000999999 "ab12:0aFF" [])).1 =
  Ok "<jwt kid=ab12 iat=1700000000 exp=1700000300 aud=/admin/ alg=HS256 key=0aff>"%string.
Proof. vm_compute. reflexivity. Qed.

(** Outside the range of the theorem the two timestamps are rounded apart:
    one microsecond before the epoch [int()] truncates them towards zero
    from the two sides, and on 30 May 2514 the later one is the first to be
    rounded up to the next second.  And a credential with an empty secret is
    well formed, but [jwt.encode] refuses the empty key. *)
Lemma generate_token_expiry_counterexample :
  (_generate_token (scripted_machine (-1) "ab12:0aFF" [])).1 =
    Ok "<jwt kid=ab12 iat=0 exp=299 aud=/admin/ alg=HS256 key=0aff>"%string ∧
  (_generate_token (scripted_machine 17179868884999999 "ab12:0aFF" [])).1 =
    Ok "<jwt kid=ab12 iat=17179868884 exp=17179869185 aud=/admin/ alg=HS256 key=0aff>"%string ∧
  17179869185 - 17179868884 = 301 ∧
  split ":" "abc:" = ["abc"; ""]%string ∧ fromhex "" = Ok [] ∧
  (_generate_token (scripted_machine 0 "abc:" [])).1 =
    Raise (OtherException "InvalidKeyError").
Proof. vm_compute. done. Qed.

(* ===================================================================== *)
(** * Session lifecycle                                                  *)
(* ===================================================================== *)

Section Sessions.
Context `{Platform}.

(** The state after [await session.close()] on [sid]. *)
Lemma ClientSession_close_closed (sid : nat) (m : machine) :
  session_closed (sessions (outside (ClientSession_close sid m).2)) sid = true.
Proof. unfold session_closed. simpl. by rewrite lookup_insert_eq. Qed.

Lemma ClientSession_close_other (sid sid' : nat) (m : machine) :
  sid ≠ sid' →
  sessions (outside (ClientSession_close sid m).2) !! sid' =
    sessions (outside m) !! sid'.
Proof. intros Hne. simpl. by rewrite lookup_insert_ne. Qed.

Lemma close_owned_open (m : machine) (sid : nat) :
  _owns_session (self m) = true →
  _session (self m) = Some sid →
  session_closed (sessions (outside m)) sid = false →
  close m = ClientSession_close sid m.
Proof.
  intros Ho Hs Hc. unfold close, ClientSession_closed. unfold_monad.
  rewrite Ho, Hs. simpl. by rewrite Hc.
Qed.

Lemma close_noop (m : machine) :
  (_owns_session (self m) = false ∨ _session (self m) = None ∨
   ∃ sid, _session (self m) = Some sid ∧
          session_closed (sessions (outside m)) sid = true) →
  close m = (Ok (), m).
Proof.
  unfold close, ClientSession_closed. unfold_monad.
  intros [Ho|[Hs|(sid & Hs & Hc)]].
  - by rewrite Ho.
  - rewrite Hs. by destruct (_owns_session (self m)).
  - rewrite Hs. destruct (_owns_session (self m)); [|done].
    simpl. by rewrite Hc.
Qed.

Lemma close_cases (m : machine) :
  (∃ sid, _owns_session (self m) = true ∧ _session (self m) = Some sid ∧
          session_closed (sessions (outside m)) sid = false ∧
          close m = ClientSession_close sid m) ∨
  ((_owns_session (self m) = false ∨ _session (self m) = None ∨
    ∃ sid, _session (self m) = Some sid ∧
           session_closed (sessions (outside m)) sid = true) ∧
   close m = (Ok (), m)).
Proof.
  destruct (_owns_session (self m)) eqn:Ho; [|right; split; [|apply close_noop]; auto].
  destruct (_session (self m)) as [sid|] eqn:Hs;
    [|right; split; [|apply close_noop]; auto].
  destruct (session_closed (sessions (outside m)) sid) eqn:Hc.
  - right. split; [|apply close_noop]; eauto 6.
  - left. exists sid. split_and!; try done. by apply close_owned_open.
Qed.

Lemma close_returns (m : machine) : (close m).1 = Ok ().
Proof.
  destruct (close_cases m) as [(sid & _ & _ & _ & ->)|[_ ->]]; done.
Qed.

(** [_get_session] hands out an open session and never raises; it makes no
    exchange, and keeps the session at hand when that one is open. *)
Lemma get_session_spec (m : machine) :
  ∃ sid m1,
    _get_session m = (Ok sid, m1) ∧
    _session (self m1) = Some sid ∧
    session_closed (sessions (outside m1)) sid = false ∧
    api_url (self m1) = api_url (self m) ∧
    admin_api_key (self m1) = admin_api_key (self m) ∧
    world (outside m1) = world (outside m) ∧
    wire (outside m1) = wire (outside m) ∧
    ((_session (self m) = Some sid ∧ m1 = m) ∨
     ((sid ∉ dom (sessions (outside m))) ∧ _owns_session (self m1) = true ∧
      sessions (outside m1) = <[sid := {| closed := false |}]> (sessions (outside m)))).
Proof.
  unfold _get_session, ClientSession_closed, ClientSession_new. unfold_monad.
  destruct (_session (self m)) as [sid|] eqn:Hs.
  - destruct (session_closed (sessions (outside m)) sid) eqn:Hc.
    + eexists _, _. split; [done|]. simpl.
      split_and!; try done.
      { unfold session_closed. by rewrite lookup_insert_eq. }
      right. split_and!; try done. apply is_fresh.
    + exists sid, m. split_and!; try done. by left.
  - eexists _, _. split; [done|]. simpl.
    split_and!; try done.
    { unfold session_closed. by rewrite lookup_insert_eq. }
    right. split_and!; try done. apply is_fresh.
Qed.

Lemma get_session_keeps_lent (sid : nat) (m : machine) :
  lent sid m →
  lent sid (_get_session m).2 ∧
  sessions (outside (_get_session m).2) !! sid = sessions (outside m) !! sid.
Proof.
  intros [Hin Hown].
  destruct (get_session_spec m) as
    (s & m1 & -> & Hs1 & _ & _ & _ & _ & _ & [[Hs ->]|(Hfresh & Ho & Hss)]);
    simpl; [done|].
  assert (s ≠ sid) as Hne by (intros ->; done).
  split; [split|].
  - rewrite Hss, dom_insert_L. set_solver.
  - intros _. rewrite Hs1. congruence.
  - rewrite Hss. by rewrite lookup_insert_ne.
Qed.

Lemma close_keeps_lent (sid : nat) (m : machine) :
  lent sid m →
  sessions (outside (close m).2) !! sid = sessions (outside m) !! sid.
Proof.
  intros [Hin Hown].
  destruct (close_cases m) as [(s & Ho & Hs & _ & ->)|[_ ->]]; [|done].
  apply ClientSession_close_other. intros ->. by apply Hown.
Qed.

(** C6: [close] never raises and touches nothing but the sessions.  When
    the client owns a session that exists and is open, that session is
    closed and the others are as before; in every other case nothing
    changes at all, so a client built on a session of the caller leaves
    that session as it is; more generally [close] leaves alone every
    session in the state [lent], which the constructor sets up for the
    caller's session.  Entering the [async with] scope returns the
    client and changes nothing; [__aexit__] is [close] whatever it is
    passed; and the scope ends in [close] on the state its body left,
    whether the body returned or raised, with the body's own outcome. *)
Theorem close_and_scope (m : machine) :
  (∃ m', close m = (Ok (), m') ∧ self m' = self m ∧
         world (outside m') = world (outside m) ∧
         wire (outside m') = wire (outside m) ∧
         (∀ sid, _owns_session (self m) = true →
                 _session (self m) = Some sid →
                 session_closed (sessions (outside m)) sid = false →
                 session_closed (sessions (outside m')) sid = true ∧
                 ∀ sid', sid' ≠ sid →
                   sessions (outside m') !! sid' = sessions (outside m) !! sid') ∧
         ((_owns_session (self m) = false ∨ _session (self m) = None ∨
           ∃ sid, _session (self m) = Some sid ∧
                  session_closed (sessions (outside m)) sid = true) → m' = m)) ∧
  (∀ url key sid c e,
     __init__ url key (Some sid) e = (Ok c, e) →
     close {| self := c; outside := e |} = (Ok (), {| self := c; outside := e |}) ∧
     (sid ∈ dom (sessions e) → lent sid {| self := c; outside := e |})) ∧
  (∀ sid, lent sid m →
     sessions (outside (close m).2) !! sid = sessions (outside m) !! sid) ∧
  __aenter__ m = (Ok (self m), m) ∧
  (∀ args, __aexit__ args m = close m) ∧
  (∀ (A : Type) (body : GhostAdminAPI → M A),
     async_with body m = ((body (self m) m).1, (close (body (self m) m).2).2)).
Proof.
  split_and!.
  - destruct (close_cases m) as [(s & Ho & Hs & Hc & Heq)|[Hno Heq]].
    + eexists. split; [exact Heq|]. simpl. split_and!; try done.
      * intros sid _ Hs' _. assert (sid = s) as -> by congruence.
        split; [apply (ClientSession_close_closed s m)|].
        intros sid' Hne. by rewrite lookup_insert_ne.
      * intros [Ho'|[Hs'|(sid & Hs' & Hc')]]; congruence.
    + exists m. split_and!; try done. intros sid Ho Hs Hc.
      destruct Hno as [?|[?|(sid' & ? & ?)]]; congruence.
  - intros url key sid c e. unfold __init__.
    destruct (negb _); [done|]. intros [= <-]. split.
    + by apply close_noop; left.
    + intros Hin. split; [done|]. simpl. done.
  - intros sid. apply close_keeps_lent.
  - done.
  - done.
  - intros A body. unfold async_with, __aenter__, __aexit__, get_self.
    destruct (body (self m) m) as [[a|e] m2]; simpl;
      pose proof (close_returns m2) as Hr;
      destruct (close m2) as [[[]|e'] m3]; simpl in *; done.
Qed.

End Sessions.

(* ===================================================================== *)
(** * Request execution                                                  *)
(* ===================================================================== *)

Section Request.
Context `{Platform}.

Lemma ClientSession_request_run (req : http_request) (m : machine) :
  ClientSession_request req m =
    ((session_request req (world (outside m))).1,
     exchanged m req (session_request req (world (outside m))).1
       (session_request req (world (outside m))).2).
Proof.
  unfold ClientSession_request, exchanged.
  by destruct (session_request req (world (outside m))).
Qed.

Lemma request_unfold (m m1 : machine) (sid : nat)
    (method endpoint : string) (params json : pyjson) :
  _get_session m = (Ok sid, m1) →
  _request method endpoint params json m =
    match _generate_token m1 with
    | (Ok token, m2) =>
        let req := request_sent (self m1) sid token method endpoint params json in
        (except_ClientError
           ((ClientSession_request req m2).1 ≫= classify_response endpoint),
         (ClientSession_request req m2).2)
    | (Raise e, m2) => (Raise e, m2)
    end.
Proof.
  intros Hgs. unfold _request, _get_auth_headers. unfold_monad.
  rewrite Hgs. cbv beta iota zeta.
  destruct (_generate_token m1) as [[token|e] m2]; [|done].
  cbv beta iota zeta. unfold request_sent.
  destruct (ClientSession_request _ m2) as [[response|err] m3];
    cbv beta iota zeta; unfold fst, snd, except_ClientError.
  - unfold classify_response, mbind, result_bind.
    repeat case_match; simplify_eq/=; try done; congruence.
  - by destruct (isinstance_ClientError err).
Qed.

(** [_request] step by step: a session is at hand afterwards; when token
    generation raises, its exception ends the call before anything is sent;
    otherwise one request goes out and its outcome decides the result. *)
Lemma request_run (m : machine) (method endpoint : string) (params json : pyjson) :
  ∃ sid m1,
    _get_session m = (Ok sid, m1) ∧
    wire (outside m1) = wire (outside m) ∧
    world (outside m1) = world (outside m) ∧
    api_url (self m1) = api_url (self m) ∧
    admin_api_key (self m1) = admin_api_key (self m) ∧
    ((∃ e, _generate_token m1 = (Raise e, m1) ∧
           _request method endpoint params json m = (Raise e, m1)) ∨
     (∃ token out w,
        let req := request_sent (self m1) sid token method endpoint params json in
        _generate_token m1 = (Ok token, m1) ∧
        session_request req (world (outside m1)) = (out, w) ∧
        _request method endpoint params json m =
          (except_ClientError (out ≫= classify_response endpoint),
           exchanged m1 req out w))).
Proof.
  destruct (get_session_spec m) as (sid & m1 & Hgs & _ & _ & Hu & Hk & Hw & Hx & _).
  exists sid, m1. split_and!; try done.
  rewrite (request_unfold m m1 sid) by done.
  destruct (generate_token_cases m1) as [[token Htok]|[msg Htok]]; rewrite Htok.
  - right.
    destruct (session_request
      (request_sent (self m1) sid token method endpoint params json)
      (world (outside m1))) as [out w] eqn:Hreq.
    exists token, out, w. split; [done|]. split; [done|].
    cbv zeta. rewrite ClientSession_request_run, Hreq. done.
  - left. by exists msg.
Qed.

(** [_request] keeps a lent session lent, and as it was. *)
Lemma request_keeps_lent (sid : nat) (m : machine) (method endpoint : string)
    (params json : pyjson) :
  lent sid m →
  lent sid (_request method endpoint params json m).2 ∧
  sessions (outside (_request method endpoint params json m).2) !! sid =
    sessions (outside m) !! sid.
Proof.
  intros Hlent. destruct (get_session_keeps_lent sid m Hlent) as [Hl1 Hs1].
  destruct (request_run m method endpoint params json)
    as (s & m1 & Hgs & _ & _ & _ & _ & [(msg & _ & ->)|(tok & out & w & _ & _ & ->)]);
    rewrite Hgs in Hl1, Hs1; simpl in *; done.
Qed.

(** What a call of [_request] that made an exchange returns. *)
Lemma request_exchange (m m' : machine) (method endpoint : string)
    (params json : pyjson) (r : result pyjson) (x : exchange) :
  _request method endpoint params json m = (r, m') →
  wire (outside m') = wire (outside m) ++ [x] →
  r = except_ClientError (outcome x ≫= classify_response endpoint).
Proof.
  intros Hrun Hwire.
  destruct (request_run m method endpoint params json)
    as (sid & m1 & _ & Hw & _ & _ & _ & [(msg & _ & Heq)|(tok & out & w & _ & _ & Heq)]);
    rewrite Heq in Hrun; simplify_eq/=.
  - rewrite Hw in Hwire. apply (f_equal length) in Hwire.
    rewrite length_app in Hwire. simpl in Hwire. lia.
  - rewrite Hw in Hwire. by apply app_inv_head in Hwire as [= <-].
Qed.


(** C1, as the code has it: when [_request] has received a response, the
    status decides in this order: 401 raises GhostAuthError; 404 raises
    GhostNotFoundError naming the endpoint; 422 raises, and raises
    GhostValidationError when the body decodes to an object whose [errors]
    is absent or a list that starts with an object; any other status from
    400 on raises GhostError with the status and the body text; a status
    below 400 returns the decoded body.  Where the body has to be read and
    reading it raises, that exception comes out instead.  When the exchange
    itself raised, an [aiohttp.ClientError] becomes GhostConnectionError
    with the text of the cause, and any other exception goes on as it is;
    the same is done to an exception of reading the body. *)
Theorem request_status_classification (m m' : machine)
    (method endpoint : string) (params json : pyjson)
    (r : result pyjson) (x : exchange) :
  _request method endpoint params json m = (r, m') →
  wire (outside m') = wire (outside m) ++ [x] →
  match outcome x with
  | Ok response =>
      (status response = 401 →
       r = Raise (GhostAuthError "Authentication failed. Check your API key.")) ∧
      (status response = 404 →
       r = Raise (GhostNotFoundError ("Resource not found: " +:+ endpoint))) ∧
      (status response = 422 →
       (∃ e, r = Raise e) ∧
       ∀ d first rest,
         resp_json response = Ok (JDict d) →
         default (JList [JDict ∅]) (d !! "errors") = JList (JDict first :: rest) →
         r = Raise (GhostValidationError
                      (default (JStr "Validation failed") (first !! "message")))) ∧
      (400 ≤ status response →
       status response ≠ 401 → status response ≠ 404 → status response ≠ 422 →
       ∀ text, resp_text response = Ok text →
         r = Raise (GhostError
                      ("API error " +:+ pretty (status response) +:+ ": " +:+ text))) ∧
      (status response < 400 →
       ∀ body, resp_json response = Ok body → r = Ok body) ∧
      (status response = 422 ∨ status response < 400 →
       ∀ e, resp_json response = Raise e → r = except_ClientError (Raise e)) ∧
      (400 ≤ status response →
       status response ≠ 401 → status response ≠ 404 → status response ≠ 422 →
       ∀ e, resp_text response = Raise e → r = except_ClientError (Raise e))
  | Raise err =>
      (∀ cause, err = ClientError cause →
         r = Raise (GhostConnectionError ("Connection failed: " +:+ cause))) ∧
      (isinstance_ClientError err = false → r = Raise err)
  end.
Proof.
  intros Hrun Hwire. rewrite (request_exchange _ _ _ _ _ _ _ _ Hrun Hwire).
  destruct (outcome x) as [response|err].
  2: { split; [by intros cause ->|]. intros Hce. simpl. by rewrite Hce. }
  unfold mbind, result_bind, classify_response. split_and!.
  - intros ->. done.
  - intros ->. done.
  - intros ->. change (422 =? 401) with false. change (422 =? 404) with false.
    change (422 =? 422) with true. cbv iota. split.
    + unfold mbind, result_bind, except_ClientError.
      repeat case_match; simplify_eq/=; eauto.
    + intros d first rest -> Herr. unfold mbind, result_bind.
      rewrite py_get_dict, Herr. done.
  - intros Hge H1 H2 H3 text Ht.
    rewrite !(proj2 (Z.eqb_neq _ _)) by done.
    rewrite (proj2 (Z.geb_le _ _)) by done.
    unfold mbind, result_bind. by rewrite Ht.
  - intros Hlt body Hb.
    rewrite !(proj2 (Z.eqb_neq _ _)) by lia.
    destruct (status response >=? 400) eqn:Hge; [apply Z.geb_le in Hge; lia|].
    by rewrite Hb.
  - intros [->|Hlt] e He.
    + change (422 =? 401) with false. change (422 =? 404) with false.
      change (422 =? 422) with true. cbv iota.
      unfold mbind, result_bind. by rewrite He.
    + rewrite !(proj2 (Z.eqb_neq _ _)) by lia.
      destruct (status response >=? 400) eqn:Hge; [apply Z.geb_le in Hge; lia|].
      by rewrite He.
  - intros Hge H1 H2 H3 e He.
    rewrite !(proj2 (Z.eqb_neq _ _)) by done.
    rewrite (proj2 (Z.geb_le _ _)) by done.
    unfold mbind, result_bind. by rewrite He.
Qed.

(** C2, as the code has it: on status 422 with a body that decodes to an
    object, GhostValidationError carries [errors[0].message] when [errors]
    is a list that starts with an object, with the default "Validation
    failed" when that object has no [message] or when the body has no
    [errors]; a body that cannot be decoded makes the decoding error come
    out instead, as GhostConnectionError when it is an
    [aiohttp.ClientError]. *)
Theorem request_422_message (m m' : machine)
    (method endpoint : string) (params json : pyjson)
    (r : result pyjson) (x : exchange) (response : response) :
  _request method endpoint params json m = (r, m') →
  wire (outside m') = wire (outside m) ++ [x] →
  outcome x = Ok response →
  status response = 422 →
  (∀ d, resp_json response = Ok (JDict d) → d !! "errors" = None →
     r = Raise (GhostValidationError (JStr "Validation failed"))) ∧
  (∀ d first rest,
     resp_json response = Ok (JDict d) →
     d !! "errors" = Some (JList (JDict first :: rest)) →
     r = Raise (GhostValidationError
                  (default (JStr "Validation failed") (first !! "message")))) ∧
  (∀ e, resp_json response = Raise e →
     r = if isinstance_ClientError e
         then Raise (GhostConnectionError ("Connection failed: " +:+ py_str_exn e))
         else Raise e).
Proof.
  intros Hrun Hwire Hout Hst.
  rewrite (request_exchange _ _ _ _ _ _ _ _ Hrun Hwire), Hout.
  change (Ok response ≫= classify_response endpoint)
    with (classify_response endpoint response).
  unfold classify_response. rewrite Hst.
  change (422 =? 401) with false. change (422 =? 404) with false.
  change (422 =? 422) with true. cbv iota. unfold mbind, result_bind.
  split_and!.
  - intros d -> Hnone. rewrite py_get_dict, Hnone. done.
  - intros d first rest -> Hsome. rewrite py_get_dict, Hsome. done.
  - intros e ->. done.
Qed.

(** ** Methods that post-process the decoded body *)

Lemma py_get_not_found o key dflt e :
  py_get o key dflt = Raise e → isinstance_GhostNotFoundError e = false.
Proof. destruct o; simpl; by intros [= <-]. Qed.

Lemma py_getitem_not_found o i e :
  py_getitem o i = Raise e → isinstance_GhostNotFoundError e = false.
Proof.
  destruct o; simpl; try by intros [= <-].
  all: repeat case_match; by intros [= <-].
Qed.

Lemma first_post_not_found data e :
  first_post data = Raise e → isinstance_GhostNotFoundError e = false.
Proof.
  unfold first_post, mbind, result_bind.
  destruct (py_get data "posts" (JList [])) as [posts|e'] eqn:Hg.
  - destruct (py_truthy posts); [apply py_getitem_not_found|done].
  - intros [= <-]. by eapply py_get_not_found.
Qed.

(** A [try] block that is one request and then [first_post], under
    [except GhostNotFoundError: return None]. *)
Lemma try_first_post_run (c : M pyjson) (m : machine) :
  try_except
    (data ← c;
     posts ← lift (py_get data "posts" (JList []));
     if py_truthy posts then lift (py_getitem posts 0) else mret JNull)
    isinstance_GhostNotFoundError (λ _, mret JNull) m =
  (match (c m).1 with
   | Ok data => first_post data
   | Raise e => if isinstance_GhostNotFoundError e then Ok JNull else Raise e
   end, (c m).2).
Proof.
  unfold_monad. destruct (c m) as [[data|e] m']; simpl.
  - pose proof (first_post_not_found data) as Hnf.
    unfold first_post, mbind, result_bind in *.
    destruct (py_get data "posts" (JList [])) as [posts|e']; simpl.
    + destruct (py_truthy posts); [|done].
      destruct (py_getitem posts 0) as [v|e'']; [done|].
      by rewrite (Hnf e'').
    + by rewrite (Hnf e').
  - by destruct (isinstance_GhostNotFoundError e).
Qed.

Lemma get_post_run (post_id : string) (m : machine) :
  let run := _get ("/ghost/api/admin/posts/" +:+ post_id +:+ "/") JNull m in
  get_post post_id m =
    (match run.1 with
     | Ok data => first_post data
     | Raise e => if isinstance_GhostNotFoundError e then Ok JNull else Raise e
     end, run.2).
Proof. apply try_first_post_run. Qed.

Lemma delete_post_run (post_id : string) (m : machine) :
  let run := _delete ("/ghost/api/admin/posts/" +:+ post_id +:+ "/") m in
  delete_post post_id m =
    (match run.1 with
     | Ok _ => Ok true
     | Raise e => if isinstance_GhostNotFoundError e then Ok false else Raise e
     end, run.2).
Proof.
  unfold delete_post. unfold_monad. cbv zeta.
  destruct (_delete _ m) as [[data|e] m']; simpl; [done|].
  by destruct (isinstance_GhostNotFoundError e).
Qed.

Lemma update_post_run (post_id : string)
    (title content status slug excerpt feature_image : option string)
    (tags : option (list string)) (published_at : option string) (m : machine) :
  ∃ post_data : gmap string pyjson,
    let run := _put ("/ghost/api/admin/posts/" +:+ post_id +:+ "/")
                 (JDict {[ "posts" := JList [JDict post_data] ]}) m in
    update_post post_id title content status slug excerpt feature_image tags
      published_at m =
      (match run.1 with
       | Ok data => first_post data
       | Raise e => if isinstance_GhostNotFoundError e then Ok JNull else Raise e
       end, run.2).
Proof. eexists. apply try_first_post_run. Qed.

(** A received 404 makes [_request] raise GhostNotFoundError. *)
Lemma request_404 (m m' : machine) (method endpoint : string)
    (params json : pyjson) (r : result pyjson) (x : exchange) (response : response) :
  _request method endpoint params json m = (r, m') →
  wire (outside m') = wire (outside m) ++ [x] →
  outcome x = Ok response →
  status response = 404 →
  r = Raise (GhostNotFoundError ("Resource not found: " +:+ endpoint)).
Proof.
  intros Hrun Hwire Hout Hst.
  rewrite (request_exchange _ _ _ _ _ _ _ _ Hrun Hwire), Hout.
  change (Ok response ≫= classify_response endpoint)
    with (classify_response endpoint response).
  unfold classify_response. by rewrite Hst.
Qed.

(** C7: after a received 404, [get_post] returns [None], [update_post]
    returns [None] and [delete_post] returns [False]; [delete_post] returns
    [True] when the request succeeds.  Any other exception of the request
    comes out of the three methods as it is, with the state the request
    left, and GhostNotFoundError never comes out of them. *)
Theorem post_methods_downgrade_not_found (m : machine) (post_id : string)
    (title content new_status slug excerpt feature_image : option string)
    (tags : option (list string)) (published_at : option string) :
  let path := "/ghost/api/admin/posts/" +:+ post_id +:+ "/" in
  let update := update_post post_id title content new_status slug excerpt
                  feature_image tags published_at in
  (∀ r m' x response,
     get_post post_id m = (r, m') →
     wire (outside m') = wire (outside m) ++ [x] →
     outcome x = Ok response → status response = 404 → r = Ok JNull) ∧
  (∀ r m' x response,
     update m = (r, m') →
     wire (outside m') = wire (outside m) ++ [x] →
     outcome x = Ok response → status response = 404 → r = Ok JNull) ∧
  (∀ r m' x response,
     delete_post post_id m = (r, m') →
     wire (outside m') = wire (outside m) ++ [x] →
     outcome x = Ok response → status response = 404 → r = Ok false) ∧
  (∀ data m', _delete path m = (Ok data, m') →
     delete_post post_id m = (Ok true, m')) ∧
  (∀ e m', _get path JNull m = (Raise e, m') →
     isinstance_GhostNotFoundError e = false →
     get_post post_id m = (Raise e, m')) ∧
  (∃ post_data : gmap string pyjson,
     ∀ e m', _put path (JDict {[ "posts" := JList [JDict post_data] ]}) m = (Raise e, m') →
       isinstance_GhostNotFoundError e = false →
       update m = (Raise e, m')) ∧
  (∀ e m', _delete path m = (Raise e, m') →
     isinstance_GhostNotFoundError e = false →
     delete_post post_id m = (Raise e, m')) ∧
  (∀ e m', get_post post_id m = (Raise e, m') →
     isinstance_GhostNotFoundError e = false) ∧
  (∀ e m', update m = (Raise e, m') →
     isinstance_GhostNotFoundError e = false) ∧
  (∀ e m', delete_post post_id m = (Raise e, m') →
     isinstance_GhostNotFoundError e = false).
Proof.
  intros path update.
  pose proof (get_post_run post_id m) as Hget.
  pose proof (delete_post_run post_id m) as Hdel.
  destruct (update_post_run post_id title content new_status slug excerpt
              feature_image tags published_at m) as [post_data Hupd].
  fold path in Hget, Hdel, Hupd. fold update in Hupd. cbv zeta in *.
  unfold _get, _put, _delete in *.
  split_and!.
  - intros r m' x response Hrun Hwire Hout Hst.
    rewrite Hget in Hrun. injection Hrun as <- <-.
    by rewrite (request_404 _ _ _ _ _ _ _ _ _ (surjective_pairing _) Hwire Hout Hst).
  - intros r m' x response Hrun Hwire Hout Hst.
    rewrite Hupd in Hrun. injection Hrun as <- <-.
    by rewrite (request_404 _ _ _ _ _ _ _ _ _ (surjective_pairing _) Hwire Hout Hst).
  - intros r m' x response Hrun Hwire Hout Hst.
    rewrite Hdel in Hrun. injection Hrun as <- <-.
    by rewrite (request_404 _ _ _ _ _ _ _ _ _ (surjective_pairing _) Hwire Hout Hst).
  - intros data m' Hrun. by rewrite Hdel, Hrun.
  - intros e m' Hrun Hnf. rewrite Hget, Hrun. simpl. by rewrite Hnf.
  - exists post_data. intros e m' Hrun Hnf. rewrite Hupd, Hrun. simpl.
    by rewrite Hnf.
  - intros e m' Hrun Hnf. rewrite Hdel, Hrun. simpl. by rewrite Hnf.
  - intros e m' Hrun. rewrite Hget in Hrun. injection Hrun as Hr _.
    destruct (_request "GET" path JNull JNull m).1 as [data|e0];
      [by eapply first_post_not_found|].
    destruct (isinstance_GhostNotFoundError e0) eqn:Hnf; congruence.
  - intros e m' Hrun. rewrite Hupd in Hrun. injection Hrun as Hr _.
    destruct (_request "PUT" path JNull _ m).1 as [data|e0];
      [by eapply first_post_not_found|].
    destruct (isinstance_GhostNotFoundError e0) eqn:Hnf; congruence.
  - intros e m' Hrun. rewrite Hdel in Hrun. injection Hrun as Hr _.
    destruct (_request "DELETE" path JNull JNull m).1 as [data|e0]; [done|].
    destruct (isinstance_GhostNotFoundError e0) eqn:Hnf; congruence.
Qed.

(** ** Webhooks *)

Lemma create_webhook_run (event target_url : string) (m : machine) :
  ∃ json : pyjson,
    let run := _post "/ghost/api/admin/webhooks/" json m in
    create_webhook event target_url m =
      (data ← run.1;
       webhooks ← py_get data "webhooks" (JList [JDict ∅]);
       py_getitem webhooks 0,
       run.2).
Proof.
  exists (JDict {[ "webhooks" :=
            JList [JDict {[ "event" := JStr event;
                            "target_url" := JStr target_url ]}] ]}).
  unfold create_webhook. unfold_monad. cbv zeta.
  destruct (_post _ _ m) as [[data|e] m']; cbv beta iota; unfold fst, snd;
    [|done].
  destruct (py_get data "webhooks" (JList [JDict ∅])); [|done].
  by destruct (py_getitem _ 0).
Qed.

(** C10: when the response to [create_webhook] has a status below 400 and
    a body that maps ["webhooks"] to the empty list, [create_webhook] raises
    IndexError, which is none of the client's own exceptions; when the body
    has no ["webhooks"] at all, the call returns the empty dict. *)
Theorem create_webhook_empty_list_raises_IndexError (m m' : machine)
    (event target_url : string) (r : result pyjson) (x : exchange)
    (response : response) (d : gmap string pyjson) :
  create_webhook event target_url m = (r, m') →
  wire (outside m') = wire (outside m) ++ [x] →
  outcome x = Ok response →
  status response < 400 →
  resp_json response = Ok (JDict d) →
  (d !! "webhooks" = Some (JList []) → r = Raise IndexError) ∧
  (d !! "webhooks" = None → r = Ok (JDict ∅)) ∧
  is_ghost_error IndexError = false.
Proof.
  intros Hrun Hwire Hout Hst Hbody.
  destruct (create_webhook_run event target_url m) as [json Hcw].
  cbv zeta in Hcw. rewrite Hcw in Hrun. injection Hrun as <- <-.
  unfold _post in *.
  rewrite (request_exchange _ _ _ _ _ _ _ _ (surjective_pairing _) Hwire), Hout.
  change (Ok response ≫= classify_response "/ghost/api/admin/webhooks/")
    with (classify_response "/ghost/api/admin/webhooks/" response).
  unfold classify_response.
  rewrite !(proj2 (Z.eqb_neq _ _)) by lia.
  destruct (status response >=? 400) eqn:Hge; [apply Z.geb_le in Hge; lia|].
  rewrite Hbody. unfold except_ClientError, mbind, result_bind.
  rewrite py_get_dict. split_and!; [| |done].
  - by intros ->.
  - by intros ->.
Qed.

End Request.


(* ===================================================================== *)
(** * Monthly recurring revenue                                          *)
(* ===================================================================== *)

Lemma py_getitem_last (vs : list pyjson) (v : pyjson) :
  last vs = Some v → py_getitem (JList vs) (-1) = Ok v.
Proof.
  intros Hlast. unfold py_getitem, py_index.
  assert (length vs ≠ 0%nat) as Hlen by (destruct vs; simpl in *; done).
  change (-1 <? 0) with true. cbv iota.
  rewrite (proj2 (Z.leb_le 0 (-1 + Z.of_nat (length vs)))) by lia.
  rewrite (proj2 (Z.ltb_lt (-1 + Z.of_nat (length vs)) (Z.of_nat (length vs)))) by lia.
  simpl andb. cbv iota.
  replace (Z.to_nat (-1 + Z.of_nat (length vs))) with (pred (length vs)) by lia.
  by rewrite <- last_lookup, Hlast.
Qed.

Lemma get_mrr_step_entry (res : gmap pykey pyjson) (item : pyjson)
    (entry : pykey * list pyjson) :
  is_mrr_entry item entry →
  get_mrr_step res item =
    Ok match last entry.2 with
       | Some (JDict latest) =>
           <[entry.1 := default (JInt 0) (latest !! "value")]> res
       | _ => res
       end.
Proof.
  destruct entry as [k vs]. intros (e & -> & Hk & Hvs & Hwf). simpl in *.
  unfold get_mrr_step, mbind, result_bind. rewrite !py_get_dict, Hvs.
  destruct Hwf as [->|[latest Hlast]]; [done|].
  assert (py_truthy (JList vs) = true) as -> by (destruct vs; done).
  rewrite (py_getitem_last _ _ Hlast), Hlast, py_get_dict, Hk. done.
Qed.

(** The loop of [get_mrr] over well-formed items, from any dict [res0]:
    it ends normally; a currency then maps to the [value] of the last
    element of its series, the series of its last item that has elements;
    a currency whose items all have empty series is as in [res0]. *)
Lemma for_each_get_mrr_step (items : list pyjson)
    (entries : list (pykey * list pyjson)) (res0 : gmap pykey pyjson) :
  Forall2 is_mrr_entry items entries →
  ∃ res,
    for_each items get_mrr_step res0 = Ok res ∧
    (∀ i k vs latest,
       entries !! i = Some (k, vs) →
       last vs = Some (JDict latest) →
       (∀ j vs', (i < j)%nat → entries !! j = Some (k, vs') → vs' = []) →
       res !! k = Some (default (JInt 0) (latest !! "value"))) ∧
    (∀ k, (∀ i vs, entries !! i = Some (k, vs) → vs = []) →
          res !! k = res0 !! k).
Proof.
  intros Hall. revert res0.
  induction Hall as [|item [k0 vs0] items entries Hentry Hall IH]; intros res0.
  - exists res0. split_and!; [done| |done]. intros i k vs latest Hi. done.
  - simpl. rewrite (get_mrr_step_entry res0 item (k0, vs0) Hentry). simpl.
    set (res1 := match last vs0 with
                 | Some (JDict latest) =>
                     <[k0 := default (JInt 0) (latest !! "value")]> res0
                 | _ => res0
                 end).
    destruct (IH res1) as (res & Hrun & Hlast & Hnone).
    exists res. split_and!; [done| |].
    + intros [|i] k vs latest Hi Hl Hlater; simpl in Hi.
      * injection Hi as -> ->.
        rewrite Hnone.
        { unfold res1. rewrite Hl. by rewrite lookup_insert_eq. }
        intros j vs' Hj. apply (Hlater (S j) vs'); [lia|done].
      * apply (Hlast i k vs latest Hi Hl).
        intros j vs' Hlt Hj. apply (Hlater (S j) vs'); [lia|done].
    + intros k Hempty. rewrite Hnone.
      * unfold res1. destruct (decide (k = k0)) as [->|Hne].
        { by rewrite (Hempty 0%nat vs0). }
        destruct (last vs0) as [[]|]; try done. by rewrite lookup_insert_ne.
      * intros i vs Hi. by apply (Hempty (S i) vs).
Qed.

Section Members.
Context `{Platform}.

Lemma get_mrr_run (m : machine) :
  let run := _get "/ghost/api/admin/members/stats/mrr/" JNull m in
  get_mrr m = (run.1 ≫= mrr_of_body, run.2).
Proof.
  unfold get_mrr, mrr_of_body. unfold_monad. cbv zeta.
  destruct (_get _ JNull m) as [[data|e] m']; cbv beta iota; unfold fst, snd;
    [|done].
  destruct (py_get data "data" (JList [])) as [series|e]; [|done].
  destruct (py_iter series) as [items|e]; [|done].
  by destruct (for_each items get_mrr_step ∅).
Qed.

(** C9: for a body whose [data] lists well-formed items, [get_mrr] returns
    a dict in which a currency maps to the [value] of the last element of
    its series (that of its last item with a series that has elements, if
    the currency comes more than once), and in which a currency whose
    series is empty does not occur. *)
Theorem get_mrr_last_value_per_currency (m m' : machine)
    (d : gmap string pyjson) (items : list pyjson)
    (entries : list (pykey * list pyjson)) :
  _get "/ghost/api/admin/members/stats/mrr/" JNull m = (Ok (JDict d), m') →
  default (JList []) (d !! "data") = JList items →
  Forall2 is_mrr_entry items entries →
  ∃ res : gmap pykey pyjson,
    get_mrr m = (Ok res, m') ∧
    (∀ i k vs latest,
       entries !! i = Some (k, vs) →
       last vs = Some (JDict latest) →
       (∀ j vs', (i < j)%nat → entries !! j = Some (k, vs') → vs' = []) →
       res !! k = Some (default (JInt 0) (latest !! "value"))) ∧
    (∀ k, (∀ i vs, entries !! i = Some (k, vs) → vs = []) → res !! k = None).
Proof.
  intros Hrun Hdata Hall.
  destruct (for_each_get_mrr_step items entries ∅ Hall) as (res & Hfor & Hlast & Hnone).
  exists res. split_and!; [|done|].
  - rewrite get_mrr_run. cbv zeta. rewrite Hrun. simpl.
    unfold mrr_of_body, mbind, result_bind. rewrite py_get_dict, Hdata.
    simpl. by rewrite Hfor.
  - intros k Hempty. by rewrite (Hnone k Hempty).
Qed.

End Members.

(* ===================================================================== *)
(** * ActivityPub statistics                                             *)
(* ===================================================================== *)

Section ActivityPub.
Context `{Platform}.

(** One branch: it makes its exchange, never raises, and writes at most
    its own key. *)
Lemma fetch_count_run (session : nat) (endpoint key : string)
    (stats : gmap string pyjson) (m : machine) :
  let req := activitypub_request (self m) session endpoint in
  let out := (session_request req (world (outside m))).1 in
  let w := (session_request req (world (outside m))).2 in
  fetch_count session {[ "Accept" := "application/activity+json" ]}
    endpoint key stats m =
    (Ok match counted out with
        | Some total => <[key := total]> stats
        | None => stats
        end,
     exchanged m req out w).
Proof.
  cbv zeta. unfold fetch_count. unfold_monad.
  fold (activitypub_request (self m) session endpoint).
  rewrite ClientSession_request_run.
  destruct (session_request _ (world (outside m))) as [[response|e] w];
    unfold fst, snd, counted, isinstance_Exception; [|done].
  destruct (ok response); [|done].
  destruct (resp_json response) as [data|e]; [|done].
  destruct data; done.
Qed.

Lemma counted_failed (out : result response) :
  ((∃ e, out = Raise e) ∨ (∃ response, out = Ok response ∧ 400 ≤ status response)) →
  counted out = None.
Proof.
  intros [[e ->]|(response & -> & Hst)]; [done|].
  unfold counted, ok. by rewrite (proj2 (Z.ltb_ge _ _) Hst).
Qed.

(** C8: [get_activitypub_stats] never raises, in whichever order its two
    requests complete.  It makes one exchange for the followers and one for
    the following, and each count depends on its own exchange only: [0]
    when that request raised or was answered with a status from 400 on,
    [totalItems] of the body when it was answered with success.  When both
    fail the result is [{followers: 0, following: 0}]. *)
Theorem get_activitypub_stats_never_raises (following_first : bool) (m : machine) :
  ∃ (stats : gmap string pyjson) (m' : machine) (xf xg : exchange),
    get_activitypub_stats following_first m = (Ok stats, m') ∧
    wire (outside m') =
      wire (outside m) ++ (if following_first then [xg; xf] else [xf; xg]) ∧
    req_url (sent xf) = api_url (self m) +:+ "/.ghost/activitypub/followers/index" ∧
    req_url (sent xg) = api_url (self m) +:+ "/.ghost/activitypub/following/index" ∧
    stats = {[ "followers" := default (JInt 0) (counted (outcome xf));
               "following" := default (JInt 0) (counted (outcome xg)) ]} ∧
    (((∃ e, outcome xf = Raise e) ∨
      (∃ response, outcome xf = Ok response ∧ 400 ≤ status response)) →
     stats !! "followers" = Some (JInt 0)) ∧
    (((∃ e, outcome xg = Raise e) ∨
      (∃ response, outcome xg = Ok response ∧ 400 ≤ status response)) →
     stats !! "following" = Some (JInt 0)) ∧
    (∀ response d,
       outcome xf = Ok response → status response < 400 →
       resp_json response = Ok (JDict d) →
       stats !! "followers" = Some (default (JInt 0) (d !! "totalItems"))) ∧
    (∀ response d,
       outcome xg = Ok response → status response < 400 →
       resp_json response = Ok (JDict d) →
       stats !! "following" = Some (default (JInt 0) (d !! "totalItems"))).
Proof.
  destruct (get_session_spec m) as (sid & m1 & Hgs & _ & _ & Hurl & _ & _ & Hwire & _).
  unfold get_activitypub_stats.
  unfold mbind at 1. unfold M_bind at 1. rewrite Hgs. cbv zeta.
  unfold asyncio_gather2.
  set (stats0 := ({[ "followers" := JInt 0; "following" := JInt 0 ]} : gmap string pyjson)).
  assert (∀ (a b : option pyjson),
    match b with
    | Some t => <["following" := t]>
                  match a with Some s => <["followers" := s]> stats0 | None => stats0 end
    | None => match a with Some s => <["followers" := s]> stats0 | None => stats0 end
    end = {[ "followers" := default (JInt 0) a; "following" := default (JInt 0) b ]}
    ∧
    match a with
    | Some s => <["followers" := s]>
                  match b with Some t => <["following" := t]> stats0 | None => stats0 end
    | None => match b with Some t => <["following" := t]> stats0 | None => stats0 end
    end = {[ "followers" := default (JInt 0) a; "following" := default (JInt 0) b ]})
    as Hstats.
  { assert (∀ (k : string) (P : Prop),
              (k = "followers" → P) → (k = "following" → P) →
              (k ≠ "followers" → k ≠ "following" → P) → P) as Hcase.
    { intros k P H1 H2 H3. destruct (decide (k = "followers")); [auto|].
      destruct (decide (k = "following")); auto. }
    intros [s|] [t|]; unfold stats0; simpl; split; apply map_eq; intros k;
      apply (Hcase k); intros; by simplify_map_eq. }
  destruct following_first; cbv iota beta.
  - rewrite (fetch_count_run sid "following" "following" stats0 m1). cbv zeta.
    set (xg := {| sent := activitypub_request (self m1) sid "following";
                  outcome := (session_request
                    (activitypub_request (self m1) sid "following")
                    (world (outside m1))).1 |}).
    set (m2 := exchanged m1 _ _ _).
    rewrite (fetch_count_run sid "followers" "followers" _ m2). cbv zeta.
    set (xf := {| sent := activitypub_request (self m2) sid "followers";
                  outcome := (session_request
                    (activitypub_request (self m2) sid "followers")
                    (world (outside m2))).1 |}).
    exists {[ "followers" := default (JInt 0) (counted (outcome xf));
              "following" := default (JInt 0) (counted (outcome xg)) ]}.
    eexists _, xf, xg. split.
    { f_equal. f_equal.
      exact (proj2 (Hstats (counted (outcome xf)) (counted (outcome xg)))). }
    split_and!; try done.
    + simpl. rewrite Hwire, <- app_assoc. done.
    + simpl. by rewrite Hurl.
    + simpl. by rewrite Hurl.
    + intros Hfail. rewrite (counted_failed _ Hfail). by simplify_map_eq.
    + intros Hfail. rewrite (counted_failed _ Hfail). by simplify_map_eq.
    + intros response d Hout Hst Hd. rewrite Hout. unfold counted, ok.
      rewrite (proj2 (Z.ltb_lt _ _) Hst), Hd. by simplify_map_eq.
    + intros response d Hout Hst Hd. rewrite Hout. unfold counted, ok.
      rewrite (proj2 (Z.ltb_lt _ _) Hst), Hd. by simplify_map_eq.
  - rewrite (fetch_count_run sid "followers" "followers" stats0 m1). cbv zeta.
    set (xf := {| sent := activitypub_request (self m1) sid "followers";
                  outcome := (session_request
                    (activitypub_request (self m1) sid "followers")
                    (world (outside m1))).1 |}).
    set (m2 := exchanged m1 _ _ _).
    rewrite (fetch_count_run sid "following" "following" _ m2). cbv zeta.
    set (xg := {| sent := activitypub_request (self m2) sid "following";
                  outcome := (session_request
                    (activitypub_request (self m2) sid "following")
                    (world (outside m2))).1 |}).
    exists {[ "followers" := default (JInt 0) (counted (outcome xf));
              "following" := default (JInt 0) (counted (outcome xg)) ]}.
    eexists _, xf, xg. split.
    { f_equal. f_equal.
      exact (proj1 (Hstats (counted (outcome xf)) (counted (outcome xg)))). }
    split_and!; try done.
    + simpl. rewrite Hwire, <- app_assoc. done.
    + simpl. by rewrite Hurl.
    + simpl. by rewrite Hurl.
    + intros Hfail. rewrite (counted_failed _ Hfail). by simplify_map_eq.
    + intros Hfail. rewrite (counted_failed _ Hfail). by simplify_map_eq.
    + intros response d Hout Hst Hd. rewrite Hout. unfold counted, ok.
      rewrite (proj2 (Z.ltb_lt _ _) Hst), Hd. by simplify_map_eq.
    + intros response d Hout Hst Hd. rewrite Hout. unfold counted, ok.
      rewrite (proj2 (Z.ltb_lt _ _) Hst), Hd. by simplify_map_eq.
Qed.

End ActivityPub.

(* ===================================================================== *)
(** * Concrete runs                                                      *)
(* ===================================================================== *)

(** A server error on the site endpoint: GhostError with status and text. *)
Lemma request_status_classification_witness :
  (_request "GET" "/ghost/api/admin/site/" JNull JNull
     (answering [Ok (text_response 500 "Internal error")])).1 =
  Raise (GhostError "API error 500: Internal error").
Proof.
  set (m := answering [Ok (text_response 500 "Internal error")]).
  set (x := first_exchange "GET" "/ghost/api/admin/site/" JNull
              (Ok (text_response 500 "Internal error"))).
  assert (wire (outside (_request "GET" "/ghost/api/admin/site/" JNull JNull m).2)
          = wire (outside m) ++ [x]) as Hwire by (vm_compute; reflexivity).
  pose proof (request_status_classification m _ "GET" "/ghost/api/admin/site/"
                JNull JNull _ x (surjective_pairing _) Hwire) as Hthm.
  destruct Hthm as (_ & _ & _ & H500 & _).
  apply (H500 ltac:(simpl; lia) ltac:(simpl; lia) ltac:(simpl; lia)
           ltac:(simpl; lia) "Internal error"%string eq_refl).
Defined.

(** Against C1 as stated: a 422 whose [errors] is the empty list ends in
    IndexError and one whose body is not JSON in the decoding error, not in
    GhostValidationError; and a timeout of the exchange, which is not an
    [aiohttp.ClientError], comes out as it is, not as
    GhostConnectionError. *)
Lemma request_classification_counterexample :
  (_request "GET" "/ghost/api/admin/site/" JNull JNull
     (answering [Ok (json_response 422 (JDict no_errors_listed))])).1 =
  Raise IndexError ∧
  (_request "GET" "/ghost/api/admin/site/" JNull JNull
     (answering [Ok (text_response 422 "Unprocessable")])).1 =
  Raise JSONDecodeError ∧
  (_request "GET" "/ghost/api/admin/site/" JNull JNull
     (answering [Raise (OtherException "TimeoutError")])).1 =
  Raise (OtherException "TimeoutError").
Proof. vm_compute. done. Qed.

(** The validation error of the tests: the message of the first error. *)
Lemma request_422_message_witness :
  (_request "POST" "/ghost/api/admin/webhooks/" JNull JNull
     (answering [Ok (json_response 422 (JDict invalid_target_url))])).1 =
  Raise (GhostValidationError (JStr "Invalid target URL")).
Proof.
  set (response := json_response 422 (JDict invalid_target_url)).
  set (m := answering [Ok response]).
  set (x := first_exchange "POST" "/ghost/api/admin/webhooks/" JNull (Ok response)).
  assert (wire (outside (_request "POST" "/ghost/api/admin/webhooks/" JNull JNull m).2)
          = wire (outside m) ++ [x]) as Hwire by (vm_compute; reflexivity).
  destruct (request_422_message m _ "POST" "/ghost/api/admin/webhooks/"
              JNull JNull _ x response (surjective_pairing _) Hwire
              eq_refl eq_refl) as (_ & Hmsg & _).
  apply (Hmsg invalid_target_url {[ "message" := JStr "Invalid target URL" ]} []
           eq_refl eq_refl).
Defined.

(** Against C2 as stated: a 422 whose body is not JSON lets the decoding
    error out, and a 422 whose [errors] is the empty list ends in
    IndexError; neither is a GhostValidationError with the default
    message. *)
Lemma request_422_malformed_body_counterexample :
  (_request "POST" "/ghost/api/admin/webhooks/" JNull JNull
     (answering [Ok (text_response 422 "<html>Unprocessable</html>")])).1 =
  Raise JSONDecodeError ∧
  (_request "POST" "/ghost/api/admin/webhooks/" JNull JNull
     (answering [Ok (json_response 422 (JDict no_errors_listed))])).1 =
  Raise IndexError.
Proof. split; vm_compute; reflexivity. Qed.

(** A post that is not there. *)
Lemma post_methods_downgrade_not_found_witness :
  (get_post "abc" (answering [Ok (text_response 404 "")])).1 = Ok JNull ∧
  (delete_post "abc" (answering [Ok (text_response 404 "")])).1 = Ok false.
Proof.
  set (response := text_response 404 "").
  set (m := answering [Ok response]).
  destruct (post_methods_downgrade_not_found m "abc"
              None None None None None None None None) as (Hget & _ & Hdel & _).
  split.
  - set (x := first_exchange "GET" "/ghost/api/admin/posts/abc/" JNull (Ok response)).
    assert (wire (outside (get_post "abc" m).2) = wire (outside m) ++ [x])
      as Hwire by (vm_compute; reflexivity).
    apply (Hget _ _ x response (surjective_pairing _) Hwire eq_refl eq_refl).
  - set (x := first_exchange "DELETE" "/ghost/api/admin/posts/abc/" JNull (Ok response)).
    assert (wire (outside (delete_post "abc" m).2) = wire (outside m) ++ [x])
      as Hwire by (vm_compute; reflexivity).
    apply (Hdel _ _ x response (surjective_pairing _) Hwire eq_refl eq_refl).
Defined.

(** The response of the spec's example, with a currency that has no data
    yet: the last value for [usd], nothing for [eur]. *)
Lemma get_mrr_last_value_per_currency_witness :
  ∃ res : gmap pykey pyjson,
    (get_mrr (answering [Ok (json_response 200 (JDict mrr_body))])).1 = Ok res ∧
    res !! KStr "usd" = Some (JInt 12284) ∧
    res !! KStr "eur" = None.
Proof.
  set (m := answering [Ok (json_response 200 (JDict mrr_body))]).
  assert (_get "/ghost/api/admin/members/stats/mrr/" JNull m =
          (Ok (JDict mrr_body),
           (_get "/ghost/api/admin/members/stats/mrr/" JNull m).2)) as Hrun.
  { rewrite (surjective_pairing (_get _ JNull m)) at 1. f_equal. }
  assert (Forall2 is_mrr_entry mrr_items [(KStr "usd", usd_series); (KStr "eur", [])])
    as Hitems.
  { repeat constructor.
    - eexists. split_and!; [reflexivity..|]. right. by eexists.
    - eexists. split_and!; [reflexivity..|]. by left. }
  destruct (get_mrr_last_value_per_currency m _ mrr_body mrr_items
              [(KStr "usd", usd_series); (KStr "eur", [])]
              Hrun eq_refl Hitems) as (res & Hres & Hlast & Hnone).
  exists res. split; [by rewrite Hres|]. split.
  - apply (Hlast 0%nat (KStr "usd") usd_series {[ "value" := JInt 12284 ]}
             eq_refl eq_refl).
    intros [|[|j]] vs' Hlt Hj; simpl in Hj; [lia|discriminate|discriminate].
  - apply Hnone.
    intros [|[|i]] vs Hi; simpl in Hi; [discriminate| |discriminate].
    by injection Hi as <-.
Defined.

(** A successful response with an empty list of webhooks. *)
Lemma create_webhook_empty_list_raises_IndexError_witness :
  (create_webhook "member.added" "https://example.com/hook"
     (answering [Ok (json_response 201 (JDict no_webhooks_listed))])).1 =
  Raise IndexError.
Proof.
  set (response := json_response 201 (JDict no_webhooks_listed)).
  set (m := answering [Ok response]).
  set (x := first_exchange "POST" "/ghost/api/admin/webhooks/" hook_payload
              (Ok response)).
  assert (wire (outside (create_webhook "member.added" "https://example.com/hook" m).2)
          = wire (outside m) ++ [x]) as Hwire by (vm_compute; reflexivity).
  destruct (create_webhook_empty_list_raises_IndexError m _
              "member.added" "https://example.com/hook" _ x response
              no_webhooks_listed (surjective_pairing _) Hwire
              eq_refl ltac:(simpl; lia) eq_refl) as (Hempty & _).
  apply Hempty. reflexivity.
Defined.

(** ** The cases of the test suite *)

Example https_required :
  (@__init__ (scripted 0) "http://test.ghost.io" API_KEY None
     (@Build_env (scripted 0) ∅ [] [])).1 =
  Raise (ValueError "api_url must use HTTPS").
Proof. reflexivity. Qed.

Example trailing_slash_stripped :
  api_url <$> (match (@__init__ (scripted 0) "https://test.ghost.io/" API_KEY None
                        (@Build_env (scripted 0) ∅ [] [])).1 with
               | Ok c => Some c
               | Raise _ => None
               end) = Some "https://test.ghost.io"%string.
Proof. reflexivity. Qed.

Example error_401 :
  (_request "GET" "/ghost/api/admin/site/" JNull JNull
     (answering [Ok (text_response 401 "")])).1 =
  Raise (GhostAuthError "Authentication failed. Check your API key.").
Proof. vm_compute. reflexivity. Qed.

Example error_404 :
  (_request "GET" "/ghost/api/admin/site/" JNull JNull
     (answering [Ok (text_response 404 "")])).1 =
  Raise (GhostNotFoundError "Resource not found: /ghost/api/admin/site/").
Proof. vm_compute. reflexivity. Qed.

Example connection_error :
  (_request "GET" "/ghost/api/admin/site/" JNull JNull
     (answering [Raise (ClientError "Connection failed")])).1 =
  Raise (GhostConnectionError "Connection failed: Connection failed").
Proof. vm_compute. reflexivity. Qed.

(** A malformed credential stops the call before anything is sent. *)
Example bad_credential_sends_nothing :
  _request "GET" "/ghost/api/admin/site/" JNull JNull
    (scripted_machine 0 "invalid-key-no-colon" [Ok (text_response 200 "")])
  = (Raise (GhostAuthError "Invalid API key format. Expected 'id:secret'"),
     (_get_session
        (scripted_machine 0 "invalid-key-no-colon" [Ok (text_response 200 "")])).2).
Proof. vm_compute. reflexivity. Qed.

Example create_webhook_without_key :
  (create_webhook "member.added" "https://example.com/hook"
     (answering [Ok (json_response 201 (JDict ∅))])).1 = Ok (JDict ∅).
Proof. vm_compute. reflexivity. Qed.

Example activitypub_not_available :
  (get_activitypub_stats false
     (answering [Ok (text_response 404 ""); Ok (text_response 404 "")])).1 =
  Ok {[ "followers" := JInt 0; "following" := JInt 0 ]}.
Proof. vm_compute. reflexivity. Qed.

Example activitypub_exception :
  (get_activitypub_stats true
     (answering [Raise (ClientError ""); Raise (ClientError "")])).1 =
  Ok {[ "followers" := JInt 0; "following" := JInt 0 ]}.
Proof. vm_compute. reflexivity. Qed.

Example activitypub_one_branch_fails :
  (get_activitypub_stats false
     (answering [Ok (json_response 200 (JDict {[ "totalItems" := JInt 250 ]}));
                 Raise (OtherException "TimeoutError")])).1 =
  Ok {[ "followers" := JInt 250; "following" := JInt 0 ]}.
Proof. vm_compute. reflexivity. Qed.

(** An owned session is closed at the end of the scope, also when the body
    raised. *)
Example scope_closes_after_error :
  let run := async_with (λ api, _request "GET" "/ghost/api/admin/site/" JNull JNull)
               (answering [Ok (text_response 500 "Internal error")]) in
  run.1 = Raise (GhostError "API error 500: Internal error") ∧
  session_closed (sessions (outside run.2)) 0 = true.
Proof. vm_compute. split; reflexivity. Qed.

(** A session of the caller stays open through a request and [close]. *)
Example external_session :
  let e := @Build_env (scripted 0) {[ 7%nat := {| closed := false |} ]}
             [Ok (json_response 200 (JDict ∅))] [] in
  match (__init__ "https://test.ghost.io" API_KEY (Some 7%nat) e).1 with
  | Ok c =>
      let m := {| self := c; outside := e |} in
      let m1 := (_request "GET" "/ghost/api/admin/site/" JNull JNull m).2 in
      _session (self m1) = Some 7%nat ∧ _owns_session (self m1) = false ∧
      session_closed (sessions (outside (close m1).2)) 7 = false
  | Raise _ => False
  end.
Proof. vm_compute. split_and!; reflexivity. Qed.

(* ===================================================================== *)
(** * More on sessions and requests                                      *)
(* ===================================================================== *)

Section MoreRequest.
Context `{Platform}.

(** [_get_session] is idempotent: it never raises and makes no exchange;
    the session it returns is open, and a second call returns the same one
    and changes nothing.  An open session at hand is reused as it is, and
    the sessions that existed before are left as they were. *)
Theorem get_session_idempotent (m : machine) :
  ∃ sid m1,
    _get_session m = (Ok sid, m1) ∧
    _get_session m1 = (Ok sid, m1) ∧
    session_closed (sessions (outside m1)) sid = false ∧
    wire (outside m1) = wire (outside m) ∧
    world (outside m1) = world (outside m) ∧
    (∀ s, _session (self m) = Some s →
          session_closed (sessions (outside m)) s = false →
          sid = s ∧ m1 = m) ∧
    (∀ s, s ∈ dom (sessions (outside m)) →
          sessions (outside m1) !! s = sessions (outside m) !! s).
Proof.
  destruct (get_session_spec m) as
    (sid & m1 & Hgs & Hs1 & Hopen & _ & _ & Hw & Hx & Hcase).
  exists sid, m1. split_and!; try done.
  - unfold _get_session, ClientSession_closed. unfold_monad.
    rewrite Hs1. cbv beta iota. by rewrite Hopen.
  - intros s Hs Hso. destruct Hcase as [[Hs' ->]|(Hfresh & _ & _)].
    + split; [congruence|done].
    + exfalso. revert Hgs. unfold _get_session, ClientSession_closed.
      unfold_monad. rewrite Hs. cbv beta iota. rewrite Hso.
      intros [= <- <-]. apply Hfresh. unfold session_closed in Hso.
      apply elem_of_dom. destruct (sessions (outside m) !! s); [done|discriminate].
  - intros s Hin. destruct Hcase as [[_ ->]|(Hfresh & _ & ->)]; [done|].
    rewrite lookup_insert_ne; [done|]. intros ->. done.
Qed.

(** The request that a call of [_request] has sent. *)
Lemma request_shape (m m' : machine) (method endpoint : string)
    (params json : pyjson) (r : result pyjson) (x : exchange) :
  _request method endpoint params json m = (r, m') →
  wire (outside m') = wire (outside m) ++ [x] →
  ∃ sid token,
    (_get_session m).1 = Ok sid ∧
    (_generate_token (_get_session m).2).1 = Ok token ∧
    sent x = request_sent (self (_get_session m).2) sid token method endpoint
               params json ∧
    api_url (self (_get_session m).2) = api_url (self m).
Proof.
  intros Hrun Hwire.
  destruct (request_run m method endpoint params json)
    as (sid & m1 & Hgs & Hw & _ & Hurl & _ &
        [(msg & _ & Heq)|(tok & out & w & Htok & _ & Heq)]);
    rewrite Heq in Hrun; simplify_eq/=.
  - rewrite Hw in Hwire. apply (f_equal length) in Hwire.
    rewrite length_app in Hwire. simpl in Hwire. lia.
  - rewrite Hw in Hwire. apply app_inv_head in Hwire as [= <-].
    exists sid, tok. rewrite Hgs. simpl. rewrite Htok. done.
Qed.

(** Every call of [_request] makes at most one exchange: none when no
    token can be generated, and exactly one otherwise.  The request it sends
    goes to the stored base URL followed by the endpoint, with the method,
    the query and the body it was given, the header
    [Authorization: Ghost <token>] with a token generated for this call, the
    header [Accept-Version: v5.0], and [Content-Type: application/json]
    exactly when the body is not empty. *)
Theorem request_sends_one_authenticated_request (m : machine)
    (method endpoint : string) (params json : pyjson) :
  let m' := (_request method endpoint params json m).2 in
  match (_generate_token (_get_session m).2).1 with
  | Raise _ => wire (outside m') = wire (outside m)
  | Ok token =>
      ∃ x,
        wire (outside m') = wire (outside m) ++ [x] ∧
        req_method (sent x) = method ∧
        req_url (sent x) = api_url (self m) +:+ endpoint ∧
        req_params (sent x) = params ∧
        req_json (sent x) = json ∧
        req_headers (sent x) !! "Authorization" = Some ("Ghost " +:+ token) ∧
        req_headers (sent x) !! "Accept-Version" = Some "v5.0"%string ∧
        req_headers (sent x) !! "Content-Type" =
          (if py_truthy json then Some "application/json"%string else None)
  end.
Proof.
  cbv zeta.
  destruct (request_run m method endpoint params json)
    as (sid & m1 & Hgs & Hw & _ & Hurl & _ &
        [(msg & Htok & Heq)|(tok & out & w & Htok & _ & Heq)]);
    rewrite Heq, Hgs; cbn [fst snd]; rewrite Htok; cbn [fst snd].
  - done.
  - eexists. simpl. rewrite Hw. split; [done|]. unfold request_sent. simpl.
    rewrite Hurl.
    split_and!; try done; destruct (py_truthy json); by simplify_map_eq.
Qed.

(** [_request] never lets an [aiohttp.ClientError] out: one raised by the
    exchange or by reading the body is replaced by GhostConnectionError, and
    token generation raises none. *)
Theorem request_never_raises_ClientError (m : machine)
    (method endpoint : string) (params json : pyjson) :
  match (_request method endpoint params json m).1 with
  | Ok _ => True
  | Raise e => isinstance_ClientError e = false
  end.
Proof.
  destruct (request_run m method endpoint params json)
    as (sid & m1 & _ & _ & _ & _ & _ &
        [(e & Htok & Heq)|(tok & out & w & _ & _ & Heq)]);
    rewrite Heq; simpl.
  - by destruct (generate_token_raises _ _ _ Htok) as [[msg ->]|[name ->]].
  - destruct (out ≫= classify_response endpoint) as [a|e]; simpl; [done|].
    destruct (isinstance_ClientError e) eqn:He; done.
Qed.

(** With a credential that yields no token, [_request] raises
    GhostAuthError without sending anything: the world and the record of
    exchanges are as before, although a session may have been created. *)
Theorem request_with_bad_credential_sends_nothing (m : machine)
    (method endpoint : string) (params json : pyjson) :
  (count ":" (admin_api_key (self m)) ≠ 1%nat ∨
   ∃ key_id secret e,
     split ":" (admin_api_key (self m)) = [key_id; secret] ∧
     fromhex secret = Raise e) →
  ∃ msg m',
    _request method endpoint params json m = (Raise (GhostAuthError msg), m') ∧
    wire (outside m') = wire (outside m) ∧
    world (outside m') = world (outside m).
Proof.
  intros Hbad.
  destruct (request_run m method endpoint params json)
    as (sid & m1 & _ & Hw & Hwd & _ & Hkey & Hrun).
  rewrite <- Hkey in Hbad.
  assert (∃ msg, _generate_token m1 = (Raise (GhostAuthError msg), m1))
    as [msg Hauth].
  { destruct Hbad as [Hc|(key_id & secret & e & Hs & He)].
    - eexists. by apply generate_token_bad_format.
    - eexists. by apply (generate_token_bad_secret m1 key_id secret e). }
  exists msg, m1. rewrite Hauth in Hrun.
  destruct Hrun as [(e & [= <-] & Heq)|(tok & out & w & Htok & _ & _)]; done.
Qed.

End MoreRequest.

(* ===================================================================== *)
(** * The other methods                                                  *)
(* ===================================================================== *)

(** A method that is one request and then code without effects. *)
Lemma bind_lift_run `{Platform} {A B : Type} (c : M A) (f : A → result B)
    (m : machine) :
  (a ← c; lift (f a)) m = ((c m).1 ≫= f, (c m).2).
Proof. unfold_monad. by destruct (c m) as [[a|e] m']. Qed.

Lemma bind_raise_run `{Platform} {A B : Type} (c : M A) (k : A → M B)
    (m m' : machine) (e : exn) :
  c m = (Raise e, m') → (a ← c; k a) m = (Raise e, m').
Proof. intros Hc. unfold_monad. by rewrite Hc. Qed.

Section OtherMethodsFacts.
Context `{Platform}.


Lemma get_latest_post_run (m : machine) :
  let run := _get "/ghost/api/admin/posts/"
    (JDict {[ "limit" := JInt 1; "order" := JStr "published_at desc";
              "filter" := JStr "status:published" ]}) m in
  get_latest_post m = (run.1 ≫= first_post, run.2).
Proof.
  unfold get_latest_post, first_post. unfold_monad. cbv zeta.
  destruct (_get _ _ m) as [[data|e] m']; cbv beta iota; unfold fst, snd; [|done].
  destruct (py_get data "posts" (JList [])) as [posts|e]; [|done].
  destruct (py_truthy posts); [|done]. by destruct (py_getitem posts 0).
Qed.

Lemma delete_webhook_run (webhook_id : string) (m : machine) :
  let run := _delete ("/ghost/api/admin/webhooks/" +:+ webhook_id +:+ "/") m in
  delete_webhook webhook_id m = (run.1 ≫= (λ _, Ok ()), run.2).
Proof.
  unfold delete_webhook. unfold_monad. cbv zeta.
  by destruct (_delete _ m) as [[data|e] m'].
Qed.

(** The methods other than the three of the posts hand every exception of
    their request on as it is, with the state the request left. *)
Lemma other_methods_propagate_errors (m m' : machine) (e : exn) :
  (_get "/ghost/api/admin/site/" JNull m = (Raise e, m') →
   get_site m = (Raise e, m')) ∧
  (_get "/ghost/api/admin/posts/"
     (JDict {[ "limit" := JInt 1; "order" := JStr "published_at desc";
               "filter" := JStr "status:published" ]}) m = (Raise e, m') →
   get_latest_post m = (Raise e, m')) ∧
  (_get "/ghost/api/admin/members/stats/count/" JNull m = (Raise e, m') →
   get_members_count m = (Raise e, m')) ∧
  (_get "/ghost/api/admin/members/stats/mrr/" JNull m = (Raise e, m') →
   get_mrr m = (Raise e, m')) ∧
  (_get "/ghost/api/admin/newsletters/"
     (JDict {[ "include" := JStr "count.members" ]}) m = (Raise e, m') →
   get_newsletters m = (Raise e, m')) ∧
  (_get "/ghost/api/admin/posts/"
     (JDict {[ "limit" := JInt 10; "order" := JStr "published_at desc";
               "filter" := JStr "status:published";
               "include" := JStr "email,count.clicks" ]}) m = (Raise e, m') →
   get_latest_email m = (Raise e, m')) ∧
  (_get "/ghost/api/admin/comments/" (JDict {[ "limit" := JInt 1 ]}) m
     = (Raise e, m') →
   get_comments_count m = (Raise e, m')) ∧
  (_get "/ghost/api/admin/tiers/" JNull m = (Raise e, m') →
   get_tiers m = (Raise e, m')) ∧
  (∀ webhook_id,
     _delete ("/ghost/api/admin/webhooks/" +:+ webhook_id +:+ "/") m = (Raise e, m') →
     delete_webhook webhook_id m = (Raise e, m')).
Proof.
  split_and!; intros; by apply bind_raise_run.
Qed.

Lemma method_not_found {A : Type} (method endpoint : string)
    (params json : pyjson) (k : pyjson → M A) (m : machine) :
  received_404 m (_request method endpoint params json m).2 →
  ((data ← _request method endpoint params json; k data) m).1 =
    Raise (GhostNotFoundError ("Resource not found: " +:+ endpoint)).
Proof.
  intros (x & response & Hwire & Hout & Hst).
  destruct (_request method endpoint params json m) as [r m1] eqn:Hrun.
  rewrite (request_404 _ _ _ _ _ _ _ _ _ Hrun Hwire Hout Hst) in Hrun.
  by rewrite (bind_raise_run _ k m m1 _ Hrun).
Qed.

(** The nine methods below do not catch GhostNotFoundError: when the
    request of one of them is answered with status 404, the method raises
    GhostNotFoundError with the endpoint in its message, where [get_post]
    returns [None] and [delete_post] returns [False]. *)
Theorem not_found_is_raised_elsewhere (m : machine) :
  (received_404 m (_get "/ghost/api/admin/site/" JNull m).2 →
   (get_site m).1 =
     Raise (GhostNotFoundError "Resource not found: /ghost/api/admin/site/")) ∧
  (received_404 m
     (_get "/ghost/api/admin/posts/"
        (JDict {[ "limit" := JInt 1; "order" := JStr "published_at desc";
                  "filter" := JStr "status:published" ]}) m).2 →
   (get_latest_post m).1 =
     Raise (GhostNotFoundError "Resource not found: /ghost/api/admin/posts/")) ∧
  (received_404 m (_get "/ghost/api/admin/members/stats/count/" JNull m).2 →
   (get_members_count m).1 =
     Raise (GhostNotFoundError
              "Resource not found: /ghost/api/admin/members/stats/count/")) ∧
  (received_404 m (_get "/ghost/api/admin/members/stats/mrr/" JNull m).2 →
   (get_mrr m).1 =
     Raise (GhostNotFoundError
              "Resource not found: /ghost/api/admin/members/stats/mrr/")) ∧
  (received_404 m
     (_get "/ghost/api/admin/newsletters/"
        (JDict {[ "include" := JStr "count.members" ]}) m).2 →
   (get_newsletters m).1 =
     Raise (GhostNotFoundError
              "Resource not found: /ghost/api/admin/newsletters/")) ∧
  (received_404 m
     (_get "/ghost/api/admin/posts/"
        (JDict {[ "limit" := JInt 10; "order" := JStr "published_at desc";
                  "filter" := JStr "status:published";
                  "include" := JStr "email,count.clicks" ]}) m).2 →
   (get_latest_email m).1 =
     Raise (GhostNotFoundError "Resource not found: /ghost/api/admin/posts/")) ∧
  (received_404 m
     (_get "/ghost/api/admin/comments/" (JDict {[ "limit" := JInt 1 ]}) m).2 →
   (get_comments_count m).1 =
     Raise (GhostNotFoundError "Resource not found: /ghost/api/admin/comments/")) ∧
  (received_404 m (_get "/ghost/api/admin/tiers/" JNull m).2 →
   (get_tiers m).1 =
     Raise (GhostNotFoundError "Resource not found: /ghost/api/admin/tiers/")) ∧
  (∀ webhook_id,
     received_404 m
       (_delete ("/ghost/api/admin/webhooks/" +:+ webhook_id +:+ "/") m).2 →
     (delete_webhook webhook_id m).1 =
       Raise (GhostNotFoundError
                ("Resource not found: " +:+
                 ("/ghost/api/admin/webhooks/" +:+ webhook_id +:+ "/")))).
Proof.
  split_and!; intros; by apply method_not_found.
Qed.

(** ** Validation *)






(** ** Creating and updating posts *)

Lemma lookup_insert_field (post_data : gmap string pyjson) (key k : string)
    (v : pyjson) :
  <[key := v]> post_data !! k = if decide (k = key) then Some v else post_data !! k.
Proof. case_decide; by simplify_map_eq. Qed.

Lemma lookup_single_field (key k : string) (v : pyjson) :
  ({[ key := v ]} : gmap string pyjson) !! k =
    if decide (k = key) then Some v else None.
Proof. case_decide; by simplify_map_eq. Qed.

Lemma lookup_set_if_truthy (x : option string) (key k : string)
    (post_data : gmap string pyjson) :
  set_if_truthy x key post_data !! k =
    if decide (k = key)
    then (if truthy_str x then JStr <$> x else post_data !! k)
    else post_data !! k.
Proof.
  unfold set_if_truthy, truthy_str. destruct x as [v|]; [|by case_decide].
  destruct (negb (String.eqb v "")); case_decide; simplify_map_eq; done.
Qed.

Lemma lookup_set_if_given {A : Type} (x : option A) (key k : string)
    (f : A → pyjson) (post_data : gmap string pyjson) :
  set_if_given x key f post_data !! k =
    if decide (k = key)
    then (match x with Some v => Some (f v) | None => post_data !! k end)
    else post_data !! k.
Proof.
  unfold set_if_given. destruct x as [v|]; case_decide; simplify_map_eq; done.
Qed.

Lemma if_decide_same {X : Type} (a : string) (x y : X) :
  (if decide (a = a) then x else y) = x.
Proof. by rewrite decide_True. Qed.

Lemma if_decide_other {X : Type} (a b : string) (x y : X) :
  String.eqb a b = false → (if decide (a = b) then x else y) = y.
Proof. intros Hne. apply decide_False. by apply String.eqb_neq. Qed.

Ltac decide_keys :=
  repeat first [ rewrite if_decide_same
               | rewrite if_decide_other by reflexivity
               | rewrite decide_False by assumption ].

(** [create_post] posts one object: [title], [mobiledoc] and [status]
    always, and an optional field only when its argument is neither [None]
    nor empty (an empty slug or an empty list of tags is left out);
    nothing else.  It returns the first post of the answer, and the empty
    dict when the answer lists no post or has no [posts]. *)
Theorem create_post_sends_nonempty_fields (m : machine)
    (title content post_status : string)
    (slug excerpt feature_image : option string)
    (tags : option (list string)) (published_at : option string) :
  ∃ post_data : gmap string pyjson,
    (let run := _post "/ghost/api/admin/posts/"
                  (JDict {[ "posts" := JList [JDict post_data] ]}) m in
     create_post title content post_status slug excerpt feature_image tags
       published_at m =
       (data ← run.1;
        posts ← py_get data "posts" (JList []);
        if py_truthy posts then py_getitem posts 0 else Ok (JDict ∅),
        run.2)) ∧
    post_data !! "title" = Some (JStr title) ∧
    post_data !! "mobiledoc" = Some (JStr (_convert_to_mobiledoc content)) ∧
    post_data !! "status" = Some (JStr post_status) ∧
    post_data !! "slug" = (if truthy_str slug then JStr <$> slug else None) ∧
    post_data !! "custom_excerpt" =
      (if truthy_str excerpt then JStr <$> excerpt else None) ∧
    post_data !! "feature_image" =
      (if truthy_str feature_image then JStr <$> feature_image else None) ∧
    post_data !! "tags" =
      match tags with
      | Some (t :: ts) =>
          Some (JList ((λ tag, JDict {[ "name" := JStr tag ]}) <$> (t :: ts)))
      | _ => None
      end ∧
    post_data !! "published_at" =
      (if truthy_str published_at then JStr <$> published_at else None) ∧
    (∀ k, k ∉ ["title"; "mobiledoc"; "status"; "slug"; "custom_excerpt";
               "feature_image"; "tags"; "published_at"]%string →
          post_data !! k = None).
Proof.
  set (pd0 := ({[ "title" := JStr title;
                  "mobiledoc" := JStr (_convert_to_mobiledoc content);
                  "status" := JStr post_status ]} : gmap string pyjson)).
  set (pd3 := set_if_truthy feature_image "feature_image"
                (set_if_truthy excerpt "custom_excerpt"
                   (set_if_truthy slug "slug" pd0))).
  set (pd4 := match tags with
              | Some (t :: ts) =>
                  <["tags" := JList ((λ tag, JDict {[ "name" := JStr tag ]})
                                       <$> (t :: ts))]> pd3
              | Some [] | None => pd3
              end).
  exists (set_if_truthy published_at "published_at" pd4).
  assert (∀ k, pd0 !! k =
            if decide (k = "title") then Some (JStr title)
            else if decide (k = "mobiledoc")
                 then Some (JStr (_convert_to_mobiledoc content))
                 else if decide (k = "status") then Some (JStr post_status)
                      else None) as H0k.
  { intros k. unfold pd0. by rewrite !lookup_insert_field, lookup_single_field. }
  assert (∀ k, pd4 !! k =
            if decide (k = "tags")
            then match tags with
                 | Some (t :: ts) =>
                     Some (JList ((λ tag, JDict {[ "name" := JStr tag ]})
                                    <$> (t :: ts)))
                 | _ => pd3 !! k
                 end
            else pd3 !! k) as H4k.
  { intros k. unfold pd4. destruct tags as [[|t ts]|]; try (by case_decide).
    by rewrite lookup_insert_field. }
  split.
  { unfold create_post. fold pd0. fold pd3. fold pd4. unfold_monad. cbv zeta.
    destruct (_post _ _ m) as [[data|e] m']; cbv beta iota; unfold fst, snd; [|done].
    destruct (py_get data "posts" (JList [])) as [posts|e]; [|done].
    destruct (py_truthy posts); [|done]. by destruct (py_getitem posts 0). }
  split_and!.
  - rewrite lookup_set_if_truthy, H4k. unfold pd3.
    rewrite !lookup_set_if_truthy, H0k. by decide_keys.
  - rewrite lookup_set_if_truthy, H4k. unfold pd3.
    rewrite !lookup_set_if_truthy, H0k. by decide_keys.
  - rewrite lookup_set_if_truthy, H4k. unfold pd3.
    rewrite !lookup_set_if_truthy, H0k. by decide_keys.
  - rewrite lookup_set_if_truthy, H4k. unfold pd3.
    rewrite !lookup_set_if_truthy, H0k. by decide_keys.
  - rewrite lookup_set_if_truthy, H4k. unfold pd3.
    rewrite !lookup_set_if_truthy, H0k. by decide_keys.
  - rewrite lookup_set_if_truthy, H4k. unfold pd3.
    rewrite !lookup_set_if_truthy, H0k. by decide_keys.
  - rewrite lookup_set_if_truthy, H4k. unfold pd3.
    rewrite !lookup_set_if_truthy, H0k. decide_keys.
    by destruct tags as [[|t ts]|].
  - rewrite lookup_set_if_truthy, H4k. unfold pd3.
    rewrite !lookup_set_if_truthy, H0k. by decide_keys.
  - intros k Hk.
    assert (k ≠ "published_at" ∧ k ≠ "tags" ∧ k ≠ "feature_image" ∧
            k ≠ "custom_excerpt" ∧ k ≠ "slug" ∧ k ≠ "status" ∧
            k ≠ "mobiledoc" ∧ k ≠ "title")%string
      as (? & ? & ? & ? & ? & ? & ? & ?).
    { split_and!; intros ->; apply Hk; set_solver. }
    rewrite lookup_set_if_truthy, H4k. unfold pd3.
    rewrite !lookup_set_if_truthy, H0k. by decide_keys.
Qed.

(** [update_post] puts one object that holds a field exactly when its
    argument is not [None]: an empty string or an empty list of tags is
    sent as it is, and with no argument at all the object is empty. *)
Theorem update_post_sends_given_fields (m : machine) (post_id : string)
    (title content new_status slug excerpt feature_image : option string)
    (tags : option (list string)) (published_at : option string) :
  ∃ post_data : gmap string pyjson,
    (let run := _put ("/ghost/api/admin/posts/" +:+ post_id +:+ "/")
                  (JDict {[ "posts" := JList [JDict post_data] ]}) m in
     update_post post_id title content new_status slug excerpt feature_image
       tags published_at m =
       (match run.1 with
        | Ok data => first_post data
        | Raise e => if isinstance_GhostNotFoundError e then Ok JNull else Raise e
        end, run.2)) ∧
    post_data !! "title" = JStr <$> title ∧
    post_data !! "mobiledoc" = (λ c, JStr (_convert_to_mobiledoc c)) <$> content ∧
    post_data !! "status" = JStr <$> new_status ∧
    post_data !! "slug" = JStr <$> slug ∧
    post_data !! "custom_excerpt" = JStr <$> excerpt ∧
    post_data !! "feature_image" = JStr <$> feature_image ∧
    post_data !! "tags" =
      (λ ts, JList ((λ tag, JDict {[ "name" := JStr tag ]}) <$> ts)) <$> tags ∧
    post_data !! "published_at" = JStr <$> published_at ∧
    (∀ k, k ∉ ["title"; "mobiledoc"; "status"; "slug"; "custom_excerpt";
               "feature_image"; "tags"; "published_at"]%string →
          post_data !! k = None).
Proof.
  eexists. split; [apply try_first_post_run|].
  split_and!.
  - rewrite !lookup_set_if_given, lookup_empty. decide_keys. by destruct title.
  - rewrite !lookup_set_if_given, lookup_empty. decide_keys. by destruct content.
  - rewrite !lookup_set_if_given, lookup_empty. decide_keys. by destruct new_status.
  - rewrite !lookup_set_if_given, lookup_empty. decide_keys. by destruct slug.
  - rewrite !lookup_set_if_given, lookup_empty. decide_keys. by destruct excerpt.
  - rewrite !lookup_set_if_given, lookup_empty. decide_keys.
    by destruct feature_image.
  - rewrite !lookup_set_if_given, lookup_empty. decide_keys. by destruct tags.
  - rewrite !lookup_set_if_given, lookup_empty. decide_keys.
    by destruct published_at.
  - intros k Hk.
    assert (k ≠ "published_at" ∧ k ≠ "tags" ∧ k ≠ "feature_image" ∧
            k ≠ "custom_excerpt" ∧ k ≠ "slug" ∧ k ≠ "status" ∧
            k ≠ "mobiledoc" ∧ k ≠ "title")%string
      as (? & ? & ? & ? & ? & ? & ? & ?).
    { split_and!; intros ->; apply Hk; set_solver. }
    rewrite !lookup_set_if_given, lookup_empty. by decide_keys.
Qed.

(** ** Member counts *)

(** [get_members_count] keeps the total of the body ([0] if it has none).
    With a history that is missing or empty the three shares are [0];
    otherwise they are those of the last element of the history, each [0]
    where that element does not give it. *)
Theorem get_members_count_takes_latest (m m' : machine) (d : gmap string pyjson) :
  _get "/ghost/api/admin/members/stats/count/" JNull m = (Ok (JDict d), m') →
  (default (JList []) (d !! "data") = JList [] →
   get_members_count m =
     (Ok {[ "total" := default (JInt 0) (d !! "total");
            "paid" := JInt 0; "free" := JInt 0; "comped" := JInt 0 ]}, m')) ∧
  (∀ history latest,
     default (JList []) (d !! "data") = JList history →
     last history = Some (JDict latest) →
     get_members_count m =
       (Ok {[ "total" := default (JInt 0) (d !! "total");
              "paid" := default (JInt 0) (latest !! "paid");
              "free" := default (JInt 0) (latest !! "free");
              "comped" := default (JInt 0) (latest !! "comped") ]}, m')).
Proof.
  intros Hrun. unfold get_members_count. unfold_monad. rewrite Hrun.
  cbv beta iota. rewrite !py_get_dict. split.
  - intros ->. done.
  - intros history latest -> Hlast.
    assert (py_truthy (JList history) = true) as -> by (by destruct history).
    rewrite (py_getitem_last _ _ Hlast). cbv beta iota.
    by rewrite !py_get_dict.
Qed.

(** ** Counts from the pagination *)

Lemma get_comments_count_run (m : machine) :
  let run := _get "/ghost/api/admin/comments/" (JDict {[ "limit" := JInt 1 ]}) m in
  get_comments_count m = (run.1 ≫= pagination_total, run.2).
Proof. apply bind_lift_run. Qed.

(** [get_comments_count] returns the total of the pagination, and [0]
    when the body has no [meta], the meta no [pagination] or the pagination
    no [total].  The defaults are for missing keys only: a [meta] that is
    [null] raises AttributeError. *)
Theorem get_comments_count_defaults (m m' : machine) (d : gmap string pyjson) :
  _get "/ghost/api/admin/comments/" (JDict {[ "limit" := JInt 1 ]}) m
    = (Ok (JDict d), m') →
  (d !! "meta" = None → get_comments_count m = (Ok 0, m')) ∧
  (∀ meta, d !! "meta" = Some (JDict meta) → meta !! "pagination" = None →
     get_comments_count m = (Ok 0, m')) ∧
  (∀ meta pagination,
     d !! "meta" = Some (JDict meta) →
     meta !! "pagination" = Some (JDict pagination) →
     pagination !! "total" = None →
     get_comments_count m = (Ok 0, m')) ∧
  (∀ meta pagination n,
     d !! "meta" = Some (JDict meta) →
     meta !! "pagination" = Some (JDict pagination) →
     pagination !! "total" = Some (JInt n) →
     get_comments_count m = (Ok n, m')) ∧
  (d !! "meta" = Some JNull → get_comments_count m = (Raise AttributeError, m')).
Proof.
  intros Hrun. rewrite get_comments_count_run. cbv zeta. rewrite Hrun.
  cbn [fst snd]. unfold pagination_total, mbind, result_bind.
  rewrite py_get_dict. split_and!.
  - intros ->. done.
  - intros meta -> Hp. simpl. by rewrite Hp.
  - intros meta pagination -> Hp Ht. simpl. rewrite Hp. simpl. by rewrite Ht.
  - intros meta pagination n -> Hp Ht. simpl. rewrite Hp. simpl. by rewrite Ht.
  - intros ->. done.
Qed.

(** ** Email statistics *)

Lemma percent_of_nothing_sent (count : pyjson) (n : Z) :
  n ≤ 0 → percent_of count (JInt n) = Ok (JInt 0).
Proof.
  intros Hn. unfold percent_of, py_gt0, mbind, result_bind. simpl.
  by rewrite (proj2 (Z.ltb_ge 0 n) Hn).
Qed.

Lemma percent_of_sent (a n : Z) :
  0 ≤ a < 2 ^ 43 → 0 < n < 2 ^ 1022 →
  ∃ r, percent_of (JInt a) (JInt n) = Ok (JInt r) ∧
       Z.abs (2 * (n * r - 100 * a)) ≤ n.
Proof.
  intros Ha Hn. destruct (round_percent_nearest a n Ha Hn) as (r & Hr & Hnear).
  exists r. split; [|done].
  unfold percent_of, py_gt0, mbind, result_bind. simpl.
  by rewrite (proj2 (Z.ltb_lt 0 n) (proj1 Hn)), Hr.
Qed.

(** When no email was sent (the count is missing, zero or negative),
    [_build_email_stats] gives both rates as [0] without dividing,
    whatever the counts of opens and clicks are. *)
Theorem email_stats_nothing_sent (d email : gmap string pyjson) (n : Z) :
  d !! "email" = Some (JDict email) →
  (d !! "count" = None ∨ ∃ c, d !! "count" = Some (JDict c)) →
  default (JInt 0) (email !! "email_count") = JInt n →
  n ≤ 0 →
  ∃ stats,
    _build_email_stats (JDict d) = Ok stats ∧
    stats !! "email_count" = Some (JInt n) ∧
    stats !! "open_rate" = Some (JInt 0) ∧
    stats !! "click_rate" = Some (JInt 0).
Proof.
  intros He Hc Hn Hle. unfold _build_email_stats, mbind, result_bind.
  unfold py_getitem_key. rewrite He. rewrite !py_get_dict, Hn.
  assert (∃ c, default (JDict ∅) (d !! "count") = JDict c) as [c ->].
  { destruct Hc as [->|[c ->]]; simpl; eauto. }
  rewrite !py_get_dict, !(percent_of_nothing_sent _ n Hle).
  eexists. split; [done|].
  split_and!; rewrite !lookup_insert_field, ?lookup_single_field; by decide_keys.
Qed.

(** When email was sent, each rate is [round(count / email_count * 100)]
    of the opens and of the clicks, which for counts below [2 ^ 43] is an
    integer nearest to the exact percentage; the clicks count as [0] when
    the post has no count of them or a [null] one. *)
Theorem email_stats_rates (d email c : gmap string pyjson)
    (sent_count opened clicked : Z) :
  d !! "email" = Some (JDict email) →
  default (JDict ∅) (d !! "count") = JDict c →
  default (JInt 0) (email !! "email_count") = JInt sent_count →
  0 < sent_count < 2 ^ 1022 →
  default (JInt 0) (email !! "opened_count") = JInt opened →
  0 ≤ opened < 2 ^ 43 →
  (c !! "clicks" = None ∧ clicked = 0 ∨
   c !! "clicks" = Some JNull ∧ clicked = 0 ∨
   c !! "clicks" = Some (JInt clicked)) →
  0 ≤ clicked < 2 ^ 43 →
  ∃ stats open_rate click_rate,
    _build_email_stats (JDict d) = Ok stats ∧
    stats !! "clicked_count" = Some (JInt clicked) ∧
    stats !! "open_rate" = Some (JInt open_rate) ∧
    Z.abs (2 * (sent_count * open_rate - 100 * opened)) ≤ sent_count ∧
    stats !! "click_rate" = Some (JInt click_rate) ∧
    Z.abs (2 * (sent_count * click_rate - 100 * clicked)) ≤ sent_count ∧
    stats !! "title" = Some (default JNull (d !! "title")) ∧
    stats !! "subject" = Some (default JNull (email !! "subject")).
Proof.
  intros He Hc Hn Hpos Ho Hob Hk Hkb.
  unfold _build_email_stats, mbind, result_bind.
  unfold py_getitem_key. rewrite He. rewrite !py_get_dict, Hn, Ho, Hc.
  rewrite !py_get_dict.
  assert ((if py_truthy (default (JInt 0) (c !! "clicks"))
           then default (JInt 0) (c !! "clicks") else JInt 0) = JInt clicked) as ->.
  { destruct Hk as [[-> ->]|[[-> ->]| ->]]; simpl; try done.
    destruct (clicked =? 0) eqn:Hz; simpl; [|done].
    apply Z.eqb_eq in Hz. by subst. }
  destruct (percent_of_sent opened sent_count Hob Hpos) as (open_rate & -> & Hopen).
  destruct (percent_of_sent clicked sent_count Hkb Hpos) as (click_rate & -> & Hclick).
  eexists _, open_rate, click_rate. split; [done|].
  split_and!; try done;
    rewrite !lookup_insert_field, ?lookup_single_field; by decide_keys.
Qed.

(** Where the exact percentage lies halfway between two integers, the
    floating-point product decides: [0.5] and [2.5] go to the even
    neighbour, and 23 of 40 is [57] because [23 / 40 * 100] falls just
    short of [57.5]. *)
Example round_percent_at_halves :
  round_percent 1 200 = Ok 0 ∧ round_percent 3 200 = Ok 2 ∧
  round_percent 5 200 = Ok 2 ∧ round_percent 7 200 = Ok 4 ∧
  round_percent 23 40 = Ok 57 ∧ round_percent 1 8 = Ok 12 ∧
  round_percent 450 1000 = Ok 45 ∧ round_percent 120 1000 = Ok 12.
Proof. vm_compute. done. Qed.

(** The loop of [get_latest_email] on posts that come before one with an
    email. *)
Lemma first_with_email_skips (before : list pyjson) (post : pyjson)
    (after : list pyjson) (d : gmap string pyjson) :
  Forall (λ p, ∃ dp : gmap string pyjson,
            p = JDict dp ∧ py_truthy (default JNull (dp !! "email")) = false)
         before →
  post = JDict d → py_truthy (default JNull (d !! "email")) = true →
  first_with_email (before ++ post :: after) =
    match _build_email_stats post with
    | Ok stats => Ok (JDict stats)
    | Raise e => Raise e
    end.
Proof.
  intros Hbefore -> Hemail. induction Hbefore as [|p ps (dp & -> & Hp) _ IH].
  - simpl. by rewrite Hemail.
  - simpl. by rewrite Hp.
Qed.

Lemma first_with_email_none (posts : list pyjson) :
  Forall (λ p, ∃ dp : gmap string pyjson,
            p = JDict dp ∧ py_truthy (default JNull (dp !! "email")) = false)
         posts →
  first_with_email posts = Ok JNull.
Proof.
  induction 1 as [|p ps (dp & -> & Hp) _ IH]; [done|]. simpl. by rewrite Hp.
Qed.

Lemma get_latest_email_run (m : machine) :
  let run := _get "/ghost/api/admin/posts/"
    (JDict {[ "limit" := JInt 10; "order" := JStr "published_at desc";
              "filter" := JStr "status:published";
              "include" := JStr "email,count.clicks" ]}) m in
  get_latest_email m =
    (data ← run.1;
     posts ← py_get data "posts" (JList []);
     items ← py_iter posts;
     first_with_email items, run.2).
Proof.
  unfold get_latest_email. unfold_monad. cbv zeta.
  destruct (_get _ _ m) as [[data|e] m']; cbv beta iota; unfold fst, snd; [|done].
  destruct (py_get data "posts" (JList [])) as [posts|e]; [|done].
  by destruct (py_iter posts).
Qed.

(** [get_latest_email] gives the statistics of the first post in the
    answer that has an email, whatever comes after it; it returns [None]
    when no post of the answer has one. *)
Theorem get_latest_email_takes_first (m m' : machine) (d : gmap string pyjson)
    (posts : list pyjson) :
  _get "/ghost/api/admin/posts/"
    (JDict {[ "limit" := JInt 10; "order" := JStr "published_at desc";
              "filter" := JStr "status:published";
              "include" := JStr "email,count.clicks" ]}) m
    = (Ok (JDict d), m') →
  default (JList []) (d !! "posts") = JList posts →
  (∀ before post after dp,
     posts = before ++ post :: after →
     Forall (λ p, ∃ dq : gmap string pyjson,
               p = JDict dq ∧ py_truthy (default JNull (dq !! "email")) = false)
            before →
     post = JDict dp → py_truthy (default JNull (dp !! "email")) = true →
     get_latest_email m =
       (match _build_email_stats post with
        | Ok stats => Ok (JDict stats)
        | Raise e => Raise e
        end, m')) ∧
  (Forall (λ p, ∃ dq : gmap string pyjson,
             p = JDict dq ∧ py_truthy (default JNull (dq !! "email")) = false)
          posts →
   get_latest_email m = (Ok JNull, m')).
Proof.
  intros Hrun Hposts. rewrite get_latest_email_run. cbv zeta. rewrite Hrun.
  cbn [fst snd]. unfold mbind, result_bind. rewrite py_get_dict, Hposts.
  simpl. split.
  - intros before post after dp -> Hbefore Hpost Hemail.
    by rewrite (first_with_email_skips before post after dp).
  - intros Hnone. by rewrite first_with_email_none.
Qed.

(** ** Post counts *)

Lemma get_session_again (m m1 : machine) (sid : nat) :
  _get_session m = (Ok sid, m1) → _get_session m1 = (Ok sid, m1).
Proof.
  intros Hgs.
  destruct (get_session_spec m) as (sid' & m1' & Hgs' & Hs1 & Hopen & _).
  rewrite Hgs in Hgs'. injection Hgs' as <- <-.
  unfold _get_session, ClientSession_closed. unfold_monad.
  rewrite Hs1. cbv beta iota. by rewrite Hopen.
Qed.

Lemma request_start_run (m m1 : machine) (sid : nat)
    (method endpoint : string) (params json : pyjson) :
  _get_session m = (Ok sid, m1) →
  _request_start method endpoint params json m =
    (match (_generate_token m1).1 with
     | Ok token =>
         Ok (request_sent (self m1) sid token method endpoint params json)
     | Raise e => Raise e
     end, m1).
Proof.
  intros Hgs. unfold _request_start, _get_auth_headers. unfold_monad.
  rewrite Hgs. cbv beta iota zeta.
  by destruct (generate_token_cases m1) as [[token ->]|[msg ->]].
Qed.

(** [_request] is its start followed by its finish. *)
Lemma request_in_two_phases (m : machine) (method endpoint : string)
    (params json : pyjson) :
  _request method endpoint params json m =
    (req ← _request_start method endpoint params json;
     _request_finish endpoint req) m.
Proof.
  destruct (get_session_spec m) as (sid & m1 & Hgs & _).
  rewrite (request_unfold m m1 sid) by done.
  unfold mbind, M_bind. rewrite (request_start_run m m1 sid) by done.
  by destruct (generate_token_cases m1) as [[token ->]|[msg ->]].
Qed.

Lemma request_finish_Ok (endpoint : string) (req : http_request)
    (m m' : machine) (body : pyjson) :
  _request_finish endpoint req m = (Ok body, m') →
  ∃ x, wire (outside m') = wire (outside m) ++ [x] ∧ sent x = req ∧
       answered x body ∧ self m' = self m.
Proof.
  unfold _request_finish. rewrite ClientSession_request_run. cbn [fst snd].
  intros [= Hr <-]. eexists. split; [done|]. split; [done|]. split; [|done].
  destruct (session_request req (world (outside m))).1 as [response|e]; simpl in *.
  - exists response. split; [done|]. revert Hr.
    change (Ok response ≫= classify_response endpoint)
      with (classify_response endpoint response).
    unfold classify_response, mbind, result_bind, except_ClientError.
    repeat case_match; intros; simplify_eq/=.
    split; [|done].
    match goal with Hge : (_ >=? 400) = false |- _ =>
      rewrite Z.geb_leb in Hge; by apply Z.leb_gt in Hge end.
  - by destruct (isinstance_ClientError e).
Qed.

Lemma finish_three {A : Type} (endpoint : string) (r1 r2 r3 : http_request)
    (g : pyjson → pyjson → pyjson → A) (m : machine) :
  let run := (a ← _request_finish endpoint r1;
              b ← _request_finish endpoint r2;
              c ← _request_finish endpoint r3;
              mret (g a b c)) m in
  match run.1 with
  | Ok v =>
      ∃ x1 x2 x3 b1 b2 b3,
        v = g b1 b2 b3 ∧
        wire (outside run.2) = wire (outside m) ++ [x1; x2; x3] ∧
        sent x1 = r1 ∧ sent x2 = r2 ∧ sent x3 = r3 ∧
        answered x1 b1 ∧ answered x2 b2 ∧ answered x3 b3
  | Raise _ => True
  end.
Proof.
  cbv zeta. unfold mbind, M_bind, mret, M_ret.
  destruct (_request_finish endpoint r1 m) as [[b1|e] m1] eqn:H1; [|done].
  destruct (_request_finish endpoint r2 m1) as [[b2|e] m2] eqn:H2; [|done].
  destruct (_request_finish endpoint r3 m2) as [[b3|e] m3] eqn:H3; [|done].
  simpl.
  destruct (request_finish_Ok _ _ _ _ _ H1) as (x1 & Hw1 & Hs1 & Ha1 & _).
  destruct (request_finish_Ok _ _ _ _ _ H2) as (x2 & Hw2 & Hs2 & Ha2 & _).
  destruct (request_finish_Ok _ _ _ _ _ H3) as (x3 & Hw3 & Hs3 & Ha3 & _).
  exists x1, x2, x3, b1, b2, b3. split_and!; try done.
  rewrite Hw3, Hw2, Hw1, <- !app_assoc. done.
Qed.

(** When [get_posts_count] returns, it has made three exchanges, one for
    each of the filters [status:published], [status:draft] and
    [status:scheduled], all answered with success; and whatever the order in
    which they completed, each count is the pagination total of the answer
    to its own filter. *)
Theorem get_posts_count_attributes_totals (order : completion) (m : machine) :
  let run := get_posts_count order m in
  match run.1 with
  | Raise _ => True
  | Ok counts =>
      ∃ (xp xd xs : exchange) (made : list exchange)
        (bp bd bs : pyjson) (np nd ns : Z),
        wire (outside run.2) = wire (outside m) ++ made ∧
        made ≡ₚ [xp; xd; xs] ∧
        req_params (sent xp) = count_params "status:published" ∧
        req_params (sent xd) = count_params "status:draft" ∧
        req_params (sent xs) = count_params "status:scheduled" ∧
        answered xp bp ∧ answered xd bd ∧ answered xs bs ∧
        pagination_total bp = Ok np ∧
        pagination_total bd = Ok nd ∧
        pagination_total bs = Ok ns ∧
        counts = {[ "published" := JInt np; "drafts" := JInt nd;
                    "scheduled" := JInt ns ]}
  end.
Proof.
  cbv zeta. destruct (get_posts_count order m) as [r m'] eqn:Hrun.
  cbn [fst snd].
  destruct (get_session_spec m) as (sid & m1 & Hgs & _ & _ & _ & _ & _ & Hw & _).
  pose proof (get_session_again m m1 sid Hgs) as Hgs1.
  unfold get_posts_count in Hrun. cbv zeta in Hrun.
  unfold mbind at 1 in Hrun. unfold M_bind at 1 in Hrun.
  unfold asyncio_gather3 in Hrun.
  rewrite (request_start_run m m1 sid) in Hrun by done.
  rewrite !(request_start_run m1 m1 sid) in Hrun by done.
  destruct (_generate_token m1).1 as [token|e]; [|by injection Hrun as <- <-].
  set (endpoint := "/ghost/api/admin/posts/"%string) in *.
  set (rp := request_sent (self m1) sid token "GET" endpoint
               (count_params "status:published") JNull) in *.
  set (rd := request_sent (self m1) sid token "GET" endpoint
               (count_params "status:draft") JNull) in *.
  set (rs := request_sent (self m1) sid token "GET" endpoint
               (count_params "status:scheduled") JNull) in *.
  assert (∀ (r1 r2 r3 : http_request)
            (g : pyjson → pyjson → pyjson → pyjson * pyjson * pyjson),
    (∀ x1 x2 x3 b1 b2 b3,
       sent x1 = r1 → sent x2 = r2 → sent x3 = r3 →
       answered x1 b1 → answered x2 b2 → answered x3 b3 →
       ∃ xp xd xs bp bd bs,
         g b1 b2 b3 = (bp, bd, bs) ∧ [x1; x2; x3] ≡ₚ [xp; xd; xs] ∧
         sent xp = rp ∧ sent xd = rd ∧ sent xs = rs ∧
         answered xp bp ∧ answered xd bd ∧ answered xs bs) →
    (let (r0, m0) := (a ← _request_finish endpoint r1;
                      b ← _request_finish endpoint r2;
                      c ← _request_finish endpoint r3;
                      mret (g a b c)) m1 in
     match r0 with
     | Ok a =>
         (let '(published, drafts, scheduled) := a in
          n_published ← lift (pagination_total published);
          n_drafts ← lift (pagination_total drafts);
          n_scheduled ← lift (pagination_total scheduled);
          mret ({[ "published" := JInt n_published;
                   "drafts" := JInt n_drafts;
                   "scheduled" := JInt n_scheduled ]} : gmap string pyjson)) m0
     | Raise e => (Raise e, m0)
     end) = (r, m') →
    match r with
    | Raise _ => True
    | Ok counts =>
        ∃ (xp xd xs : exchange) (made : list exchange)
          (bp bd bs : pyjson) (np nd ns : Z),
          wire (outside m') = wire (outside m) ++ made ∧
          made ≡ₚ [xp; xd; xs] ∧
          req_params (sent xp) = count_params "status:published" ∧
          req_params (sent xd) = count_params "status:draft" ∧
          req_params (sent xs) = count_params "status:scheduled" ∧
          answered xp bp ∧ answered xd bd ∧ answered xs bs ∧
          pagination_total bp = Ok np ∧
          pagination_total bd = Ok nd ∧
          pagination_total bs = Ok ns ∧
          counts = {[ "published" := JInt np; "drafts" := JInt nd;
                      "scheduled" := JInt ns ]}
    end) as Hcase.
  { clear Hrun. intros r1 r2 r3 g Hg Hrun.
    pose proof (finish_three endpoint r1 r2 r3 g m1) as H3. cbv zeta in H3.
    destruct ((a ← _request_finish endpoint r1;
               b ← _request_finish endpoint r2;
               c ← _request_finish endpoint r3;
               mret (g a b c)) m1) as [[v|e] m0]; [|by injection Hrun as <- <-].
    cbn [fst snd] in H3.
    destruct H3 as (x1 & x2 & x3 & b1 & b2 & b3 & -> & Hwire & Hs1 & Hs2 & Hs3
                    & Ha1 & Ha2 & Ha3).
    destruct (Hg x1 x2 x3 b1 b2 b3 Hs1 Hs2 Hs3 Ha1 Ha2 Ha3)
      as (xp & xd & xs & bp & bd & bs & Hgeq & Hperm & Hp & Hd & Hs & Hap & Had & Has).
    rewrite Hgeq in Hrun. unfold_monad.
    destruct (pagination_total bp) as [np|e] eqn:Hnp; [|by injection Hrun as <- <-].
    destruct (pagination_total bd) as [nd|e] eqn:Hnd; [|by injection Hrun as <- <-].
    destruct (pagination_total bs) as [ns|e] eqn:Hns; [|by injection Hrun as <- <-].
    injection Hrun as <- <-.
    exists xp, xd, xs, [x1; x2; x3], bp, bd, bs, np, nd, ns.
    rewrite Hp, Hd, Hs. rewrite Hwire, Hw. split_and!; done. }
  destruct order; cbv iota in Hrun.
  - apply (Hcase rp rd rs (λ a b c, (a, b, c))); [|exact Hrun].
    intros x1 x2 x3 b1 b2 b3 ? ? ? ? ? ?.
    exists x1, x2, x3, b1, b2, b3. split_and!; done.
  - apply (Hcase rp rs rd (λ a c b, (a, b, c))); [|exact Hrun].
    intros x1 x2 x3 b1 b2 b3 ? ? ? ? ? ?.
    exists x1, x3, x2, b1, b3, b2. split_and!; try done.
    apply perm_skip, perm_swap.
  - apply (Hcase rd rp rs (λ b a c, (a, b, c))); [|exact Hrun].
    intros x1 x2 x3 b1 b2 b3 ? ? ? ? ? ?.
    exists x2, x1, x3, b2, b1, b3. split_and!; try done.
    apply perm_swap.
  - apply (Hcase rd rs rp (λ b c a, (a, b, c))); [|exact Hrun].
    intros x1 x2 x3 b1 b2 b3 ? ? ? ? ? ?.
    exists x3, x1, x2, b3, b1, b2. split_and!; try done.
    symmetry. apply (Permutation_cons_append [x1; x2] x3).
  - apply (Hcase rs rp rd (λ c a b, (a, b, c))); [|exact Hrun].
    intros x1 x2 x3 b1 b2 b3 ? ? ? ? ? ?.
    exists x2, x3, x1, b2, b3, b1. split_and!; try done.
    apply (Permutation_cons_append [x2; x3] x1).
  - apply (Hcase rs rd rp (λ c b a, (a, b, c))); [|exact Hrun].
    intros x1 x2 x3 b1 b2 b3 ? ? ? ? ? ?.
    exists x3, x2, x1, b3, b2, b1. split_and!; try done.
    etrans; [apply (Permutation_cons_append [x2; x3] x1)|]. apply perm_swap.
Qed.

End OtherMethodsFacts.

(* ===================================================================== *)
(** * The scripts                                                        *)
(* ===================================================================== *)

Lemma str_contains_count (c : ascii) (s : string) :
  str_contains c s = negb (Nat.eqb (count c s) 0).
Proof.
  induction s as [|a s IH]; simpl; [done|].
  destruct (Ascii.eqb a c); simpl; done.
Qed.

Lemma split_not_nil (sep : ascii) (s : string) : split sep s ≠ [].
Proof.
  pose proof (split_length sep s) as Hl. intros Hnil. rewrite Hnil in Hl.
  simpl in Hl. lia.
Qed.


Lemma split_no_sep (sep : ascii) (s : string) :
  count sep s = 0%nat → split sep s = [s].
Proof.
  induction s as [|c s IH]; simpl; [done|].
  destruct (Ascii.eqb c sep); [done|]. intros Hc. by rewrite IH.
Qed.

Lemma split_app_sep (sep : ascii) (a b : string) :
  count sep a = 0%nat → split sep (a +:+ String sep b) = a :: split sep b.
Proof.
  intros Ha. induction a as [|c a IH]; simpl in *.
  - by rewrite Ascii.eqb_refl.
  - destruct (Ascii.eqb c sep); [done|]. by rewrite IH.
Qed.

(** Splitting what [join] made of lines gives the lines back. *)
Lemma split_concat (sep : ascii) (ls : list string) :
  ls ≠ [] → Forall (λ l, count sep l = 0%nat) ls →
  split sep (String.concat (String sep EmptyString) ls) = ls.
Proof.
  intros Hnil Hall. induction Hall as [|l ls Hl Hall IH]; [done|].
  destruct ls as [|l' ls].
  - simpl. by apply split_no_sep.
  - change (String.concat (String sep EmptyString) (l :: l' :: ls))
      with (l +:+ String sep (String.concat (String sep EmptyString) (l' :: ls))).
    rewrite (split_app_sep sep l _ Hl). f_equal. by apply IH.
Qed.

Lemma str_split1_contains (sep : ascii) (s : string) :
  str_contains sep s = true →
  ∃ a b, str_split1 sep s = [a; b] ∧ s = a +:+ String sep b ∧
         count sep a = 0%nat.
Proof.
  induction s as [|c s IH]; simpl; [done|].
  destruct (Ascii.eqb_spec c sep) as [->|Hne]; simpl.
  - intros _. by exists EmptyString, s.
  - intros Hc. destruct (IH Hc) as (a & b & -> & -> & Ha).
    exists (String c a), b. simpl.
    destruct (Ascii.eqb_spec c sep); [done|]. done.
Qed.

Lemma str_split1_at (sep : ascii) (a b : string) :
  count sep a = 0%nat → str_split1 sep (a +:+ String sep b) = [a; b].
Proof.
  intros Ha. induction a as [|c a IH]; simpl in *.
  - by rewrite Ascii.eqb_refl.
  - destruct (Ascii.eqb c sep); [done|]. by rewrite IH.
Qed.

Lemma str_contains_app_sep (sep : ascii) (a b : string) :
  str_contains sep (a +:+ String sep b) = true.
Proof.
  induction a as [|c a IH]; simpl; [by rewrite Ascii.eqb_refl|].
  rewrite IH. by destruct (Ascii.eqb c sep).
Qed.

(** ** scripts/setup.py *)

Lemma validate_api_key_cases (api_key : string) :
  (∃ key_id secret,
     split ":" api_key = [key_id; secret] ∧
     validate_api_key api_key =
       Ok (str_isalnum (str_remove "_" key_id) &&
           match fromhex secret with Ok _ => true | Raise _ => false end)) ∨
  (count ":" api_key ≠ 1%nat ∧ validate_api_key api_key = Ok false).
Proof.
  unfold validate_api_key. rewrite str_contains_count.
  pose proof (split_length ":" api_key) as Hl.
  destruct (count ":" api_key) as [|[|n]] eqn:Hc; simpl.
  - right. done.
  - left. destruct (split ":" api_key) as [|a [|b [|c l]]]; simpl in Hl; try lia.
    exists a, b. split; [done|]. simpl.
    destruct (str_isalnum (str_remove "_" a)); simpl; [|done].
    destruct (fromhex b) as [bs|e] eqn:Hb; simpl; [done|].
    by rewrite (fromhex_Raise _ _ Hb).
  - right. split; [done|].
    destruct (split ":" api_key) as [|a [|b [|c l]]]; simpl in Hl; try lia. done.
Qed.

(** [validate_api_key] never raises, and accepts exactly the keys that
    have one colon, an identifier that is alphanumeric once its underscores
    are taken out (so not empty, and not underscores only), and a secret
    that [bytes.fromhex] reads. *)
Theorem validate_api_key_characterised (api_key : string) :
  ∃ b : bool,
    validate_api_key api_key = Ok b ∧
    (b = true ↔
     ∃ key_id secret secret_bytes,
       split ":" api_key = [key_id; secret] ∧
       str_isalnum (str_remove "_" key_id) = true ∧
       fromhex secret = Ok secret_bytes).
Proof.
  destruct (validate_api_key_cases api_key)
    as [(key_id & secret & Hs & ->)|[Hc ->]].
  - eexists. split; [done|]. split.
    + intros Hb. apply andb_prop in Hb as [Ha Hh].
      destruct (fromhex secret) as [bs|e] eqn:Hf; [|done]. by exists key_id, secret, bs.
    + intros (k & s & bs & Hs' & Ha & Hf). rewrite Hs in Hs'.
      injection Hs' as <- <-. by rewrite Ha, Hf.
  - exists false. split; [done|]. split; [done|].
    intros (k & s & bs & Hs & _). by apply split_two_count in Hs.
Qed.

(** A key that the setup wizard accepts passes both checks of the client:
    token generation raises no GhostAuthError for it and goes on to
    [jwt.encode] with the bytes of its secret, whose outcome is the outcome.
    That is a token, or the exception of [jwt.encode]: the wizard accepts a
    key with an empty secret. *)
Theorem accepted_key_reaches_signing `{Platform} (m : machine) :
  validate_api_key (admin_api_key (self m)) = Ok true →
  ∃ key_id secret secret_bytes,
    split ":" (admin_api_key (self m)) = [key_id; secret] ∧
    fromhex secret = Ok secret_bytes ∧
    let now := utcnow (world (outside m)) in
    _generate_token m =
      (iat ← int_timestamp now;
       expiry ← datetime_add now (timedelta_minutes JWT_EXPIRY_MINUTES);
       exp ← int_timestamp expiry;
       jwt_outcome
         (jwt_encode
            {[ "iat" := JInt iat; "exp" := JInt exp; "aud" := JStr "/admin/" ]}
            secret_bytes "HS256"
            {[ "alg" := JStr "HS256"; "kid" := JStr key_id; "typ" := JStr "JWT" ]}),
       m).
Proof.
  intros Hv.
  destruct (validate_api_key_cases (admin_api_key (self m)))
    as [(key_id & secret & Hs & Heq)|[_ Heq]]; rewrite Heq in Hv; [|done].
  injection Hv as Hv. apply andb_prop in Hv as [_ Hh].
  destruct (fromhex secret) as [bs|e] eqn:Hf; [|done].
  exists key_id, secret, bs. split; [done|]. split; [done|].
  by apply (generate_token_signs m key_id secret bs).
Qed.

(** The wizard and the client do not draw the same line: the wizard
    refuses a key whose identifier has a character other than letters,
    digits and underscores although the client signs with it, and it accepts
    a key with an empty secret, which [jwt.encode] refuses. *)
Lemma wizard_and_client_differ :
  validate_api_key "my-key:0a0b" = Ok false ∧
  (∃ token, (_generate_token (scripted_machine 0 "my-key:0a0b" [])).1 = Ok token) ∧
  validate_api_key "abc:" = Ok true ∧
  (_generate_token (scripted_machine 0 "abc:" [])).1 =
    Raise (OtherException "InvalidKeyError").
Proof. vm_compute. split_and!; try done. by eexists. Qed.

(** ** scripts/batch_posts.py *)

Lemma prefix_first_line (sep : ascii) (p s : string) :
  count sep p = 0%nat →
  String.prefix p (hd EmptyString (split sep s)) = String.prefix p s.
Proof.
  revert s. induction p as [|a p IH]; intros s Hp.
  { destruct (hd EmptyString (split sep s)); by destruct s. }
  simpl in Hp. destruct (Ascii.eqb_spec a sep) as [->|Ha]; [done|].
  destruct s as [|c s]; [done|]. simpl.
  destruct (Ascii.eqb_spec c sep) as [->|Hc]; simpl.
  - by destruct (ascii_dec a sep).
  - pose proof (split_not_nil sep s) as Hnil.
    specialize (IH s Hp).
    destruct (split sep s) as [|w ws]; [done|]. simpl in *.
    by destruct (ascii_dec a c).
Qed.

Lemma find_end_none (i : Z) (ls : list string) :
  Forall (λ l, l ≠ "---"%string) ls → find_end i ls = -1.
Proof.
  intros Hall. revert i. induction Hall as [|l ls Hl _ IH]; intros i; [done|].
  simpl. destruct (String.eqb_spec l "---"); [done|]. apply IH.
Qed.

Lemma find_end_found (i : Z) (hs tl : list string) :
  Forall (λ l, l ≠ "---"%string) hs →
  find_end i (hs ++ "---"%string :: tl) = i + Z.of_nat (length hs).
Proof.
  intros Hall. revert i. induction Hall as [|l ls Hl _ IH]; intros i; simpl.
  - lia.
  - destruct (String.eqb_spec l "---"); [done|]. rewrite IH. lia.
Qed.

Lemma read_line_colon (metadata : gmap string string) (key value : string) :
  count ":" key = 0%nat →
  read_line metadata (key +:+ String ":" value) =
    Ok (<[str_strip key := str_strip value]> metadata).
Proof.
  intros Hk. unfold read_line.
  by rewrite str_contains_app_sep, (str_split1_at _ _ _ Hk).
Qed.

Lemma read_line_cases (metadata : gmap string string) (line : string) :
  (str_contains ":" line = false ∧ read_line metadata line = Ok metadata) ∨
  ∃ key value, line = key +:+ String ":" value ∧ count ":" key = 0%nat ∧
    read_line metadata line = Ok (<[str_strip key := str_strip value]> metadata).
Proof.
  destruct (str_contains ":" line) eqn:Hc.
  - right. destruct (str_split1_contains _ _ Hc) as (a & b & _ & -> & Ha).
    exists a, b. split; [done|]. split; [done|]. by apply read_line_colon.
  - left. split; [done|]. unfold read_line. by rewrite Hc.
Qed.

(** The loop over the lines of the front matter, from any dict. *)
Lemma for_each_read_line (header : list string) (md0 : gmap string string) :
  ∃ md,
    for_each header read_line md0 = Ok md ∧
    (∀ i key value,
       header !! i = Some (key +:+ String ":" value) →
       count ":" key = 0%nat →
       (∀ j key' value', (i < j)%nat →
          header !! j = Some (key' +:+ String ":" value') →
          count ":" key' = 0%nat → str_strip key' ≠ str_strip key) →
       md !! str_strip key = Some (str_strip value)) ∧
    (∀ k, (∀ i key value,
             header !! i = Some (key +:+ String ":" value) →
             count ":" key = 0%nat → str_strip key ≠ k) →
          md !! k = md0 !! k).
Proof.
  revert md0. induction header as [|line header IH]; intros md0.
  - exists md0. split_and!; [done| |done]. intros i key value Hi. done.
  - simpl.
    assert (∃ md1, read_line md0 line = Ok md1 ∧
              (∀ key value, line = key +:+ String ":" value →
                 count ":" key = 0%nat →
                 md1 = <[str_strip key := str_strip value]> md0) ∧
              (∀ k, (∀ key value, line = key +:+ String ":" value →
                       count ":" key = 0%nat → str_strip key ≠ k) →
                    md1 !! k = md0 !! k)) as (md1 & -> & Hset & Hother).
    { destruct (read_line_cases md0 line)
        as [[Hc ->]|(key & value & -> & Hk & ->)].
      - eexists. split; [done|]. split; [|done].
        intros key value -> _. by rewrite str_contains_app_sep in Hc.
      - eexists. split; [done|]. split.
        + intros key' value' Heq Hk'.
          pose proof (str_split1_at ":" key value Hk) as Hl.
          rewrite Heq, (str_split1_at ":" key' value' Hk') in Hl.
          by injection Hl as -> ->.
        + intros k Hne. rewrite lookup_insert_ne; [done|]. by apply (Hne key value). }
    destruct (IH md1) as (md & Hrun & Hlast & Hnone).
    exists md. split_and!; [done| |].
    + intros [|i] key value Hi Hk Hlater; simpl in Hi.
      * injection Hi as ->. rewrite Hnone.
        { rewrite (Hset key value eq_refl Hk). by rewrite lookup_insert_eq. }
        intros j key' value' Hj Hk'. apply (Hlater (S j) key' value'); [lia|done..].
      * apply (Hlast i key value Hi Hk).
        intros j key' value' Hlt Hj Hk'.
        apply (Hlater (S j) key' value'); [lia|done..].
    + intros k Hne. rewrite Hnone.
      * apply Hother. intros key value -> Hk. by apply (Hne 0%nat key value).
      * intros i key value Hi Hk. by apply (Hne (S i) key value).
Qed.

(** [parse_frontmatter] never raises, whatever the text: the unpacking
    of [line.split(":", 1)] into two names is only reached for a line with
    a colon, where the split has two parts. *)
Theorem parse_frontmatter_never_raises (content : string) :
  ∃ metadata body, parse_frontmatter content = Ok (metadata, body).
Proof.
  unfold parse_frontmatter.
  destruct (split "010" content) as [|line0 rest]; [by eexists _, _|].
  destruct (negb (String.prefix "---" line0)); [by eexists _, _|].
  destruct (find_end 1 (drop 1 (line0 :: rest)) =? -1); [by eexists _, _|].
  destruct (for_each_read_line
              (take (Z.to_nat (find_end 1 (drop 1 (line0 :: rest))) - 1)
                    (drop 1 (line0 :: rest))) ∅) as (md & -> & _).
  by eexists _, _.
Qed.

(** Text that does not start with [---], or that has no later line that
    is exactly [---], has no front matter: [parse_frontmatter] returns it
    whole, with no metadata. *)
Theorem parse_frontmatter_without_front_matter (content : string) :
  (String.prefix "---" content = false ∨
   Forall (λ l, l ≠ "---"%string) (drop 1 (split "010" content))) →
  parse_frontmatter content = Ok (∅, content).
Proof.
  intros Hno. unfold parse_frontmatter.
  pose proof (prefix_first_line "010" "---" content eq_refl) as Hp.
  destruct (split "010" content) as [|line0 rest]; [done|]. simpl in Hp.
  rewrite Hp. destruct Hno as [->|Hall]; [done|].
  destruct (String.prefix "---" content); [|done].
  change (drop 1 (line0 :: rest)) with rest in *.
  by rewrite (find_end_none 1 rest Hall).
Qed.

Lemma parse_frontmatter_formatted (opening : string)
    (header body_lines : list string) :
  String.prefix "---" opening = true →
  Forall (λ l, count "010" l = 0%nat) (opening :: header ++ body_lines) →
  Forall (λ l, l ≠ "---"%string) header →
  parse_frontmatter
    (String.concat (String "010" EmptyString)
       (opening :: header ++ "---"%string :: body_lines)) =
    (metadata ← for_each header read_line ∅;
     Ok (metadata, String.concat (String "010" EmptyString) body_lines)).
Proof.
  intros Hopen Hlines Hheader. unfold parse_frontmatter.
  rewrite split_concat; [|done|].
  2: { apply Forall_cons in Hlines as [Ho Hrest].
       apply Forall_app in Hrest as [Hh Hb].
       constructor; [done|]. apply Forall_app. split; [done|]. by constructor. }
  rewrite Hopen. simpl negb. cbv iota.
  change (drop 1 (opening :: header ++ "---"%string :: body_lines))
    with (header ++ "---"%string :: body_lines).
  rewrite (find_end_found 1 header body_lines Hheader).
  destruct (1 + Z.of_nat (length header) =? -1) eqn:Hneg;
    [apply Z.eqb_eq in Hneg; lia|].
  replace (Z.to_nat (1 + Z.of_nat (length header)) - 1)%nat
    with (length header) by lia.
  rewrite take_app_length.
  replace (Z.to_nat (1 + Z.of_nat (length header) + 1))
    with (S (S (length header))) by lia.
  change (drop (S (S (length header)))
            (opening :: header ++ "---"%string :: body_lines))
    with (drop (S (length header)) (header ++ "---"%string :: body_lines)).
  replace (S (length header)) with (length header + 1)%nat by lia.
  rewrite <- drop_drop, drop_app_length. simpl drop. done.
Qed.

(** Parsing what was laid out as an opening line that starts with [---],
    header lines, a line [---] and the lines of a body gives back the
    body, joined as it was: nothing of it is lost or changed. *)
Theorem parse_frontmatter_returns_body (opening : string)
    (header body_lines : list string) :
  String.prefix "---" opening = true →
  Forall (λ l, count "010" l = 0%nat) (opening :: header ++ body_lines) →
  Forall (λ l, l ≠ "---"%string) header →
  ∃ metadata,
    parse_frontmatter
      (String.concat (String "010" EmptyString)
         (opening :: header ++ "---"%string :: body_lines)) =
      Ok (metadata, String.concat (String "010" EmptyString) body_lines) ∧
    (Forall (λ l, str_contains ":" l = false) header → metadata = ∅).
Proof.
  intros Hopen Hlines Hheader.
  rewrite (parse_frontmatter_formatted _ _ _ Hopen Hlines Hheader).
  destruct (for_each_read_line header ∅) as (md & Hrun & _ & Hnone).
  exists md. rewrite Hrun. split; [done|].
  intros Hnocolon. apply map_eq. intros k. rewrite Hnone, lookup_empty; [done|].
  intros i key value Hi _.
  apply (Forall_lookup_1 _ _ _ _ Hnocolon) in Hi.
  by rewrite str_contains_app_sep in Hi.
Qed.

(** A header line [key: value] sets the key to the value, both without
    the whitespace around them; the value is everything after the first
    colon, further colons included; of two lines with the same key the later
    one counts. *)
Theorem parse_frontmatter_reads_key_value (opening : string)
    (header body_lines : list string) (i : nat) (key value : string) :
  String.prefix "---" opening = true →
  Forall (λ l, count "010" l = 0%nat) (opening :: header ++ body_lines) →
  Forall (λ l, l ≠ "---"%string) header →
  header !! i = Some (key +:+ String ":" value) →
  count ":" key = 0%nat →
  (∀ j key' value', (i < j)%nat →
     header !! j = Some (key' +:+ String ":" value') →
     count ":" key' = 0%nat → str_strip key' ≠ str_strip key) →
  ∃ metadata body,
    parse_frontmatter
      (String.concat (String "010" EmptyString)
         (opening :: header ++ "---"%string :: body_lines)) =
      Ok (metadata, body) ∧
    metadata !! str_strip key = Some (str_strip value).
Proof.
  intros Hopen Hlines Hheader Hi Hk Hlater.
  rewrite (parse_frontmatter_formatted _ _ _ Hopen Hlines Hheader).
  destruct (for_each_read_line header ∅) as (md & Hrun & Hlast & _).
  exists md. rewrite Hrun. eexists. split; [done|].
  by apply (Hlast i key value).
Qed.


(* ===================================================================== *)
(** * More concrete runs                                                 *)
(* ===================================================================== *)

(** A key without a colon: nothing is sent. *)
Lemma request_with_bad_credential_sends_nothing_witness :
  ∃ msg m',
    _request "GET" "/ghost/api/admin/site/" JNull JNull
      (scripted_machine 0 "invalid" []) = (Raise (GhostAuthError msg), m') ∧
    wire (outside m') = [] ∧
    world (outside m') = [].
Proof.
  apply (request_with_bad_credential_sends_nothing
           (scripted_machine 0 "invalid" []) "GET" "/ghost/api/admin/site/"
           JNull JNull).
  left. vm_compute. discriminate.
Defined.

(** The answer of the test suite: the shares of the one element of the
    history. *)
Lemma get_members_count_takes_latest_witness :
  (get_members_count
     (answering [Ok (json_response 200 (JDict members_body))])).1 =
  Ok {[ "total" := default (JInt 0) (members_body !! "total");
        "paid" := default (JInt 0) (latest_shares !! "paid");
        "free" := default (JInt 0) (latest_shares !! "free");
        "comped" := default (JInt 0) (latest_shares !! "comped") ]}.
Proof.
  set (m := answering [Ok (json_response 200 (JDict members_body))]).
  assert (_get "/ghost/api/admin/members/stats/count/" JNull m =
          (Ok (JDict members_body),
           (_get "/ghost/api/admin/members/stats/count/" JNull m).2)) as Hrun.
  { rewrite (surjective_pairing (_get _ JNull m)) at 1. f_equal. }
  destruct (get_members_count_takes_latest m _ members_body Hrun) as [_ Hlast].
  by rewrite (Hlast [JDict latest_shares] latest_shares eq_refl eq_refl).
Defined.

(** An answer without [meta]. *)
Lemma get_comments_count_defaults_witness :
  (@get_comments_count (scripted 0)
     (answering [Ok (json_response 200 (JDict ∅))])).1 = Ok 0.
Proof.
  set (m := answering [Ok (json_response 200 (JDict ∅))]).
  assert (_get "/ghost/api/admin/comments/" (JDict {[ "limit" := JInt 1 ]}) m =
          (Ok (JDict ∅),
           (_get "/ghost/api/admin/comments/" (JDict {[ "limit" := JInt 1 ]}) m).2))
    as Hrun.
  { rewrite (surjective_pairing (_get _ _ m)) at 1. f_equal. }
  destruct (@get_comments_count_defaults (scripted 0)
              m _ ∅ Hrun) as [Hnone _].
  by rewrite (Hnone eq_refl).
Defined.

(** The post of the test suite that was sent to nobody. *)
Lemma email_stats_nothing_sent_witness :
  ∃ stats,
    _build_email_stats (JDict unsent_post) = Ok stats ∧
    stats !! "email_count" = Some (JInt 0) ∧
    stats !! "open_rate" = Some (JInt 0) ∧
    stats !! "click_rate" = Some (JInt 0).
Proof.
  apply (email_stats_nothing_sent unsent_post unsent_email 0).
  - reflexivity.
  - by left.
  - reflexivity.
  - lia.
Defined.

(** The newsletter of the test suite: 45 and 12 per cent. *)
Lemma email_stats_rates_witness :
  ∃ stats open_rate click_rate,
    _build_email_stats (JDict newsletter_post) = Ok stats ∧
    stats !! "clicked_count" = Some (JInt 120) ∧
    stats !! "open_rate" = Some (JInt open_rate) ∧
    Z.abs (2 * (1000 * open_rate - 100 * 450)) ≤ 1000 ∧
    stats !! "click_rate" = Some (JInt click_rate) ∧
    Z.abs (2 * (1000 * click_rate - 100 * 120)) ≤ 1000 ∧
    stats !! "title" = Some (default JNull (newsletter_post !! "title")) ∧
    stats !! "subject" = Some (default JNull (newsletter_email !! "subject")).
Proof.
  apply (email_stats_rates newsletter_post newsletter_email
           newsletter_clicks 1000 450 120).
  - reflexivity.
  - reflexivity.
  - reflexivity.
  - lia.
  - reflexivity.
  - lia.
  - right. right. reflexivity.
  - lia.
Defined.

Example email_stats_of_the_newsletter :
  match _build_email_stats (JDict newsletter_post) with
  | Ok stats =>
      stats !! "open_rate" = Some (JInt 45) ∧ stats !! "click_rate" = Some (JInt 12)
  | Raise _ => False
  end.
Proof. vm_compute. done. Qed.

(** Three posts, the second of which is the first with an email. *)
Lemma get_latest_email_takes_first_witness :
  (@get_latest_email (scripted 0)
     (answering [Ok (json_response 200 (JDict posts_body))])).1 =
  match _build_email_stats (JDict newsletter_post) with
  | Ok stats => Ok (JDict stats)
  | Raise e => Raise e
  end.
Proof.
  set (m := answering [Ok (json_response 200 (JDict posts_body))]).
  set (params := JDict {[ "limit" := JInt 10; "order" := JStr "published_at desc";
                          "filter" := JStr "status:published";
                          "include" := JStr "email,count.clicks" ]}).
  assert (_get "/ghost/api/admin/posts/" params m =
          (Ok (JDict posts_body), (_get "/ghost/api/admin/posts/" params m).2))
    as Hrun.
  { rewrite (surjective_pairing (_get _ _ m)) at 1. f_equal. }
  destruct (@get_latest_email_takes_first (scripted 0) m _
              posts_body
              [JDict plain_post; JDict newsletter_post; JDict unsent_post]
              Hrun eq_refl) as [Hfirst _].
  rewrite (Hfirst [JDict plain_post] (JDict newsletter_post) [JDict unsent_post]
             newsletter_post eq_refl); [done| |done|reflexivity].
  constructor; [|constructor]. exists plain_post. split; [reflexivity|].
  vm_compute. reflexivity.
Defined.

(** The key of the test suite passes the wizard, and is signed with. *)
Lemma accepted_key_reaches_signing_witness :
  ∃ key_id secret secret_bytes,
    split ":" API_KEY = [key_id; secret] ∧
    fromhex secret = Ok secret_bytes ∧
    (_generate_token (answering [])).1 = Ok API_TOKEN.
Proof.
  destruct (accepted_key_reaches_signing (answering []))
    as (key_id & secret & secret_bytes & Hs & Hb & Hrun); [reflexivity|].
  exists key_id, secret, secret_bytes. split; [done|]. split; [done|].
  rewrite Hrun. vm_compute in Hs. injection Hs as <- <-.
  vm_compute in Hb. injection Hb as <-. vm_compute. reflexivity.
Defined.

(** A file that starts with its heading. *)
Lemma parse_frontmatter_without_front_matter_witness :
  parse_frontmatter
    (String.concat (String "010" EmptyString) ["# Heading"; "text"; "---"; "more"]) =
  Ok (∅, String.concat (String "010" EmptyString) ["# Heading"; "text"; "---"; "more"]).
Proof.
  apply parse_frontmatter_without_front_matter. left. reflexivity.
Defined.

(** A file with a header of three lines and a body of three. *)
Lemma parse_frontmatter_returns_body_witness :
  ∃ metadata,
    parse_frontmatter
      (String.concat (String "010" EmptyString)
         ("---"%string :: file_header ++ "---"%string :: file_body)) =
      Ok (metadata, String.concat (String "010" EmptyString) file_body) ∧
    (Forall (λ l, str_contains ":" l = false) file_header → metadata = ∅).
Proof.
  apply (parse_frontmatter_returns_body "---" file_header file_body).
  - reflexivity.
  - repeat constructor.
  - repeat constructor; discriminate.
Defined.

(** In that file the title is that of the later line, with its second
    colon and without the blanks around it. *)
Lemma parse_frontmatter_reads_key_value_witness :
  ∃ metadata body,
    parse_frontmatter
      (String.concat (String "010" EmptyString)
         ("---"%string :: file_header ++ "---"%string :: file_body)) =
      Ok (metadata, body) ∧
    metadata !! str_strip "title" = Some (str_strip "  Second: part two ").
Proof.
  apply (parse_frontmatter_reads_key_value "---" file_header file_body 2
           "title" "  Second: part two ").
  - reflexivity.
  - repeat constructor.
  - repeat constructor; discriminate.
  - reflexivity.
  - reflexivity.
  - intros [|[|[|j]]] key' value' Hlt Hj; simpl in Hj; try lia; discriminate.
Defined.

(** The answers of the test suite, taken in the order in which the
    requests were made and in another one. *)
Example get_posts_count_in_order :
  (@get_posts_count (scripted 0) C012
     (answering [Ok (json_response 200 (total_body 42));
                 Ok (json_response 200 (total_body 5));
                 Ok (json_response 200 (total_body 2))])).1 =
  Ok {[ "published" := JInt 42; "drafts" := JInt 5; "scheduled" := JInt 2 ]}.
Proof. vm_compute. reflexivity. Qed.

Example get_posts_count_out_of_order :
  (@get_posts_count (scripted 0) C201
     (answering [Ok (json_response 200 (total_body 2));
                 Ok (json_response 200 (total_body 42));
                 Ok (json_response 200 (total_body 5))])).1 =
  Ok {[ "published" := JInt 42; "drafts" := JInt 5; "scheduled" := JInt 2 ]}.
Proof. vm_compute. reflexivity. Qed.

Example str_strip_examples :
  str_strip "  Second: part two " = "Second: part two"%string ∧
  tags_of {[ "tags" := "news, web"%string ]} = Some ["news"; " web"]%string ∧
  tags_of {[ "tags" := EmptyString ]} = None ∧
  validate_api_key API_KEY = Ok true ∧
  validate_api_key "___:00" = Ok false ∧
  validate_api_key "a:b:c" = Ok false ∧
  validate_api_key "abc:0g" = Ok false.
Proof. vm_compute. done. Qed.

(** A site that answers 404 to everything: the tiers and the latest post
    raise, the post by its id is [None]. *)
Example not_found_raised_or_downgraded :
  (get_tiers (answering [Ok (text_response 404 "Not Found")])).1 =
    Raise (GhostNotFoundError "Resource not found: /ghost/api/admin/tiers/") ∧
  (get_latest_post (answering [Ok (text_response 404 "Not Found")])).1 =
    Raise (GhostNotFoundError "Resource not found: /ghost/api/admin/posts/") ∧
  (get_post "abc" (answering [Ok (text_response 404 "Not Found")])).1 = Ok JNull ∧
  received_404 (answering [Ok (text_response 404 "Not Found")])
    (_get "/ghost/api/admin/tiers/" JNull
       (answering [Ok (text_response 404 "Not Found")])).2.
Proof.
  split_and!; [reflexivity..|].
  eexists _, _. split_and!; reflexivity.
Qed.

(** [int] on the totals that arrive as text. *)
Example int_of_str_examples :
  int_of_str "42" = Ok 42 ∧ int_of_str " -1_000 " = Ok (-1000) ∧
  int_of_str "007" = Ok 7 ∧ int_of_str "4__2" = Raise (ValueError "") ∧
  int_of_str "" = Raise (ValueError "") ∧ int_of_str "4.0" = Raise (ValueError "") ∧
  (@get_comments_count (scripted 0)
     (answering
        [Ok (json_response 200
               (JDict {[ "meta" :=
                           JDict {[ "pagination" :=
                                      JDict {[ "total" := JStr "156" ]} ]} ]}))])).1
  = Ok 156.
Proof. vm_compute. done. Qed.
